(** * LibraryFlow: a model of the storage layer and of the request handlers

    The development embeds the server side of the library-management
    application: the relational schema ([shared/schema.ts]), the storage
    class [DatabaseStorage] ([server/storage.ts]), the demo login and the
    session check of [server/simpleAuth.ts] and the handlers registered in
    [server/routes.ts].

    Conventions of the model.
    - A table is the list of its rows, in insertion order.  A [serial]
      primary key is drawn from a per-table counter kept in the store.
    - A [timestamp] is a number of milliseconds since the epoch, on one
      time line for the server and the database.  Every reading of a
      clock is an argument of the function that reads it: the
      [new Date()] of the handlers and of the storage class on one side,
      the [now()] evaluated by the database on the other.  The time zone
      of the server is an argument of what computes with local time.
    - A request body is the value that [express.json()] parsed, at the
      type that the storage signature gives it ([Partial<Reservation>],
      [Partial<Book>]): the columns it names, each with a value of the
      column's type.  JSON has no value of the type of a [timestamp]
      column: for such a column the body holds null or a string.
    - A [decimal(10,2)] amount is the integer number of its hundredths.
      The handlers go through [parseFloat]; on amounts of this precision
      the difference of two parsed values, written back into a
      [decimal(10,2)] column, is the exact difference, which is what the
      model computes.
    - A string is the list of its characters.
    - An awaited storage call throws when the query builder cannot build
      its statement (an update that names no column, a value without
      [toISOString] for a [timestamp] column) and when the database
      refuses the statement: a value outside [integer] or too long for
      [varchar(13)], NULL for a [notNull] column, a reference that does
      not resolve or that the statement would leave dangling, an ISBN or
      a rewritten key that another row holds.  The [catch] arm of the
      handler then answers 500.  A refused insertion has drawn its key
      from the sequence all the same.  The identifier in the path of a
      request and the book that a reservation request names are taken to
      be [integer]s, and every instant to be within the range of a
      [Date]. *)

From Stdlib Require Import ZArith List Ascii String Bool Lia Permutation.
From Stdlib Require Import Sorted.
Import ListNotations.
Open Scope string_scope.
Open Scope list_scope.
Open Scope Z_scope.

Set Implicit Arguments.

(** ** Column types *)

Definition Timestamp := Z.
Definition Decimal := Z.

(** [{ ...row, ...updates }] on one column: an absent key keeps the old
    value. *)
Definition assign {A : Type} (update : option A) (old : A) : A :=
  match update with
  | Some v => v
  | None => old
  end.

(** [integer]: 32 bits, signed. *)
Definition int4 (n : Z) : bool := (-2147483648 <=? n) && (n <=? 2147483647).

Definition int4_or_null (n : option Z) : bool :=
  match n with
  | Some n' => int4 n'
  | None => true
  end.

Fixpoint all_spaces (s : string) : bool :=
  match s with
  | EmptyString => true
  | String c s' => (Ascii.eqb c " ")%char && all_spaces s'
  end.

(** Assignment to a [varchar(n)] column: a value of more than [n]
    characters is refused, unless the characters in excess are spaces,
    which are cut off. *)
Definition varchar (n : nat) (s : string) : option string :=
  if (String.length s <=? n)%nat then Some s
  else if all_spaces (substring n (String.length s - n) s)
       then Some (substring 0 n s)
       else None.

(** [decimal(10,2)]: at most eight digits before the point. *)
Definition decimal_10_2 (d : Decimal) : bool := Z.abs d <? 10000000000.

(** The value that a body parsed from JSON holds under a key that names a
    [timestamp] column: null, or a value that is not a [Date], such as
    the string that [JSON.stringify] makes of a date. *)
Inductive JsonTime : Type :=
| JsonNull
| JsonText (text : string).

(** [PgTimestamp.mapToDriverValue], which the query builder applies to
    every value that is not null: [value.toISOString()].  A value parsed
    from JSON has no such method and the call throws, which is the
    result [None]. *)
Definition mapToDriverValue (value : JsonTime) : option (option Timestamp) :=
  match value with
  | JsonNull => Some None
  | JsonText _ => None
  end.

(** The same for a key that may be absent from the body. *)
Definition sent (value : option JsonTime)
    : option (option (option Timestamp)) :=
  match value with
  | None => Some None
  | Some v => option_map Some (mapToDriverValue v)
  end.

Definition absent {A : Type} (value : option A) : bool :=
  match value with
  | Some _ => false
  | None => true
  end.

(** ** The schema *)

Module User.
Record t := mk {
  id : string;
  email : option string;
  firstName : option string;
  lastName : option string;
  profileImageUrl : option string;
  role : string;
  stripeCustomerId : option string;
  stripeSubscriptionId : option string;
  outstandingFines : option Decimal;
  createdAt : option Timestamp;
  updatedAt : option Timestamp
}.

Module Partial.
Record t := mk {
  id : option string;
  email : option (option string);
  firstName : option (option string);
  lastName : option (option string);
  profileImageUrl : option (option string);
  role : option string;
  stripeCustomerId : option (option string);
  stripeSubscriptionId : option (option string);
  outstandingFines : option (option Decimal);
  createdAt : option (option Timestamp);
  updatedAt : option (option Timestamp)
}.
End Partial.

Definition set (updates : Partial.t) (u : t) : t :=
  {| id := assign (Partial.id updates) (id u);
     email := assign (Partial.email updates) (email u);
     firstName := assign (Partial.firstName updates) (firstName u);
     lastName := assign (Partial.lastName updates) (lastName u);
     profileImageUrl :=
       assign (Partial.profileImageUrl updates) (profileImageUrl u);
     role := assign (Partial.role updates) (role u);
     stripeCustomerId :=
       assign (Partial.stripeCustomerId updates) (stripeCustomerId u);
     stripeSubscriptionId :=
       assign (Partial.stripeSubscriptionId updates)
              (stripeSubscriptionId u);
     outstandingFines :=
       assign (Partial.outstandingFines updates) (outstandingFines u);
     createdAt := assign (Partial.createdAt updates) (createdAt u);
     updatedAt := assign (Partial.updatedAt updates) (updatedAt u) |}.
End User.

Module Book.
Record t := mk {
  id : Z;
  title : string;
  author : string;
  isbn : option string;
  genre : string;
  description : option string;
  coverUrl : option string;
  publicationYear : option Z;
  totalCopies : Z;
  availableCopies : Z;
  createdAt : option Timestamp;
  updatedAt : option Timestamp
}.

Module Partial.
Record t := mk {
  id : option Z;
  title : option string;
  author : option string;
  isbn : option (option string);
  genre : option string;
  description : option (option string);
  coverUrl : option (option string);
  publicationYear : option (option Z);
  totalCopies : option Z;
  availableCopies : option Z;
  createdAt : option (option Timestamp);
  updatedAt : option (option Timestamp)
}.
End Partial.

(** [InsertBook]: the columns of the table without [id], [createdAt]
    and [updatedAt]; a column with a default or without [notNull] may
    be absent. *)
Module Insert.
Record t := mk {
  title : string;
  author : string;
  isbn : option string;
  genre : string;
  description : option string;
  coverUrl : option string;
  publicationYear : option Z;
  totalCopies : option Z;
  availableCopies : option Z
}.
End Insert.

(** The JSON body of a create request, before validation. *)
Module Body.
Record t := mk {
  title : option string;
  author : option string;
  isbn : option string;
  genre : option string;
  description : option string;
  coverUrl : option string;
  publicationYear : option Z;
  totalCopies : option Z;
  availableCopies : option Z
}.
End Body.

(** The JSON body of an update request. *)
Module Update.
Record t := mk {
  id : option Z;
  title : option string;
  author : option string;
  isbn : option (option string);
  genre : option string;
  description : option (option string);
  coverUrl : option (option string);
  publicationYear : option (option Z);
  totalCopies : option Z;
  availableCopies : option Z;
  createdAt : option JsonTime;
  updatedAt : option JsonTime
}.
End Update.

(** [set({ ...updates, updatedAt: new Date() })]: the values that the
    query builder sends, when it does not throw. *)
Definition values (updates : Update.t) (now : Timestamp) : option Partial.t :=
  match sent (Update.createdAt updates) with
  | None => None
  | Some createdAt =>
      Some {| Partial.id := Update.id updates;
              Partial.title := Update.title updates;
              Partial.author := Update.author updates;
              Partial.isbn := Update.isbn updates;
              Partial.genre := Update.genre updates;
              Partial.description := Update.description updates;
              Partial.coverUrl := Update.coverUrl updates;
              Partial.publicationYear := Update.publicationYear updates;
              Partial.totalCopies := Update.totalCopies updates;
              Partial.availableCopies := Update.availableCopies updates;
              Partial.createdAt := createdAt;
              Partial.updatedAt := Some (Some now) |}
  end.

(** The values as the columns of the table take them: every number an
    [integer], the ISBN cut to the width of its column; none when a
    column refuses its value. *)
Definition typed (values : Partial.t) : option Partial.t :=
  let isbn :=
    match Partial.isbn values with
    | Some (Some isbn) => option_map (fun s => Some (Some s)) (varchar 13 isbn)
    | other => Some other
    end in
  match isbn with
  | None => None
  | Some isbn' =>
      if int4_or_null (Partial.id values)
         && match Partial.publicationYear values with
            | Some year => int4_or_null year
            | None => true
            end
         && int4_or_null (Partial.totalCopies values)
         && int4_or_null (Partial.availableCopies values)
      then Some {| Partial.id := Partial.id values;
                   Partial.title := Partial.title values;
                   Partial.author := Partial.author values;
                   Partial.isbn := isbn';
                   Partial.genre := Partial.genre values;
                   Partial.description := Partial.description values;
                   Partial.coverUrl := Partial.coverUrl values;
                   Partial.publicationYear := Partial.publicationYear values;
                   Partial.totalCopies := Partial.totalCopies values;
                   Partial.availableCopies := Partial.availableCopies values;
                   Partial.createdAt := Partial.createdAt values;
                   Partial.updatedAt := Partial.updatedAt values |}
      else None
  end.

Definition set (updates : Partial.t) (b : t) : t :=
  {| id := assign (Partial.id updates) (id b);
     title := assign (Partial.title updates) (title b);
     author := assign (Partial.author updates) (author b);
     isbn := assign (Partial.isbn updates) (isbn b);
     genre := assign (Partial.genre updates) (genre b);
     description := assign (Partial.description updates) (description b);
     coverUrl := assign (Partial.coverUrl updates) (coverUrl b);
     publicationYear :=
       assign (Partial.publicationYear updates) (publicationYear b);
     totalCopies := assign (Partial.totalCopies updates) (totalCopies b);
     availableCopies :=
       assign (Partial.availableCopies updates) (availableCopies b);
     createdAt := assign (Partial.createdAt updates) (createdAt b);
     updatedAt := assign (Partial.updatedAt updates) (updatedAt b) |}.
End Book.

Module Reservation.
Record t := mk {
  id : Z;
  userId : string;
  bookId : Z;
  status : string;
  reservedAt : option Timestamp;
  dueDate : Timestamp;
  completedAt : option Timestamp
}.

(** [Partial<Reservation>], as the query builder sends it: a column may
    be given as NULL whether or not the table takes it. *)
Module Partial.
Record t := mk {
  id : option Z;
  userId : option string;
  bookId : option Z;
  status : option string;
  reservedAt : option (option Timestamp);
  dueDate : option (option Timestamp);
  completedAt : option (option Timestamp)
}.
End Partial.

(** The JSON body of an update request. *)
Module Update.
Record t := mk {
  id : option Z;
  userId : option string;
  bookId : option Z;
  status : option string;
  reservedAt : option JsonTime;
  dueDate : option JsonTime;
  completedAt : option JsonTime
}.
End Update.

(** [Object.entries(values).length === 0], on which the query builder
    throws "No values to set". *)
Definition no_values (updates : Update.t) : bool :=
  absent (Update.id updates) && absent (Update.userId updates)
  && absent (Update.bookId updates) && absent (Update.status updates)
  && absent (Update.reservedAt updates) && absent (Update.dueDate updates)
  && absent (Update.completedAt updates).

(** [set(updates)]: the values that the query builder sends, when it does
    not throw. *)
Definition values (updates : Update.t) : option Partial.t :=
  if no_values updates then None
  else
    match sent (Update.reservedAt updates), sent (Update.dueDate updates),
          sent (Update.completedAt updates) with
    | Some reservedAt, Some dueDate, Some completedAt =>
        Some {| Partial.id := Update.id updates;
                Partial.userId := Update.userId updates;
                Partial.bookId := Update.bookId updates;
                Partial.status := Update.status updates;
                Partial.reservedAt := reservedAt;
                Partial.dueDate := dueDate;
                Partial.completedAt := completedAt |}
    | _, _, _ => None
    end.

(** [InsertReservation]: no [id], no [reservedAt]. *)
Module Insert.
Record t := mk {
  userId : string;
  bookId : Z;
  status : option string;
  dueDate : Timestamp;
  completedAt : option Timestamp
}.
End Insert.

Definition set (updates : Partial.t) (r : t) : t :=
  {| id := assign (Partial.id updates) (id r);
     userId := assign (Partial.userId updates) (userId r);
     bookId := assign (Partial.bookId updates) (bookId r);
     status := assign (Partial.status updates) (status r);
     reservedAt := assign (Partial.reservedAt updates) (reservedAt r);
     dueDate := match Partial.dueDate updates with
                | Some (Some dueDate) => dueDate
                | _ => dueDate r
                end;
     completedAt := assign (Partial.completedAt updates) (completedAt r) |}.
End Reservation.

Module Fine.
Record t := mk {
  id : Z;
  userId : string;
  reservationId : option Z;
  amount : Decimal;
  reason : string;
  status : string;
  createdAt : option Timestamp;
  paidAt : option Timestamp
}.
End Fine.

Module Payment.
Record t := mk {
  id : Z;
  userId : string;
  fineId : option Z;
  amount : Decimal;
  stripePaymentIntentId : option string;
  status : string;
  createdAt : option Timestamp;
  completedAt : option Timestamp
}.

Module Partial.
Record t := mk {
  id : option Z;
  userId : option string;
  fineId : option (option Z);
  amount : option Decimal;
  stripePaymentIntentId : option (option string);
  status : option string;
  createdAt : option (option Timestamp);
  completedAt : option (option Timestamp)
}.
End Partial.

Definition set (updates : Partial.t) (p : t) : t :=
  {| id := assign (Partial.id updates) (id p);
     userId := assign (Partial.userId updates) (userId p);
     fineId := assign (Partial.fineId updates) (fineId p);
     amount := assign (Partial.amount updates) (amount p);
     stripePaymentIntentId :=
       assign (Partial.stripePaymentIntentId updates)
              (stripePaymentIntentId p);
     status := assign (Partial.status updates) (status p);
     createdAt := assign (Partial.createdAt updates) (createdAt p);
     completedAt := assign (Partial.completedAt updates) (completedAt p) |}.
End Payment.

(** ** The store *)

Module Store.
Record t := mk {
  users : list User.t;
  books : list Book.t;
  reservations : list Reservation.t;
  fines : list Fine.t;
  payments : list Payment.t;
  books_id_seq : Z;
  reservations_id_seq : Z
}.

Definition with_users (l : list User.t) (st : t) : t :=
  mk l (books st) (reservations st) (fines st) (payments st)
     (books_id_seq st) (reservations_id_seq st).

Definition with_books (l : list Book.t) (st : t) : t :=
  mk (users st) l (reservations st) (fines st) (payments st)
     (books_id_seq st) (reservations_id_seq st).

Definition with_reservations (l : list Reservation.t) (st : t) : t :=
  mk (users st) (books st) l (fines st) (payments st)
     (books_id_seq st) (reservations_id_seq st).

Definition with_payments (l : list Payment.t) (st : t) : t :=
  mk (users st) (books st) (reservations st) (fines st) l
     (books_id_seq st) (reservations_id_seq st).

Definition insert_book (b : Book.t) (st : t) : t :=
  mk (users st) (books st ++ [b]) (reservations st) (fines st) (payments st)
     (books_id_seq st + 1) (reservations_id_seq st).

Definition insert_reservation (r : Reservation.t) (st : t) : t :=
  mk (users st) (books st) (reservations st ++ [r]) (fines st) (payments st)
     (books_id_seq st) (reservations_id_seq st + 1).

(** [nextval] of a sequence, for an insertion that is then refused. *)
Definition nextval_books (st : t) : t :=
  mk (users st) (books st) (reservations st) (fines st) (payments st)
     (books_id_seq st + 1) (reservations_id_seq st).

Definition nextval_reservations (st : t) : t :=
  mk (users st) (books st) (reservations st) (fines st) (payments st)
     (books_id_seq st) (reservations_id_seq st + 1).
End Store.

(** ** Awaited storage calls: a state monad over the store *)

Definition DB (A : Type) : Type := Store.t -> A * Store.t.

Definition ret {A : Type} (a : A) : DB A := fun st => (a, st).

Definition bind {A B : Type} (m : DB A) (k : A -> DB B) : DB B :=
  fun st => let (a, st') := m st in k a st'.

Definition query {A : Type} (f : Store.t -> A) : DB A :=
  fun st => (f st, st).

Definition exec (f : Store.t -> Store.t) : DB unit :=
  fun st => (tt, f st).

(** The outcome of an awaited storage call: the value that the promise
    resolves to, or an error thrown. *)
Inductive Awaited (A : Type) : Type :=
| Resolved (value : A)
| Thrown.

Arguments Resolved {A} value.
Arguments Thrown {A}.

(** [try { const value = await call; rest } catch (error) { caught }] *)
Definition attempt {A B : Type} (call : DB (Awaited A)) (rest : A -> DB B)
    (caught : DB B) : DB B :=
  fun st =>
    match call st with
    | (Resolved value, st') => rest value st'
    | (Thrown, st') => caught st'
    end.

Declare Scope db_scope.
Delimit Scope db_scope with db.
Notation "x <- m ;; k" := (bind m (fun x => k))
  (at level 61, m at next level, right associativity) : db_scope.
Notation "m ;;; k" := (bind m (fun _ => k))
  (at level 61, right associativity) : db_scope.
Open Scope db_scope.

(** ** Query fragments *)

(** [ORDER BY key DESC]: greatest first, NULL before every value; rows
    with equal keys keep their table order. *)
Definition desc_before (a b : option Timestamp) : bool :=
  match a, b with
  | None, _ => true
  | Some _, None => false
  | Some x, Some y => y <=? x
  end.

Fixpoint insert_desc {A : Type} (key : A -> option Timestamp)
    (x : A) (l : list A) : list A :=
  match l with
  | [] => [x]
  | y :: l' =>
      if desc_before (key x) (key y) then x :: y :: l'
      else y :: insert_desc key x l'
  end.

Fixpoint orderBy_desc {A : Type} (key : A -> option Timestamp)
    (l : list A) : list A :=
  match l with
  | [] => []
  | x :: l' => insert_desc key x (orderBy_desc key l')
  end.

(** [const [row] = await ...]: the first row of a result, if any. *)
Definition first {A : Type} (rows : list A) : option A := hd_error rows.

(** [SUM(column)], with the value 0 for the NULL of an empty selection. *)
Definition sum (l : list Z) : Z := fold_right Z.add 0 l.

(** [COUNT( * )]. *)
Definition count {A : Type} (l : list A) : Z := Z.of_nat (List.length l).

(** [UPDATE table SET ... WHERE id = ... RETURNING *]: the rewritten table
    and the rows that were rewritten. *)
Definition update_where {A : Type} (cond : A -> bool) (f : A -> A)
    (l : list A) : list A :=
  map (fun x => if cond x then f x else x) l.

Definition returning {A : Type} (cond : A -> bool) (f : A -> A)
    (l : list A) : list A :=
  map f (filter cond l).

(** ** What the constraints of the schema look up *)

Definition has_user (id : string) (st : Store.t) : bool :=
  existsb (fun u => (User.id u =? id)%string) (Store.users st).

Definition has_book (id : Z) (st : Store.t) : bool :=
  existsb (fun b => Book.id b =? id) (Store.books st).

Definition has_reservation (id : Z) (st : Store.t) : bool :=
  existsb (fun r => Reservation.id r =? id) (Store.reservations st).

(** A reservation refers to the book. *)
Definition book_is_referenced (id : Z) (st : Store.t) : bool :=
  existsb (fun r => Reservation.bookId r =? id) (Store.reservations st).

(** A fine refers to the reservation. *)
Definition reservation_is_referenced (id : Z) (st : Store.t) : bool :=
  existsb (fun f => match Fine.reservationId f with
                    | Some reservationId => reservationId =? id
                    | None => false
                    end)
          (Store.fines st).

(** A book among those selected holds the ISBN. *)
Definition isbn_is_held (isbn : option string) (among : Book.t -> bool)
    (st : Store.t) : bool :=
  match isbn with
  | Some isbn' =>
      existsb (fun b => among b
                        && match Book.isbn b with
                           | Some held => (held =? isbn')%string
                           | None => false
                           end)
              (Store.books st)
  | None => false
  end.

(** ** [DatabaseStorage] *)

Definition getUser (id : string) : DB (option User.t) :=
  query (fun st =>
    first (filter (fun u => User.id u =? id)%string (Store.users st))).

Definition getAllUsers : DB (list User.t) :=
  query (fun st => orderBy_desc User.createdAt (Store.users st)).

Definition updateUser (id : string) (updates : User.Partial.t)
    (now : Timestamp) : DB (option User.t) :=
  fun st =>
    let cond := fun u => (User.id u =? id)%string in
    let f := fun u =>
      User.set {| User.Partial.id := None;
                  User.Partial.email := None;
                  User.Partial.firstName := None;
                  User.Partial.lastName := None;
                  User.Partial.profileImageUrl := None;
                  User.Partial.role := None;
                  User.Partial.stripeCustomerId := None;
                  User.Partial.stripeSubscriptionId := None;
                  User.Partial.outstandingFines := None;
                  User.Partial.createdAt := None;
                  User.Partial.updatedAt := Some (Some now) |}
               (User.set updates u) in
    (first (returning cond f (Store.users st)),
     Store.with_users (update_where cond f (Store.users st)) st).

Definition getBook (id : Z) : DB (option Book.t) :=
  query (fun st => first (filter (fun b => Book.id b =? id) (Store.books st))).

(** [book] has passed [insertBookSchema]: its values are of the types of
    the columns.  The insertion is refused when the ISBN is that of a
    stored book. *)
Definition createBook (book : Book.Insert.t) (dbNow : Timestamp)
    : DB (Awaited Book.t) :=
  fun st =>
    let newBook :=
      {| Book.id := Store.books_id_seq st;
         Book.title := Book.Insert.title book;
         Book.author := Book.Insert.author book;
         Book.isbn := Book.Insert.isbn book;
         Book.genre := Book.Insert.genre book;
         Book.description := Book.Insert.description book;
         Book.coverUrl := Book.Insert.coverUrl book;
         Book.publicationYear := Book.Insert.publicationYear book;
         Book.totalCopies := assign (Book.Insert.totalCopies book) 1;
         Book.availableCopies := assign (Book.Insert.availableCopies book) 1;
         Book.createdAt := Some dbNow;
         Book.updatedAt := Some dbNow |} in
    if isbn_is_held (Book.Insert.isbn book) (fun _ => true) st
    then (Thrown, Store.nextval_books st)
    else (Resolved newBook, Store.insert_book newBook st).

(** What the constraints of [books] refuse in an update of the row [id]:
    a new key that a book holds, a new key when a reservation refers to
    the old one, an ISBN that another book holds. *)
Definition book_update_is_refused (id : Z) (values : Book.Partial.t)
    (st : Store.t) : bool :=
  match Book.Partial.id values with
  | Some id' =>
      negb (id' =? id) && (has_book id' st || book_is_referenced id st)
  | None => false
  end
  || match Book.Partial.isbn values with
     | Some isbn => isbn_is_held isbn (fun b => negb (Book.id b =? id)) st
     | None => false
     end.

(** The route passes the parsed body for [updates]. *)
Definition updateBook (id : Z) (updates : Book.Update.t) (now : Timestamp)
    : DB (Awaited (option Book.t)) :=
  fun st =>
    match Book.values updates now with
    | None => (Thrown, st)
    | Some values =>
        match Book.typed values with
        | None => (Thrown, st)
        | Some values' =>
            if has_book id st && book_update_is_refused id values' st
            then (Thrown, st)
            else
              let cond := fun b => Book.id b =? id in
              let f := Book.set values' in
              (Resolved (first (returning cond f (Store.books st))),
               Store.with_books (update_where cond f (Store.books st)) st)
        end
    end.

(** The deletion is refused when a reservation refers to the book. *)
Definition deleteBook (id : Z) : DB (Awaited unit) :=
  fun st =>
    if has_book id st && book_is_referenced id st then (Thrown, st)
    else
      (Resolved tt,
       Store.with_books
         (filter (fun b => negb (Book.id b =? id)) (Store.books st)) st).

Definition updateBookAvailability (id : Z) (available : Z) (now : Timestamp)
    : DB (option Book.t) :=
  fun st =>
    let cond := fun b => Book.id b =? id in
    let f := fun b =>
      Book.set {| Book.Partial.id := None;
                  Book.Partial.title := None;
                  Book.Partial.author := None;
                  Book.Partial.isbn := None;
                  Book.Partial.genre := None;
                  Book.Partial.description := None;
                  Book.Partial.coverUrl := None;
                  Book.Partial.publicationYear := None;
                  Book.Partial.totalCopies := None;
                  Book.Partial.availableCopies := Some available;
                  Book.Partial.createdAt := None;
                  Book.Partial.updatedAt := Some (Some now) |} b in
    (first (returning cond f (Store.books st)),
     Store.with_books (update_where cond f (Store.books st)) st).

(** The insertion is refused when the user or the book it refers to is
    not stored. *)
Definition createReservation (reservation : Reservation.Insert.t)
    (dbNow : Timestamp) : DB (Awaited Reservation.t) :=
  fun st =>
    let newReservation :=
      {| Reservation.id := Store.reservations_id_seq st;
         Reservation.userId := Reservation.Insert.userId reservation;
         Reservation.bookId := Reservation.Insert.bookId reservation;
         Reservation.status :=
           assign (Reservation.Insert.status reservation) "active";
         Reservation.reservedAt := Some dbNow;
         Reservation.dueDate := Reservation.Insert.dueDate reservation;
         Reservation.completedAt :=
           Reservation.Insert.completedAt reservation |} in
    if has_user (Reservation.Insert.userId reservation) st
       && has_book (Reservation.Insert.bookId reservation) st
    then (Resolved newReservation, Store.insert_reservation newReservation st)
    else (Thrown, Store.nextval_reservations st).

(** What the constraints of [reservations] refuse in an update of the row
    [id]: NULL as due date, a user or a book that is not stored, a new key
    that a reservation holds, a new key when a fine refers to the old
    one. *)
Definition reservation_update_is_refused (id : Z)
    (values : Reservation.Partial.t) (st : Store.t) : bool :=
  match Reservation.Partial.dueDate values with
  | Some None => true
  | _ => false
  end
  || match Reservation.Partial.userId values with
     | Some userId => negb (has_user userId st)
     | None => false
     end
  || match Reservation.Partial.bookId values with
     | Some bookId => negb (has_book bookId st)
     | None => false
     end
  || match Reservation.Partial.id values with
     | Some id' =>
         negb (id' =? id)
         && (has_reservation id' st || reservation_is_referenced id st)
     | None => false
     end.

(** The route passes the parsed body for [updates]. *)
Definition updateReservation (id : Z) (updates : Reservation.Update.t)
    : DB (Awaited (option Reservation.t)) :=
  fun st =>
    match Reservation.values updates with
    | None => (Thrown, st)
    | Some values =>
        if negb (int4_or_null (Reservation.Partial.id values)
                 && int4_or_null (Reservation.Partial.bookId values))
        then (Thrown, st)
        else if has_reservation id st
                && reservation_update_is_refused id values st
        then (Thrown, st)
        else
          let cond := fun r => Reservation.id r =? id in
          let f := Reservation.set values in
          (Resolved (first (returning cond f (Store.reservations st))),
           Store.with_reservations
             (update_where cond f (Store.reservations st)) st)
    end.

(** [reservations INNER JOIN users ... INNER JOIN books ...]. *)
Definition join_user_book (st : Store.t) (r : Reservation.t)
    : list (Reservation.t * User.t * Book.t) :=
  flat_map
    (fun u =>
       map (fun b => (r, u, b))
           (filter (fun b => Reservation.bookId r =? Book.id b)
                   (Store.books st)))
    (filter (fun u => (Reservation.userId r =? User.id u)%string)
            (Store.users st)).

Definition getActiveReservations
    : DB (list (Reservation.t * User.t * Book.t)) :=
  query (fun st =>
    orderBy_desc (fun row => Reservation.reservedAt (fst (fst row)))
      (filter
         (fun row => (Reservation.status (fst (fst row)) =? "active")%string)
         (flat_map (join_user_book st) (Store.reservations st)))).

Definition getTotalFines (userId : string) : DB Decimal :=
  query (fun st =>
    sum (map Fine.amount
           (filter
              (fun f => (Fine.userId f =? userId)%string
                        && (Fine.status f =? "unpaid")%string)
              (Store.fines st)))).

Definition updatePayment (id : Z) (updates : Payment.Partial.t)
    : DB (option Payment.t) :=
  fun st =>
    let cond := fun p => Payment.id p =? id in
    let f := Payment.set updates in
    (first (returning cond f (Store.payments st)),
     Store.with_payments (update_where cond f (Store.payments st)) st).

Definition getUserPayments (userId : string) : DB (list Payment.t) :=
  query (fun st =>
    orderBy_desc Payment.createdAt
      (filter (fun p => (Payment.userId p =? userId)%string)
              (Store.payments st))).

Module Stats.
Record t := mk {
    activeReservations : Z;
    availableBooks : Z;
    dueSoon : Z;
    outstandingFines : Decimal
  }.
End Stats.

Definition day : Z := 86400000.

(** [x BETWEEN lo AND hi]: both ends included. *)
Definition between (x lo hi : Timestamp) : bool := (lo <=? x) && (x <=? hi).

Definition getDashboardStats (userId : string) (dbNow : Timestamp)
    : DB Stats.t :=
  activeReservations <- query (fun st =>
    count (filter
             (fun r => (Reservation.userId r =? userId)%string
                       && (Reservation.status r =? "active")%string)
             (Store.reservations st))) ;;
  availableBooks <- query (fun st =>
    sum (map Book.availableCopies (Store.books st))) ;;
  dueSoon <- query (fun st =>
    count (filter
             (fun r => (Reservation.userId r =? userId)%string
                       && (Reservation.status r =? "active")%string
                       && between (Reservation.dueDate r)
                                  dbNow (dbNow + 3 * day))
             (Store.reservations st))) ;;
  totalFines <- getTotalFines userId ;;
  ret {| Stats.activeReservations := activeReservations;
         Stats.availableBooks := availableBooks;
         Stats.dueSoon := dueSoon;
         Stats.outstandingFines := totalFines |}.

(** ** Sessions ([simpleAuth.ts]) *)

Module Session.
Record Claims := mkClaims {
    sub : string;
    exp : Z
  }.

Record SessionUser := mkUser {
    claims : option Claims
  }.

Record t := mk {
    user : option SessionUser
  }.
End Session.

(** ** Responses *)

Inductive Json : Type :=
| Message (message : string)
| Invalid (message : string)
| OneBook (book : option Book.t)
| OneReservation (reservation : option Reservation.t)
| Users (users : list User.t)
| ActiveReservations (rows : list (Reservation.t * User.t * Book.t))
| DashboardStats (stats : Stats.t)
| Success
| Empty.

Record Response := mkResponse {
    statusCode : Z;
    body : Json
  }.

Definition isAuthenticated (session : Session.t) (now : Timestamp)
    : Response + Session.Claims :=
  match Session.user session with
  | None => inl (mkResponse 401 (Message "Unauthorized"))
  | Some user =>
      match Session.claims user with
      | None => inl (mkResponse 401 (Message "Unauthorized"))
      | Some claims =>
          if Session.exp claims <? now / 1000
          then inl (mkResponse 401 (Message "Session expired"))
          else inr claims
      end
  end.

(** ** Routes ([routes.ts]) *)

(** [authMiddleware] is one of two session checks, chosen when the routes
    are registered; a route runs its handler with the claims the check
    attached to the request. *)
Definition Middleware : Type :=
  Session.t -> Timestamp -> Response + Session.Claims.

Definition route (authMiddleware : Middleware) (session : Session.t)
    (now : Timestamp) (handler : string -> DB Response) : DB Response :=
  match authMiddleware session now with
  | inl denied => ret denied
  | inr claims => handler (Session.sub claims)
  end.

(** [user?.role !== 'admin'] *)
Definition not_admin (user : option User.t) : bool :=
  match user with
  | None => true
  | Some u => negb (User.role u =? "admin")%string
  end.

Definition admin_required : Response :=
  mkResponse 403 (Message "Admin access required").

(** [insertBookSchema.parse], the schema generated from the table: the
    required columns must be present, the ISBN of at most 13 characters
    and every number an [integer]. *)
Definition insertBookSchema_parse (body : Book.Body.t)
    : option Book.Insert.t :=
  match Book.Body.title body, Book.Body.author body, Book.Body.genre body with
  | Some title, Some author, Some genre =>
      if match Book.Body.isbn body with
         | Some isbn => (String.length isbn <=? 13)%nat
         | None => true
         end
         && int4_or_null (Book.Body.publicationYear body)
         && int4_or_null (Book.Body.totalCopies body)
         && int4_or_null (Book.Body.availableCopies body)
      then
        Some {| Book.Insert.title := title;
                Book.Insert.author := author;
                Book.Insert.isbn := Book.Body.isbn body;
                Book.Insert.genre := genre;
                Book.Insert.description := Book.Body.description body;
                Book.Insert.coverUrl := Book.Body.coverUrl body;
                Book.Insert.publicationYear := Book.Body.publicationYear body;
                Book.Insert.totalCopies := Book.Body.totalCopies body;
                Book.Insert.availableCopies :=
                  Book.Body.availableCopies body |}
      else None
  | _, _, _ => None
  end.

(** POST /api/books *)
Definition post_books (body : Book.Body.t) (dbNow : Timestamp)
    (userId : string) : DB Response :=
  user <- getUser userId ;;
  if not_admin user then ret admin_required
  else
    match insertBookSchema_parse body with
    | None => ret (mkResponse 400 (Invalid "Invalid book data"))
    | Some bookData =>
        attempt (createBook bookData dbNow)
          (fun book => ret (mkResponse 201 (OneBook (Some book))))
          (ret (mkResponse 500 (Message "Failed to create book")))
    end.

(** PUT /api/books/:id *)
Definition put_books (id : Z) (body : Book.Update.t) (now : Timestamp)
    (userId : string) : DB Response :=
  user <- getUser userId ;;
  if not_admin user then ret admin_required
  else
    attempt (updateBook id body now)
      (fun book => ret (mkResponse 200 (OneBook book)))
      (ret (mkResponse 500 (Message "Failed to update book"))).

(** DELETE /api/books/:id *)
Definition delete_books (id : Z) (userId : string) : DB Response :=
  user <- getUser userId ;;
  if not_admin user then ret admin_required
  else
    attempt (deleteBook id)
      (fun _ => ret (mkResponse 204 Empty))
      (ret (mkResponse 500 (Message "Failed to delete book"))).

(** The time zone of the server: the offset of its local time from UTC,
    in milliseconds, at an instant, and the offset that is taken for a
    local time ([LocalTZA] with and without [isUTC]). *)
Record TimeZone := mkZone {
  offset_at : Timestamp -> Z;
  offset_of_local : Z -> Z
}.

Definition LocalTime (zone : TimeZone) (t : Timestamp) : Z :=
  t + offset_at zone t.

Definition UTC (zone : TimeZone) (local : Z) : Timestamp :=
  local - offset_of_local zone local.

(** [date.setDate(date.getDate() + n)]: the day of the month is counted on
    in local time and the time within the day is kept, which moves the
    local time by [n] times 24 hours; the result is the instant of that
    local time. *)
Definition addDays (zone : TimeZone) (date : Timestamp) (n : Z) : Timestamp :=
  UTC zone (LocalTime zone date + n * day).

Definition not_available : Response :=
  mkResponse 400 (Message "Book is not available").

(** POST /api/reservations *)
Definition post_reservations (zone : TimeZone) (bookId : Z)
    (now dbNow updatedAt : Timestamp) (userId : string) : DB Response :=
  book <- getBook bookId ;;
  match book with
  | None => ret not_available
  | Some b =>
      if Book.availableCopies b <=? 0 then ret not_available
      else
        let dueDate := addDays zone now 14 in
        let reservationData :=
          {| Reservation.Insert.userId := userId;
             Reservation.Insert.bookId := bookId;
             Reservation.Insert.status := Some "active";
             Reservation.Insert.dueDate := dueDate;
             Reservation.Insert.completedAt := None |} in
        attempt (createReservation reservationData dbNow)
          (fun reservation =>
             updateBookAvailability bookId (Book.availableCopies b - 1)
                                    updatedAt ;;;
             ret (mkResponse 201 (OneReservation (Some reservation))))
          (ret (mkResponse 500 (Message "Failed to create reservation")))
  end.

(** PUT /api/reservations/:id *)
Definition put_reservations (id : Z) (body : Reservation.Update.t)
    (userId : string) : DB Response :=
  attempt (updateReservation id body)
    (fun reservation => ret (mkResponse 200 (OneReservation reservation)))
    (ret (mkResponse 500 (Message "Failed to update reservation"))).

(** GET /api/admin/users *)
Definition get_admin_users (userId : string) : DB Response :=
  user <- getUser userId ;;
  if not_admin user then ret admin_required
  else
    users <- getAllUsers ;;
    ret (mkResponse 200 (Users users)).

(** GET /api/admin/reservations *)
Definition get_admin_reservations (userId : string) : DB Response :=
  user <- getUser userId ;;
  if not_admin user then ret admin_required
  else
    reservations <- getActiveReservations ;;
    ret (mkResponse 200 (ActiveReservations reservations)).

(** GET /api/dashboard/stats *)
Definition get_dashboard_stats (dbNow : Timestamp) (userId : string)
    : DB Response :=
  stats <- getDashboardStats userId dbNow ;;
  ret (mkResponse 200 (DashboardStats stats)).

(** A field of a request body compared with [===] against a nullable text
    column. *)
Inductive BodyField : Type :=
| Undefined
| Null
| Text (s : string)
| NotText.

Definition strict_eq (column : option string) (v : BodyField) : bool :=
  match column, v with
  | None, Null => true
  | Some s, Text s' => (s =? s')%string
  | _, _ => false
  end.

(** The request's payment intent is the one recorded on the row. *)
Definition names_intent (paymentIntentId : BodyField) (p : Payment.t) : bool :=
  strict_eq (Payment.stripePaymentIntentId p) paymentIntentId.

Definition payments_unavailable : Response :=
  mkResponse 503
    (Message
       "Payment processing is not available in demo mode. Stripe configuration required.").

(** [parseFloat(user.outstandingFines || "0")] *)
Definition balance (u : User.t) : Decimal := assign (User.outstandingFines u) 0.

(** POST /api/payment/confirm; [stripe] tells whether the Stripe client
    was created at start-up. *)
Definition post_payment_confirm (stripe : bool) (paymentIntentId : BodyField)
    (now updatedAt : Timestamp) (userId : string) : DB Response :=
  if negb stripe then ret payments_unavailable
  else
    payments <- getUserPayments userId ;;
    match find (names_intent paymentIntentId) payments with
    | None => ret (mkResponse 200 Success)
    | Some payment =>
        updatePayment (Payment.id payment)
          {| Payment.Partial.id := None;
             Payment.Partial.userId := None;
             Payment.Partial.fineId := None;
             Payment.Partial.amount := None;
             Payment.Partial.stripePaymentIntentId := None;
             Payment.Partial.status := Some "completed";
             Payment.Partial.createdAt := None;
             Payment.Partial.completedAt := Some (Some now) |} ;;;
        user <- getUser userId ;;
        match user with
        | None => ret (mkResponse 200 Success)
        | Some u =>
            let newBalance := Z.max 0 (balance u - Payment.amount payment) in
            updateUser userId
              {| User.Partial.id := None;
                 User.Partial.email := None;
                 User.Partial.firstName := None;
                 User.Partial.lastName := None;
                 User.Partial.profileImageUrl := None;
                 User.Partial.role := None;
                 User.Partial.stripeCustomerId := None;
                 User.Partial.stripeSubscriptionId := None;
                 User.Partial.outstandingFines := Some (Some newBalance);
                 User.Partial.createdAt := None;
                 User.Partial.updatedAt := None |} updatedAt ;;;
            ret (mkResponse 200 Success)
        end
    end.

(** A body that marks a reservation completed.  The client sends
    [{ status: "completed", completedAt: new Date() }], which arrives
    with the date as a string; [completedAt] is what the body holds under
    that key, if it holds the key. *)
Definition mark_completed (completedAt : option JsonTime)
    : Reservation.Update.t :=
  {| Reservation.Update.id := None;
     Reservation.Update.userId := None;
     Reservation.Update.bookId := None;
     Reservation.Update.status := Some "completed";
     Reservation.Update.reservedAt := None;
     Reservation.Update.dueDate := None;
     Reservation.Update.completedAt := completedAt |}.

(** What a completing update of the reservation [id] may change in a row
    of the table, seen from the row before ([r]) and after ([r']):
    nothing in a row of another key, and [status] and [completedAt] at
    most in the others. *)
Definition completed_only (id : Z) (r r' : Reservation.t) : Prop :=
  Reservation.id r' = Reservation.id r
  /\ Reservation.userId r' = Reservation.userId r
  /\ Reservation.bookId r' = Reservation.bookId r
  /\ Reservation.reservedAt r' = Reservation.reservedAt r
  /\ Reservation.dueDate r' = Reservation.dueDate r
  /\ (Reservation.id r <> id -> r' = r).

(** ** Notions used to state the properties *)

Definition in_integer (n : Z) : Prop := -2147483648 <= n <= 2147483647.

(** A reservation update that names no column. *)
Definition names_no_column : Reservation.Update.t :=
  Reservation.Update.mk None None None None None None None.

(** The values of a reservation update are such that the statement is
    built and reaches the rows: no [timestamp] column is given a value
    other than null, and every number is an [integer]. *)
Definition values_fit (body : Reservation.Update.t) : Prop :=
  (forall text, Reservation.Update.reservedAt body <> Some (JsonText text))
  /\ (forall text, Reservation.Update.dueDate body <> Some (JsonText text))
  /\ (forall text,
        Reservation.Update.completedAt body <> Some (JsonText text))
  /\ (forall n, Reservation.Update.id body = Some n -> in_integer n)
  /\ (forall n, Reservation.Update.bookId body = Some n -> in_integer n).

(** An update of the reservation [id] that the table takes in the store
    [st]: [id] is an [integer], the body names a column, its values fit,
    it leaves the due date, the
    user and the book that it names are stored, and the key that it
    names is that of the row, or a key that no reservation holds while
    no fine refers to the row. *)
Definition row_takes (st : Store.t) (id : Z) (body : Reservation.Update.t)
    : Prop :=
  in_integer id
  /\ body <> names_no_column
  /\ values_fit body
  /\ Reservation.Update.dueDate body = None
  /\ (forall userId,
        Reservation.Update.userId body = Some userId ->
        exists u, In u (Store.users st) /\ User.id u = userId)
  /\ (forall bookId,
        Reservation.Update.bookId body = Some bookId ->
        exists b, In b (Store.books st) /\ Book.id b = bookId)
  /\ (forall id',
        Reservation.Update.id body = Some id' ->
        id' = id
        \/ ((forall r, In r (Store.reservations st) ->
                       Reservation.id r <> id')
            /\ (forall f, In f (Store.fines st) ->
                          Fine.reservationId f <> Some id))).

(** The row [r'] is the row [r] with the columns that the body names
    written over it.  A [timestamp] column that the body names becomes
    NULL, the one value that a body can give it. *)
Definition overwritten (body : Reservation.Update.t) (r r' : Reservation.t)
    : Prop :=
  Reservation.id r'
  = match Reservation.Update.id body with
    | Some id => id
    | None => Reservation.id r
    end
  /\ Reservation.userId r'
     = match Reservation.Update.userId body with
       | Some userId => userId
       | None => Reservation.userId r
       end
  /\ Reservation.bookId r'
     = match Reservation.Update.bookId body with
       | Some bookId => bookId
       | None => Reservation.bookId r
       end
  /\ Reservation.status r'
     = match Reservation.Update.status body with
       | Some status => status
       | None => Reservation.status r
       end
  /\ Reservation.reservedAt r'
     = match Reservation.Update.reservedAt body with
       | Some _ => None
       | None => Reservation.reservedAt r
       end
  /\ Reservation.dueDate r' = Reservation.dueDate r
  /\ Reservation.completedAt r'
     = match Reservation.Update.completedAt body with
       | Some _ => None
       | None => Reservation.completedAt r
       end.

(** The table after the update of the reservation [id], row by row: the
    rows of that key are overwritten, the others are as they were. *)
Definition updated_row (id : Z) (body : Reservation.Update.t)
    (r r' : Reservation.t) : Prop :=
  (Reservation.id r = id -> overwritten body r r')
  /\ (Reservation.id r <> id -> r' = r).

(** A completing update has reached the row, when it is of the key
    [id]. *)
Definition marked_completed (id : Z) (r r' : Reservation.t) : Prop :=
  completed_only id r r'
  /\ (Reservation.id r = id -> Reservation.status r' = "completed").

(** The values of a book update are such that the statement is built and
    reaches the rows: no value other than null for [createdAt], every
    number an [integer], an ISBN of at most 13 characters. *)
Definition book_values_fit (body : Book.Update.t) : Prop :=
  (forall text, Book.Update.createdAt body <> Some (JsonText text))
  /\ (forall n, Book.Update.id body = Some n -> in_integer n)
  /\ (forall n, Book.Update.publicationYear body = Some (Some n) ->
                in_integer n)
  /\ (forall n, Book.Update.totalCopies body = Some n -> in_integer n)
  /\ (forall n, Book.Update.availableCopies body = Some n -> in_integer n)
  /\ (forall isbn, Book.Update.isbn body = Some (Some isbn) ->
                   (String.length isbn <= 13)%nat).

(** The relation the schema intends between the two copy counts. *)
Definition within_total (b : Book.t) : Prop :=
  Book.availableCopies b <= Book.totalCopies b.

(** The total of a user's unpaid fine rows, row by row. *)
Fixpoint unpaid_total (userId : string) (rows : list Fine.t) : Decimal :=
  match rows with
  | [] => 0
  | f :: rows' =>
      if string_dec (Fine.userId f) userId then
        if string_dec (Fine.status f) "unpaid"
        then Fine.amount f + unpaid_total userId rows'
        else unpaid_total userId rows'
      else unpaid_total userId rows'
  end.

(** A reservation due soon for a user at an instant: the user's, active,
    and due within the three days that follow, both ends included. *)
Definition DueSoon (userId : string) (now : Timestamp) (r : Reservation.t)
    : Prop :=
  Reservation.userId r = userId
  /\ Reservation.status r = "active"
  /\ now <= Reservation.dueDate r <= now + 3 * day.

Definition DueSoon_dec (userId : string) (now : Timestamp)
    (r : Reservation.t) : {DueSoon userId now r} + {~ DueSoon userId now r} :=
  match string_dec (Reservation.userId r) userId with
  | right no => right (fun H => no (proj1 H))
  | left Huser =>
      match string_dec (Reservation.status r) "active" with
      | right no => right (fun H => no (proj1 (proj2 H)))
      | left Hstatus =>
          match Z_le_dec now (Reservation.dueDate r) with
          | right no => right (fun H => no (proj1 (proj2 (proj2 H))))
          | left Hlo =>
              match Z_le_dec (Reservation.dueDate r) (now + 3 * day) with
              | right no => right (fun H => no (proj2 (proj2 (proj2 H))))
              | left Hhi => left (conj Huser (conj Hstatus (conj Hlo Hhi)))
              end
          end
      end
  end.

Fixpoint number_of {A : Type} {P : A -> Prop}
    (dec : forall x, {P x} + {~ P x}) (l : list A) : Z :=
  match l with
  | [] => 0
  | x :: l' => (if dec x then 1 else 0) + number_of dec l'
  end.

(** ** Sample data

    A store used in the examples: one member, one administrator, one
    title with two of its three copies on the shelf. *)
Definition member : User.t :=
  User.mk "u1" (Some "ada@example.org") (Some "Ada") None None "user"
          None None (Some 500) (Some 1000) (Some 1000).

Definition librarian : User.t :=
  User.mk "u2" (Some "lib@example.org") None None None "admin"
          None None (Some 0) (Some 900) (Some 900).

Definition dune : Book.t :=
  Book.mk 1 "Dune" "Frank Herbert" None "Science Fiction" None None
          (Some 1965) 3 2 (Some 800) (Some 800).

Definition library : Store.t :=
  Store.mk [member; librarian] [dune] [] [] [] 2 1.

Definition utc : TimeZone := mkZone (fun _ => 0) (fun _ => 0).

Definition hour : Z := 3600000.

(** A zone two hours ahead of UTC that sets its clocks back by one hour
    ten days after the epoch; a local time that occurs twice is taken as
    the earlier instant. *)
Definition autumn : TimeZone :=
  mkZone (fun t => if t <? 10 * day then 2 * hour else hour)
         (fun local => if local <? 10 * day + 2 * hour then 2 * hour
                       else hour).

Definition member_session : Session.t :=
  Session.mk (Some (Session.mkUser (Some (Session.mkClaims "u1" 4000)))).

Definition librarian_session : Session.t :=
  Session.mk (Some (Session.mkUser (Some (Session.mkClaims "u2" 4000)))).

Definition sold_out : Store.t :=
  Store.with_books
    [Book.mk 1 "Dune" "Frank Herbert" None "Science Fiction" None None
             (Some 1965) 3 0 (Some 800) (Some 800)] library.

Definition on_loan : Store.t :=
  Store.with_reservations
    [Reservation.mk 7 "u2" 1 "active" (Some 1000) 1209601000 None] library.

(** The update by which a member takes over a reservation, cancels it
    and clears the time it was made. *)
Definition takeover : Reservation.Update.t :=
  Reservation.Update.mk None (Some "u1") (Some 1) (Some "cancelled")
                        (Some JsonNull) None None.

Definition fined : Store.t :=
  Store.mk [member; librarian] [dune] []
    [Fine.mk 1 "u2" None 700 "Late return" "unpaid" (Some 1500) None;
     Fine.mk 2 "u2" None 250 "Late return" "paid" (Some 1600) (Some 1700)]
    [] 2 1.

Definition overbooked : Book.Body.t :=
  Book.Body.mk (Some "Emma") (Some "Jane Austen") None (Some "Fiction")
               None None None (Some 1) (Some 5).

Definition overstock : Book.Update.t :=
  Book.Update.mk None None None None None None None None None (Some 9)
                 None None.

Definition invoice : Payment.t :=
  Payment.mk 1 "u1" None 1000 (Some "pi_1") "pending" (Some 3000) None.

Definition owing : Store.t := Store.with_payments [invoice] library.

Definition deposit : Payment.t :=
  Payment.mk 6 "u1" None 200 (Some "pi_6") "pending" (Some 3500) None.

Definition partly : Store.t := Store.with_payments [deposit] library.

Definition overpaid : Store.t :=
  Store.with_payments
    [Payment.mk 4 "u2" None 999 None "pending" (Some 2000) None;
     Payment.mk 5 "u1" None 1250 (Some "pi_9") "pending" (Some 3000) None;
     invoice]
    library.

(** * The rest of the storage class and of the routes

    The tables of the fines and of the payments have no counter in the
    store: the value drawn from their sequence is an argument of the
    inserting function, like a reading of the clock.

    The methods that no route calls ([deleteUser], [updateUserStripeInfo],
    [createFine], [updateFine]) and [upsertUser] are modelled on the
    statements that the database accepts: the conditions under which the
    schema lets it accept them (a reference that resolves, an address
    that is not taken, a key that is new) are hypotheses of the
    properties that say what these methods do.  The login route, which
    calls [upsertUser], answers for the refusal itself. *)

(** ** Further types of [shared/schema.ts] *)

(** [UpsertUser]: every column but [id] may be absent; a nullable column
    may also be given as NULL. *)
Module UpsertUser.
Record t := mk {
  id : string;
  email : option (option string);
  firstName : option (option string);
  lastName : option (option string);
  profileImageUrl : option (option string);
  role : option string;
  stripeCustomerId : option (option string);
  stripeSubscriptionId : option (option string);
  outstandingFines : option (option Decimal);
  createdAt : option (option Timestamp);
  updatedAt : option (option Timestamp)
}.
End UpsertUser.

(** [InsertFine]: no [id], no [createdAt]. *)
Module InsertFine.
Record t := mk {
  userId : string;
  reservationId : option Z;
  amount : Decimal;
  reason : string;
  status : option string;
  paidAt : option Timestamp
}.
End InsertFine.

(** [Partial<Fine>]. *)
Module PartialFine.
Record t := mk {
  id : option Z;
  userId : option string;
  reservationId : option (option Z);
  amount : option Decimal;
  reason : option string;
  status : option string;
  createdAt : option (option Timestamp);
  paidAt : option (option Timestamp)
}.

Definition set (updates : t) (f : Fine.t) : Fine.t :=
  {| Fine.id := assign (id updates) (Fine.id f);
     Fine.userId := assign (userId updates) (Fine.userId f);
     Fine.reservationId :=
       assign (reservationId updates) (Fine.reservationId f);
     Fine.amount := assign (amount updates) (Fine.amount f);
     Fine.reason := assign (reason updates) (Fine.reason f);
     Fine.status := assign (status updates) (Fine.status f);
     Fine.createdAt := assign (createdAt updates) (Fine.createdAt f);
     Fine.paidAt := assign (paidAt updates) (Fine.paidAt f) |}.
End PartialFine.

(** [InsertPayment]: no [id], no [createdAt]. *)
Module InsertPayment.
Record t := mk {
  userId : string;
  fineId : option Z;
  amount : Decimal;
  stripePaymentIntentId : option string;
  status : option string;
  completedAt : option Timestamp
}.
End InsertPayment.

Definition with_fines (l : list Fine.t) (st : Store.t) : Store.t :=
  Store.mk (Store.users st) (Store.books st) (Store.reservations st) l
           (Store.payments st) (Store.books_id_seq st)
           (Store.reservations_id_seq st).

(** ** [DatabaseStorage], continued *)

(** The [set] clause of the upsert: [{ ...userData, updatedAt: new Date() }]. *)
Definition upsert_set (userData : UpsertUser.t) (now : Timestamp)
    : User.Partial.t :=
  {| User.Partial.id := Some (UpsertUser.id userData);
     User.Partial.email := UpsertUser.email userData;
     User.Partial.firstName := UpsertUser.firstName userData;
     User.Partial.lastName := UpsertUser.lastName userData;
     User.Partial.profileImageUrl := UpsertUser.profileImageUrl userData;
     User.Partial.role := UpsertUser.role userData;
     User.Partial.stripeCustomerId := UpsertUser.stripeCustomerId userData;
     User.Partial.stripeSubscriptionId :=
       UpsertUser.stripeSubscriptionId userData;
     User.Partial.outstandingFines := UpsertUser.outstandingFines userData;
     User.Partial.createdAt := UpsertUser.createdAt userData;
     User.Partial.updatedAt := Some (Some now) |}.

(** The row that [values(userData)] inserts: an absent column takes its
    default, NULL when the schema names none. *)
Definition upsert_values (userData : UpsertUser.t) (dbNow : Timestamp)
    : User.t :=
  {| User.id := UpsertUser.id userData;
     User.email := assign (UpsertUser.email userData) None;
     User.firstName := assign (UpsertUser.firstName userData) None;
     User.lastName := assign (UpsertUser.lastName userData) None;
     User.profileImageUrl :=
       assign (UpsertUser.profileImageUrl userData) None;
     User.role := assign (UpsertUser.role userData) "user";
     User.stripeCustomerId :=
       assign (UpsertUser.stripeCustomerId userData) None;
     User.stripeSubscriptionId :=
       assign (UpsertUser.stripeSubscriptionId userData) None;
     User.outstandingFines :=
       assign (UpsertUser.outstandingFines userData) (Some 0);
     User.createdAt := assign (UpsertUser.createdAt userData) (Some dbNow);
     User.updatedAt := assign (UpsertUser.updatedAt userData) (Some dbNow) |}.

(** The row that the upsert of [userData] writes when the statement is
    accepted: the row of that key with the [set] clause applied, or the
    row inserted when there is none. *)
Definition upsertUser (userData : UpsertUser.t) (now dbNow : Timestamp)
    : DB User.t :=
  fun st =>
    let conflict := fun u => (User.id u =? UpsertUser.id userData)%string in
    let f := User.set (upsert_set userData now) in
    match first (returning conflict f (Store.users st)) with
    | Some user =>
        (user, Store.with_users (update_where conflict f (Store.users st)) st)
    | None =>
        let user := upsert_values userData dbNow in
        (user, Store.with_users (Store.users st ++ [user]) st)
    end.

(** The address of [userData] is that of a row of another key, which the
    unique constraint on [email] does not allow: the upsert is refused. *)
Definition email_is_held (userData : UpsertUser.t) (st : Store.t) : bool :=
  match UpsertUser.email userData with
  | Some (Some email) =>
      existsb (fun u => negb (User.id u =? UpsertUser.id userData)%string
                        && match User.email u with
                           | Some held => (held =? email)%string
                           | None => false
                           end)
              (Store.users st)
  | _ => false
  end.

Definition deleteUser (id : string) : DB unit :=
  exec (fun st =>
    Store.with_users
      (filter (fun u => negb (User.id u =? id)%string) (Store.users st)) st).

(** [if (subscriptionId)]: given and not the empty string. *)
Definition given (s : option string) : bool :=
  match s with
  | Some s' => negb (s' =? "")%string
  | None => false
  end.

Definition updateUserStripeInfo (id customerId : string)
    (subscriptionId : option string) (now : Timestamp)
    : DB (option User.t) :=
  fun st =>
    let updateData :=
      {| User.Partial.id := None;
         User.Partial.email := None;
         User.Partial.firstName := None;
         User.Partial.lastName := None;
         User.Partial.profileImageUrl := None;
         User.Partial.role := None;
         User.Partial.stripeCustomerId := Some (Some customerId);
         User.Partial.stripeSubscriptionId :=
           if given subscriptionId then Some subscriptionId else None;
         User.Partial.outstandingFines := None;
         User.Partial.createdAt := None;
         User.Partial.updatedAt := Some (Some now) |} in
    let cond := fun u => (User.id u =? id)%string in
    (first (returning cond (User.set updateData) (Store.users st)),
     Store.with_users
       (update_where cond (User.set updateData) (Store.users st)) st).

Definition getAllBooks : DB (list Book.t) :=
  query (fun st => orderBy_desc Book.createdAt (Store.books st)).

(** A JavaScript number holding the result of [parseInt]. *)
Inductive Num : Type :=
| NaN
| Int (n : Z).

(** [if (n)] on such a number: neither [NaN] nor zero. *)
Definition nonzero (n : option Num) : option Z :=
  match n with
  | Some (Int z) => if z =? 0 then None else Some z
  | _ => None
  end.

(** [if (s)] on a string that may be absent. *)
Definition nonempty (s : option string) : option string :=
  match s with
  | Some s' => if (s' =? "")%string then None else Some s'
  | None => None
  end.

Module Filters.
Record t := mk {
  genre : option string;
  author : option string;
  availability : option string;
  yearFrom : option Num;
  yearTo : option Num
}.
End Filters.

(** [filters?.field] *)
Definition chain {A B : Type} (filters : option A) (field : A -> option B)
    : option B :=
  match filters with
  | Some f => field f
  | None => None
  end.

Definition wrap (s : string) : string := "%" ++ s ++ "%".

(** The [conditions] array of [searchBooks], one section per [if] of the
    source.  [ilike value pattern] is the database's case-insensitive
    pattern match; a NULL column matches nothing. *)
Definition conditions (ilike : string -> string -> bool) (query : string)
    (filters : option Filters.t) : list (Book.t -> bool) :=
  (match nonempty (Some query) with
   | Some q =>
       [fun b => ilike (Book.title b) (wrap q)
                 || ilike (Book.author b) (wrap q)
                 || match Book.isbn b with
                    | Some isbn => ilike isbn (wrap q)
                    | None => false
                    end]
   | None => []
   end)
  ++ (match nonempty (chain filters Filters.genre) with
      | Some genre => [fun b => (Book.genre b =? genre)%string]
      | None => []
      end)
  ++ (match nonempty (chain filters Filters.author) with
      | Some author => [fun b => ilike (Book.author b) (wrap author)]
      | None => []
      end)
  ++ (match chain filters Filters.availability with
      | Some availability =>
          if (availability =? "available")%string
          then [fun b => 0 <? Book.availableCopies b]
          else if (availability =? "unavailable")%string
          then [fun b => Book.availableCopies b =? 0]
          else []
      | None => []
      end)
  ++ (match nonzero (chain filters Filters.yearFrom) with
      | Some yearFrom =>
          [fun b => match Book.publicationYear b with
                    | Some y => yearFrom <=? y
                    | None => false
                    end]
      | None => []
      end)
  ++ (match nonzero (chain filters Filters.yearTo) with
      | Some yearTo =>
          [fun b => match Book.publicationYear b with
                    | Some y => y <=? yearTo
                    | None => false
                    end]
      | None => []
      end).

Definition searchBooks (ilike : string -> string -> bool) (query : string)
    (filters : option Filters.t) : DB (list Book.t) :=
  fun st =>
    let conditions := conditions ilike query filters in
    let selected :=
      match conditions with
      | [] => Store.books st
      | _ :: _ =>
          filter (fun b => forallb (fun c => c b) conditions) (Store.books st)
      end in
    (orderBy_desc Book.createdAt selected, st).

Definition getUserReservations (userId : string)
    : DB (list (Reservation.t * Book.t)) :=
  query (fun st =>
    orderBy_desc (fun row => Reservation.reservedAt (fst row))
      (filter (fun row => (Reservation.userId (fst row) =? userId)%string)
         (flat_map
            (fun r =>
               map (fun b => (r, b))
                   (filter (fun b => Reservation.bookId r =? Book.id b)
                           (Store.books st)))
            (Store.reservations st)))).

Definition getOverdueReservations (dbNow : Timestamp)
    : DB (list (Reservation.t * User.t * Book.t)) :=
  query (fun st =>
    orderBy_desc (fun row => Some (Reservation.dueDate (fst (fst row))))
      (filter
         (fun row => (Reservation.status (fst (fst row)) =? "active")%string
                     && (Reservation.dueDate (fst (fst row)) <? dbNow))
         (flat_map (join_user_book st) (Store.reservations st)))).

Definition getUserFines (userId : string) : DB (list Fine.t) :=
  query (fun st =>
    orderBy_desc Fine.createdAt
      (filter (fun f => (Fine.userId f =? userId)%string) (Store.fines st))).

Definition createFine (fine : InsertFine.t) (id : Z) (dbNow : Timestamp)
    : DB Fine.t :=
  fun st =>
    let newFine :=
      {| Fine.id := id;
         Fine.userId := InsertFine.userId fine;
         Fine.reservationId := InsertFine.reservationId fine;
         Fine.amount := InsertFine.amount fine;
         Fine.reason := InsertFine.reason fine;
         Fine.status := assign (InsertFine.status fine) "unpaid";
         Fine.createdAt := Some dbNow;
         Fine.paidAt := InsertFine.paidAt fine |} in
    (newFine, with_fines (Store.fines st ++ [newFine]) st).

Definition updateFine (id : Z) (updates : PartialFine.t)
    : DB (option Fine.t) :=
  fun st =>
    let cond := fun f => Fine.id f =? id in
    let f := PartialFine.set updates in
    (first (returning cond f (Store.fines st)),
     with_fines (update_where cond f (Store.fines st)) st).

(** The insertion is refused when the user, or the fine if one is given,
    is not stored. *)
Definition createPayment (payment : InsertPayment.t) (id : Z)
    (dbNow : Timestamp) : DB (Awaited Payment.t) :=
  fun st =>
    let newPayment :=
      {| Payment.id := id;
         Payment.userId := InsertPayment.userId payment;
         Payment.fineId := InsertPayment.fineId payment;
         Payment.amount := InsertPayment.amount payment;
         Payment.stripePaymentIntentId :=
           InsertPayment.stripePaymentIntentId payment;
         Payment.status := assign (InsertPayment.status payment) "pending";
         Payment.createdAt := Some dbNow;
         Payment.completedAt := InsertPayment.completedAt payment |} in
    if has_user (InsertPayment.userId payment) st
       && match InsertPayment.fineId payment with
          | Some fineId => existsb (fun f => Fine.id f =? fineId) (Store.fines st)
          | None => true
          end
    then (Resolved newPayment,
          Store.with_payments (Store.payments st ++ [newPayment]) st)
    else (Thrown, st).

(** ** Further responses *)

(** What a route sends: one of the responses above, or one of the bodies
    that only the routes below produce. *)
Inductive Sent : Type :=
| Plain (response : Response)
| OneUser (status : Z) (user : option User.t)
| BookList (status : Z) (books : list Book.t)
| ReservationList (status : Z) (rows : list (Reservation.t * Book.t))
| Notice (status : Z) (message : string)
| ClientSecret (status : Z) (clientSecret : option string)
| Failure (status : Z) (message : string).

Definition status_of (sent : Sent) : Z :=
  match sent with
  | Plain response => statusCode response
  | OneUser status _ => status
  | BookList status _ => status
  | ReservationList status _ => status
  | Notice status _ => status
  | ClientSecret status _ => status
  | Failure status _ => status
  end.

Definition respond (handler : DB Response) : DB Sent :=
  response <- handler ;;
  ret (Plain response).

(** ** Demo login ([simpleAuth.ts]) *)

Definition week : Z := 7 * 24 * 60 * 60.

Definition demoUser : UpsertUser.t :=
  {| UpsertUser.id := "demo-user-123";
     UpsertUser.email := Some (Some "demo@libraryflow.com");
     UpsertUser.firstName := Some (Some "Demo");
     UpsertUser.lastName := Some (Some "User");
     UpsertUser.profileImageUrl :=
       Some (Some "https://images.unsplash.com/photo-1472099645785-5658abf4ff4e?w=150&h=150&fit=crop&crop=face");
     UpsertUser.role := None;
     UpsertUser.stripeCustomerId := None;
     UpsertUser.stripeSubscriptionId := None;
     UpsertUser.outstandingFines := None;
     UpsertUser.createdAt := None;
     UpsertUser.updatedAt := None |}.

(** POST /api/login, when the upsert is accepted: the response and the
    session it leaves. *)
Definition post_login (now storageNow dbNow : Timestamp)
    : DB (Sent * Session.t) :=
  user <- upsertUser demoUser storageNow dbNow ;;
  ret (Notice 200 "Logged in as demo user",
       Session.mk
         (Some (Session.mkUser
                  (Some (Session.mkClaims (User.id user)
                                          (now / 1000 + week)))))).

Definition login_failed : Sent :=
  Plain (mkResponse 500 (Message "Login failed")).

(** POST /api/login, as the route answers it: when the upsert is refused
    the [catch] arm answers and the session stays as it was. *)
Definition login (now storageNow dbNow : Timestamp) : DB Sent :=
  fun st =>
    if email_is_held demoUser st then (login_failed, st)
    else (served <- post_login now storageNow dbNow ;; ret (fst served)) st.

(** GET /api/logout: the session is destroyed. *)
Definition get_logout : Sent * Session.t :=
  (Notice 200 "Logged out", Session.mk None).

(** ** Further routes ([routes.ts]) *)

(** A route behind [authMiddleware], for any kind of response. *)
Definition protect (authMiddleware : Middleware) (session : Session.t)
    (now : Timestamp) (handler : string -> DB Sent) : DB Sent :=
  match authMiddleware session now with
  | inl denied => ret (Plain denied)
  | inr claims => handler (Session.sub claims)
  end.

(** GET /api/auth/user *)
Definition get_auth_user (userId : string) : DB Sent :=
  user <- getUser userId ;;
  ret (OneUser 200 user).

(** The query string of GET /api/books. *)
Module BooksQuery.
Record t := mk {
  search : option string;
  genre : option string;
  author : option string;
  availability : option string;
  yearFrom : option string;
  yearTo : option string
}.
End BooksQuery.

(** [search as string || ''] *)
Definition or_empty (s : option string) : string :=
  match nonempty s with
  | Some s' => s'
  | None => ""
  end.

(** [year ? parseInt(year as string) : undefined] *)
Definition parse_year (parseInt : string -> Num) (year : option string)
    : option Num :=
  match nonempty year with
  | Some y => Some (parseInt y)
  | None => None
  end.

(** GET /api/books *)
Definition get_books (ilike : string -> string -> bool)
    (parseInt : string -> Num) (q : BooksQuery.t) : DB Sent :=
  books <- searchBooks ilike (or_empty (BooksQuery.search q))
             (Some {| Filters.genre := BooksQuery.genre q;
                      Filters.author := BooksQuery.author q;
                      Filters.availability := BooksQuery.availability q;
                      Filters.yearFrom :=
                        parse_year parseInt (BooksQuery.yearFrom q);
                      Filters.yearTo :=
                        parse_year parseInt (BooksQuery.yearTo q) |}) ;;
  ret (BookList 200 books).

(** GET /api/books/:id *)
Definition get_book (id : Z) : DB Response :=
  book <- getBook id ;;
  match book with
  | None => ret (mkResponse 404 (Message "Book not found"))
  | Some b => ret (mkResponse 200 (OneBook (Some b)))
  end.

(** GET /api/reservations *)
Definition get_reservations (userId : string) : DB Sent :=
  reservations <- getUserReservations userId ;;
  ret (ReservationList 200 reservations).

(** What [stripe.paymentIntents.create] resolves to. *)
Record PaymentIntent := mkIntent {
  intent_id : string;
  client_secret : option string
}.

(** POST /api/create-payment-intent.  [amount] is the number in the body,
    of at most two decimals; [created] is the outcome of the call to
    Stripe, nothing when the call throws; [id] is the value drawn from the
    sequence of the payment table.  The column refuses an amount of more
    than eight digits before the point.  The message of a failure starts
    with the text given and goes on with that of the error. *)
Definition post_create_payment_intent (stripe : bool) (amount : Decimal)
    (created : option PaymentIntent) (id : Z) (dbNow : Timestamp)
    (userId : string) : DB Sent :=
  if negb stripe then ret (Plain payments_unavailable)
  else
    let failed := Failure 500 "Error creating payment intent: " in
    match created with
    | None => ret failed
    | Some paymentIntent =>
        if decimal_10_2 amount then
          attempt
            (createPayment
               {| InsertPayment.userId := userId;
                  InsertPayment.fineId := None;
                  InsertPayment.amount := amount;
                  InsertPayment.stripePaymentIntentId :=
                    Some (intent_id paymentIntent);
                  InsertPayment.status := Some "pending";
                  InsertPayment.completedAt := None |} id dbNow)
            (fun _ => ret (ClientSecret 200 (client_secret paymentIntent)))
            (ret failed)
        else ret failed
    end.

(** The readings of the clocks during one request: by the session check,
    by the handler, by the storage class, and by the database. *)
Record Clock := mkClock {
  sessionNow : Timestamp;
  handlerNow : Timestamp;
  storageNow : Timestamp;
  databaseNow : Timestamp
}.

(** The requests that [registerRoutes] serves when the server runs without
    Replit Auth: the two routes that [setupSimpleAuth] registers, then
    those of [routes.ts].  A request for a payment intent comes with what
    it meets outside the server: the outcome of the call to Stripe and
    the value drawn from the sequence of the payment table. *)
Inductive Request : Type :=
| POST_login
| GET_logout
| GET_auth_user
| GET_books (q : BooksQuery.t)
| GET_books_id (id : Z)
| POST_books (body : Book.Body.t)
| PUT_books_id (id : Z) (body : Book.Update.t)
| DELETE_books_id (id : Z)
| GET_reservations
| POST_reservations (bookId : Z)
| PUT_reservations_id (id : Z) (body : Reservation.Update.t)
| GET_admin_users
| GET_admin_reservations
| GET_dashboard_stats
| POST_create_payment_intent (amount : Decimal)
    (created : option PaymentIntent) (paymentId : Z)
| POST_payment_confirm (paymentIntentId : BodyField).

(** The answer and the store; the session that an accepted login or a
    logout leaves is that of [post_login] and [get_logout]. *)
Definition registerRoutes (stripe : bool) (zone : TimeZone)
    (authMiddleware : Middleware)
    (ilike : string -> string -> bool) (parseInt : string -> Num)
    (session : Session.t) (clock : Clock) (request : Request) : DB Sent :=
  let authenticated := protect authMiddleware session (sessionNow clock) in
  match request with
  | POST_login =>
      login (handlerNow clock) (storageNow clock) (databaseNow clock)
  | GET_logout => ret (fst get_logout)
  | GET_auth_user => authenticated get_auth_user
  | GET_books q => get_books ilike parseInt q
  | GET_books_id id => respond (get_book id)
  | POST_books body =>
      authenticated (fun userId =>
        respond (post_books body (databaseNow clock) userId))
  | PUT_books_id id body =>
      authenticated (fun userId =>
        respond (put_books id body (storageNow clock) userId))
  | DELETE_books_id id =>
      authenticated (fun userId => respond (delete_books id userId))
  | GET_reservations => authenticated get_reservations
  | POST_reservations bookId =>
      authenticated (fun userId =>
        respond (post_reservations zone bookId (handlerNow clock)
                   (databaseNow clock) (storageNow clock) userId))
  | PUT_reservations_id id body =>
      authenticated (fun userId => respond (put_reservations id body userId))
  | GET_admin_users =>
      authenticated (fun userId => respond (get_admin_users userId))
  | GET_admin_reservations =>
      authenticated (fun userId => respond (get_admin_reservations userId))
  | GET_dashboard_stats =>
      authenticated (fun userId =>
        respond (get_dashboard_stats (databaseNow clock) userId))
  | POST_create_payment_intent amount created paymentId =>
      authenticated
        (post_create_payment_intent stripe amount created paymentId
           (databaseNow clock))
  | POST_payment_confirm paymentIntentId =>
      authenticated (fun userId =>
        respond (post_payment_confirm stripe paymentIntentId
                   (handlerNow clock) (storageNow clock) userId))
  end.

(** The requests of method GET. *)
Definition is_get (request : Request) : bool :=
  match request with
  | GET_logout | GET_auth_user | GET_books _ | GET_books_id _
  | GET_reservations | GET_admin_users | GET_admin_reservations
  | GET_dashboard_stats => true
  | _ => false
  end.

(** ** Notions used to state the further properties *)

(** The columns of a user row other than the balance and [updatedAt]. *)
Definition account_of (u : User.t) :=
  (User.id u, User.role u, User.email u, User.firstName u, User.lastName u,
   User.profileImageUrl u, User.stripeCustomerId u,
   User.stripeSubscriptionId u, User.createdAt u).

(** The key and the role of a user row. *)
Definition standing_of (u : User.t) : string * string :=
  (User.id u, User.role u).

(** The columns of a book row other than [availableCopies] and
    [updatedAt]. *)
Definition catalogue_of (b : Book.t) :=
  (Book.id b, Book.title b, Book.author b, Book.isbn b, Book.genre b,
   Book.description b, Book.coverUrl b, Book.publicationYear b,
   Book.totalCopies b, Book.createdAt b).

(** A book whose count of available copies is within its bounds. *)
Definition in_stock (b : Book.t) : Prop :=
  0 <= Book.availableCopies b <= Book.totalCopies b.

(** Reservation requests for one book served one after the other, each
    with its caller and its readings of the clocks; the status codes of
    the answers, in order. *)
Fixpoint reserve_each (zone : TimeZone) (bookId : Z)
    (callers : list (string * Clock)) : DB (list Z) :=
  match callers with
  | [] => ret []
  | (userId, clock) :: rest =>
      response <- post_reservations zone bookId (handlerNow clock)
                    (databaseNow clock) (storageNow clock) userId ;;
      statuses <- reserve_each zone bookId rest ;;
      ret (statusCode response :: statuses)
  end.

Definition reminder : Payment.t :=
  Payment.mk 2 "u1" None 1000 (Some "pi_1") "pending" (Some 4000) None.

Definition twice_billed : Store.t :=
  Store.with_payments [invoice; reminder] library.

(** The payment that the route creating a payment intent records. *)
Definition pending_payment (userId : string) (amount : Decimal)
    (intent : string) : InsertPayment.t :=
  {| InsertPayment.userId := userId;
     InsertPayment.fineId := None;
     InsertPayment.amount := amount;
     InsertPayment.stripePaymentIntentId := Some intent;
     InsertPayment.status := Some "pending";
     InsertPayment.completedAt := None |}.

(** A payment row as a confirmation at [now] leaves it. *)
Definition completed (now : Timestamp) (q : Payment.t) : Payment.t :=
  Payment.mk (Payment.id q) (Payment.userId q) (Payment.fineId q)
             (Payment.amount q) (Payment.stripePaymentIntentId q) "completed"
             (Payment.createdAt q) (Some now).

(** The ISBN of a new book is one that the [isbn] column takes: at most
    13 characters, and not the ISBN of a stored book. *)
Definition isbn_is_new (st : Store.t) (body : Book.Body.t) : Prop :=
  forall isbn,
    Book.Body.isbn body = Some isbn ->
    (String.length isbn <= 13)%nat
    /\ forall b, In b (Store.books st) -> Book.isbn b <> Some isbn.

(** Every reservation refers to a stored book. *)
Definition books_on_record (st : Store.t) : Prop :=
  forall r, In r (Store.reservations st) ->
            exists b, In b (Store.books st)
                      /\ Book.id b = Reservation.bookId r.

(** The update that marks a fine as paid at [paidAt]. *)
Definition mark_paid (paidAt : Timestamp) : PartialFine.t :=
  {| PartialFine.id := None;
     PartialFine.userId := None;
     PartialFine.reservationId := None;
     PartialFine.amount := None;
     PartialFine.reason := None;
     PartialFine.status := Some "paid";
     PartialFine.createdAt := None;
     PartialFine.paidAt := Some (Some paidAt) |}.

(** A fine that takes the default status. *)
Definition new_fine (userId : string) (amount : Decimal) (reason : string)
    : InsertFine.t :=
  {| InsertFine.userId := userId;
     InsertFine.reservationId := None;
     InsertFine.amount := amount;
     InsertFine.reason := reason;
     InsertFine.status := None;
     InsertFine.paidAt := None |}.

(** Filters that name an availability and nothing else. *)
Definition only_availability (availability : string) : option Filters.t :=
  Some {| Filters.genre := None;
          Filters.author := None;
          Filters.availability := Some availability;
          Filters.yearFrom := None;
          Filters.yearTo := None |}.

(** A catalogue with a book in stock, a book out of stock, and a book
    whose count was set below zero by an update. *)
Definition emma : Book.t :=
  Book.mk 2 "Emma" "Jane Austen" None "Fiction" None None (Some 1815) 2 0
          (Some 900) (Some 900).

Definition ulysses : Book.t :=
  Book.mk 3 "Ulysses" "James Joyce" None "Fiction" None None None 1 (-1)
          (Some 950) (Some 960).

Definition shelves : Store.t := Store.with_books [dune; emma; ulysses] library.

(** ** The sidebar ([client/src/components/layout/sidebar.tsx]) *)

Record MenuItem := mkItem {
  label : string;
  path : string;
  roles : list string
}.

Definition menuItems : list MenuItem :=
  [mkItem "Dashboard" "/" ["user"; "admin"];
   mkItem "Book Catalog" "/books" ["user"; "admin"];
   mkItem "My Reservations" "/reservations" ["user"; "admin"];
   mkItem "Borrowing History" "/history" ["user"; "admin"];
   mkItem "Profile" "/profile" ["user"; "admin"]].

Definition adminItems : list MenuItem :=
  [mkItem "User Management" "/admin/users" ["admin"];
   mkItem "Inventory" "/admin/inventory" ["admin"];
   mkItem "Payments & Fines" "/admin/payments" ["admin"];
   mkItem "Reports" "/admin/reports" ["admin"]].

(** [array.includes(value)] on strings. *)
Definition includes (l : list string) (s : string) : bool :=
  existsb (fun x => (x =? s)%string) l.

(** [(user as any)?.role || "user"] *)
Definition role_or_user (role : option string) : string :=
  match nonempty role with
  | Some r => r
  | None => "user"
  end.

(** [items.filter(item => item.roles.includes(...))] *)
Definition shown (role : option string) (items : list MenuItem)
    : list MenuItem :=
  filter (fun item => includes (roles item) (role_or_user role)) items.

Definition isActive (location path : string) : bool :=
  if (path =? "/")%string && (location =? "/")%string then true
  else if negb (path =? "/")%string && String.prefix path location then true
  else false.

(** * Properties *)

(** ** Query fragments *)

Lemma bind_query (A B : Type) (f : Store.t -> A) (k : A -> DB B)
    (st : Store.t) :
  bind (query f) k st = k (f st) st.
Proof. reflexivity. Qed.

Lemma first_map (A B : Type) (f : A -> B) (l : list A) :
  first (map f l) = option_map f (first l).
Proof. destruct l; reflexivity. Qed.

Lemma filter_update_where (A : Type) (cond : A -> bool) (f : A -> A)
    (l : list A) :
  (forall x, cond (f x) = cond x) ->
  filter cond (update_where cond f l) = map f (filter cond l).
Proof.
  intros Hstable. unfold update_where.
  induction l as [|x l IH]; simpl; [reflexivity|].
  destruct (cond x) eqn:Hx.
  - rewrite Hstable, Hx. simpl. now rewrite IH.
  - rewrite Hx. exact IH.
Qed.

Lemma update_where_In (A : Type) (cond : A -> bool) (f : A -> A)
    (l : list A) (x : A) :
  In x l -> cond x = true -> In (f x) (update_where cond f l).
Proof.
  intros Hin Hx. unfold update_where.
  apply in_map_iff. exists x. now rewrite Hx.
Qed.

Lemma update_where_Forall2 (A : Type) (cond : A -> bool) (f : A -> A)
    (R : A -> A -> Prop) (l : list A) :
  (forall x, cond x = true -> R x (f x)) ->
  (forall x, cond x = false -> R x x) ->
  Forall2 R l (update_where cond f l).
Proof.
  intros Hhit Hmiss. unfold update_where.
  induction l as [|x l IH]; simpl; constructor; [|exact IH].
  destruct (cond x) eqn:Hx; auto.
Qed.

Lemma first_filter_In (A : Type) (cond : A -> bool) (l : list A) (x : A) :
  first (filter cond l) = Some x -> In x l /\ cond x = true.
Proof.
  intros H. apply filter_In.
  destruct (filter cond l) as [|y l']; [discriminate|].
  injection H as ->. now left.
Qed.

Lemma In_first_filter (A : Type) (cond : A -> bool) (l : list A) (x : A) :
  In x l -> cond x = true ->
  exists y, first (filter cond l) = Some y /\ In y l /\ cond y = true.
Proof.
  intros Hin Hx.
  destruct (filter cond l) as [|y l'] eqn:E.
  - assert (Hf : In x (filter cond l)) by (apply filter_In; auto).
    rewrite E in Hf. destruct Hf.
  - exists y. split; [reflexivity|].
    apply filter_In. rewrite E. now left.
Qed.

Lemma insert_desc_Permutation (A : Type) (key : A -> option Timestamp)
    (x : A) (l : list A) :
  Permutation (x :: l) (insert_desc key x l).
Proof.
  induction l as [|y l IH]; simpl; [reflexivity|].
  destruct (desc_before (key x) (key y)); [reflexivity|].
  rewrite perm_swap. now constructor.
Qed.

Lemma orderBy_desc_Permutation (A : Type) (key : A -> option Timestamp)
    (l : list A) :
  Permutation l (orderBy_desc key l).
Proof.
  induction l as [|x l IH]; simpl; [constructor|].
  rewrite <- insert_desc_Permutation. now constructor.
Qed.

Example orderBy_desc_nulls_first :
  orderBy_desc (fun x => snd x)
    [("a", Some 10); ("b", None); ("c", Some 30); ("d", Some 10)]
  = [("b", None); ("c", Some 30); ("a", Some 10); ("d", Some 10)].
Proof. reflexivity. Qed.

Example librarian_lists_loans :
  get_admin_reservations "u2" on_loan
  = (mkResponse 200
       (ActiveReservations
          [(Reservation.mk 7 "u2" 1 "active" (Some 1000) 1209601000 None,
            librarian, dune)]),
     on_loan).
Proof. reflexivity. Qed.

Example missing_title_rejected :
  post_books
    (Book.Body.mk None (Some "Jane Austen") None (Some "Fiction")
                  None None None None None)
    5000 "u2" library
  = (mkResponse 400 (Invalid "Invalid book data"), library).
Proof. reflexivity. Qed.

Example book_defaults :
  fst (post_books
         (Book.Body.mk (Some "Emma") (Some "Jane Austen") None
                       (Some "Fiction") None None None None None)
         5000 "u2" library)
  = mkResponse 201
      (OneBook
         (Some (Book.mk 2 "Emma" "Jane Austen" None "Fiction" None None None
                        1 1 (Some 5000) (Some 5000)))).
Proof. reflexivity. Qed.

(** ** Role gate *)

Lemma not_admin_spec (user : option User.t) :
  (forall u, user = Some u -> User.role u <> "admin") ->
  not_admin user = true.
Proof.
  intros H. destruct user as [u|]; simpl; [|reflexivity].
  destruct (String.eqb_spec (User.role u) "admin") as [E|]; [|reflexivity].
  now elim (H u eq_refl).
Qed.

Lemma route_authenticated (authMiddleware : Middleware) (session : Session.t)
    (t : Timestamp) (claims : Session.Claims)
    (handler : string -> DB Response) :
  authMiddleware session t = inr claims ->
  route authMiddleware session t handler = handler (Session.sub claims).
Proof. intros H. unfold route. now rewrite H. Qed.

Lemma route_denied (authMiddleware : Middleware) (session : Session.t)
    (t : Timestamp) (denied : Response) (handler : string -> DB Response)
    (st : Store.t) :
  authMiddleware session t = inl denied ->
  route authMiddleware session t handler st = (denied, st).
Proof. intros H. unfold route. now rewrite H. Qed.

Example member_is_authenticated :
  isAuthenticated member_session 2000500 = inr (Session.mkClaims "u1" 4000).
Proof. reflexivity. Qed.

Example expired_session_rejected :
  route isAuthenticated member_session 4001000 (delete_books 1) library
  = (mkResponse 401 (Message "Session expired"), library).
Proof. reflexivity. Qed.

Example librarian_deletes :
  route isAuthenticated librarian_session 2000500 (delete_books 1) library
  = (mkResponse 204 Empty, Store.mk [member; librarian] [] [] [] [] 2 1).
Proof. reflexivity. Qed.

(** C7. A request that passed the session check, made by a caller whose
    user row is missing or has a role other than "admin", is answered 403
    by each of the five administrator routes (create, update and delete a
    book, list the users, list the active reservations), and the store is
    left as it was. *)
Theorem admin_routes_forbidden
    (authMiddleware : Middleware) (session : Session.t) (t : Timestamp)
    (claims : Session.Claims) (st : Store.t) :
  authMiddleware session t = inr claims ->
  (forall u, fst (getUser (Session.sub claims) st) = Some u ->
             User.role u <> "admin") ->
  let forbidden := (mkResponse 403 (Message "Admin access required"), st) in
  (forall body dbNow,
      route authMiddleware session t (post_books body dbNow) st = forbidden)
  /\ (forall id body now,
      route authMiddleware session t (put_books id body now) st = forbidden)
  /\ (forall id,
      route authMiddleware session t (delete_books id) st = forbidden)
  /\ route authMiddleware session t get_admin_users st = forbidden
  /\ route authMiddleware session t get_admin_reservations st = forbidden.
Proof.
  intros Hauth Hrole forbidden.
  apply not_admin_spec in Hrole.
  repeat split; intros; rewrite (route_authenticated _ _ _ _ Hauth);
    unfold post_books, put_books, delete_books, get_admin_users,
      get_admin_reservations, bind;
    unfold getUser, query in *; simpl in *; rewrite Hrole; reflexivity.
Qed.

Lemma admin_routes_forbidden_witness :
  isAuthenticated member_session 2000500 = inr (Session.mkClaims "u1" 4000)
  /\ route isAuthenticated member_session 2000500 (delete_books 1) library
     = (mkResponse 403 (Message "Admin access required"), library).
Proof.
  split; [reflexivity|].
  refine (proj1 (proj2 (proj2
    (@admin_routes_forbidden isAuthenticated member_session 2000500
       (Session.mkClaims "u1" 4000) library eq_refl _))) 1).
  intros u Hu. vm_compute in Hu. injection Hu as <-. discriminate.
Defined.

(** ** Reservations *)

Lemma getBook_In (id : Z) (st : Store.t) (b : Book.t) :
  fst (getBook id st) = Some b -> In b (Store.books st) /\ Book.id b = id.
Proof.
  unfold getBook, query. simpl. intros H.
  apply first_filter_In in H. destruct H as [Hin Hid].
  split; [exact Hin|]. now apply Z.eqb_eq.
Qed.

(** C3. A reservation request for a book that does not exist, or that has
    no copy available, is answered 400; the store, hence the reservation
    table and the book's [availableCopies], is left as it was. *)
Theorem post_reservations_unavailable
    (zone : TimeZone) (st : Store.t) (bookId : Z)
    (now dbNow updatedAt : Timestamp) (userId : string) :
  fst (getBook bookId st) = None
  \/ (exists b, fst (getBook bookId st) = Some b
                /\ Book.availableCopies b <= 0) ->
  post_reservations zone bookId now dbNow updatedAt userId st
  = (mkResponse 400 (Message "Book is not available"), st).
Proof.
  intros H. unfold post_reservations, bind.
  destruct (getBook bookId st) as [book st1] eqn:Hget.
  assert (Hst : st1 = st) by (unfold getBook, query in Hget; congruence).
  subst st1. simpl in H.
  destruct H as [-> | [b [-> Hzero]]]; [reflexivity|].
  apply Z.leb_le in Hzero. now rewrite Hzero.
Qed.

Lemma post_reservations_unavailable_witness :
  (fst (getBook 1 sold_out) = None
   \/ (exists b, fst (getBook 1 sold_out) = Some b
                 /\ Book.availableCopies b <= 0))
  /\ post_reservations utc 1 5000 5001 5002 "u1" sold_out
     = (mkResponse 400 (Message "Book is not available"), sold_out).
Proof.
  assert (H : fst (getBook 1 sold_out) = None
              \/ (exists b, fst (getBook 1 sold_out) = Some b
                            /\ Book.availableCopies b <= 0)).
  { right. eexists. split; [reflexivity|]. simpl. lia. }
  split; [exact H|].
  exact (@post_reservations_unavailable utc sold_out 1 5000 5001 5002 "u1"
           H).
Defined.

(** *** Updates of a reservation *)

Lemma no_values_spec (body : Reservation.Update.t) :
  Reservation.no_values body = true <-> body = names_no_column.
Proof.
  split.
  - destruct body as [[?|] [?|] [?|] [?|] [?|] [?|] [?|]];
      try discriminate. reflexivity.
  - intros ->. reflexivity.
Qed.

Lemma sent_spec (value : option JsonTime) :
  (forall text, value <> Some (JsonText text)) ->
  sent value = Some (match value with Some _ => Some None | None => None end).
Proof.
  intros Hfit. destruct value as [[|text]|]; try reflexivity.
  now elim (Hfit text).
Qed.

Lemma int4_spec (n : Z) : in_integer n -> int4 n = true.
Proof.
  unfold in_integer, int4. intros [Hlo Hhi].
  apply andb_true_intro. split; now apply Z.leb_le.
Qed.

Lemma int4_or_null_spec (n : option Z) :
  (forall n', n = Some n' -> in_integer n') -> int4_or_null n = true.
Proof.
  destruct n as [n'|]; [|reflexivity].
  intros H. apply int4_spec. now apply H.
Qed.

Lemma existsb_none (A : Type) (f : A -> bool) (l : list A) :
  (forall x, In x l -> f x = false) -> existsb f l = false.
Proof.
  intros Hnone. induction l as [|x l IH]; simpl; [reflexivity|].
  rewrite (Hnone x (or_introl eq_refl)). apply IH.
  intros y Hy. apply Hnone. now right.
Qed.

Lemma has_user_spec (id : string) (st : Store.t) :
  has_user id st = true <-> exists u, In u (Store.users st) /\ User.id u = id.
Proof.
  unfold has_user. rewrite existsb_exists.
  split; intros [u [Hin Hid]]; exists u; split; auto;
    now apply String.eqb_eq.
Qed.

Lemma has_book_spec (id : Z) (st : Store.t) :
  has_book id st = true <-> exists b, In b (Store.books st) /\ Book.id b = id.
Proof.
  unfold has_book. rewrite existsb_exists.
  split; intros [b [Hin Hid]]; exists b; split; auto; now apply Z.eqb_eq.
Qed.

Lemma has_reservation_spec (id : Z) (st : Store.t) :
  has_reservation id st = true
  <-> exists r, In r (Store.reservations st) /\ Reservation.id r = id.
Proof.
  unfold has_reservation. rewrite existsb_exists.
  split; intros [r [Hin Hid]]; exists r; split; auto; now apply Z.eqb_eq.
Qed.

Lemma Forall2_same (A : Type) (R : A -> A -> Prop) (l : list A) :
  (forall x, R x x) -> Forall2 R l l.
Proof. intros Hrefl. induction l; constructor; auto. Qed.

(** What the update of a reservation does to the store: nothing when it
    throws, and otherwise it rewrites the rows of the key in the
    reservation table. *)
Lemma updateReservation_cases (id : Z) (body : Reservation.Update.t)
    (st : Store.t) :
  updateReservation id body st = (Thrown, st)
  \/ exists values,
       Reservation.values body = Some values
       /\ updateReservation id body st
          = (Resolved
               (first (returning (fun r => Reservation.id r =? id)
                                 (Reservation.set values)
                                 (Store.reservations st))),
             Store.with_reservations
               (update_where (fun r => Reservation.id r =? id)
                             (Reservation.set values)
                             (Store.reservations st)) st).
Proof.
  unfold updateReservation.
  destruct (Reservation.values body) as [values|]; [|now left].
  destruct (negb _); [now left|].
  destruct (_ && _); [now left|].
  right. exists values. split; reflexivity.
Qed.

Lemma put_reservations_cases (id : Z) (body : Reservation.Update.t)
    (userId : string) (st : Store.t) :
  put_reservations id body userId st
  = (mkResponse 500 (Message "Failed to update reservation"), st)
  \/ exists values,
       Reservation.values body = Some values
       /\ put_reservations id body userId st
          = (mkResponse 200
               (OneReservation
                  (first (returning (fun r => Reservation.id r =? id)
                                    (Reservation.set values)
                                    (Store.reservations st)))),
             Store.with_reservations
               (update_where (fun r => Reservation.id r =? id)
                             (Reservation.set values)
                             (Store.reservations st)) st).
Proof.
  unfold put_reservations, attempt.
  destruct (updateReservation_cases id body st) as [-> | [values [Hv ->]]];
    [now left|].
  right. exists values. split; [exact Hv|reflexivity].
Qed.

(** The values that the query builder sends for a body that marks a
    reservation completed, when it sends any. *)
Lemma mark_completed_values (completedAt : option JsonTime)
    (values : Reservation.Partial.t) :
  Reservation.values (mark_completed completedAt) = Some values ->
  Reservation.Partial.id values = None
  /\ Reservation.Partial.userId values = None
  /\ Reservation.Partial.bookId values = None
  /\ Reservation.Partial.status values = Some "completed"
  /\ Reservation.Partial.reservedAt values = None
  /\ Reservation.Partial.dueDate values = None.
Proof.
  unfold Reservation.values, mark_completed.
  cbn [Reservation.no_values absent andb Reservation.Update.id
       Reservation.Update.userId Reservation.Update.bookId
       Reservation.Update.status Reservation.Update.reservedAt
       Reservation.Update.dueDate Reservation.Update.completedAt sent].
  destruct (sent completedAt); [|discriminate].
  intros H. injection H as <-. repeat split.
Qed.

Lemma mark_completed_accepted (id : Z) (completedAt : option JsonTime)
    (userId : string) (st : Store.t) :
  (forall text, completedAt <> Some (JsonText text)) ->
  exists values,
    Reservation.values (mark_completed completedAt) = Some values
    /\ put_reservations id (mark_completed completedAt) userId st
       = (mkResponse 200
            (OneReservation
               (first (returning (fun r => Reservation.id r =? id)
                                 (Reservation.set values)
                                 (Store.reservations st)))),
          Store.with_reservations
            (update_where (fun r => Reservation.id r =? id)
                          (Reservation.set values)
                          (Store.reservations st)) st).
Proof.
  intros Hfit.
  unfold put_reservations, attempt, updateReservation, Reservation.values,
    mark_completed.
  cbn [Reservation.no_values absent andb Reservation.Update.id
       Reservation.Update.userId Reservation.Update.bookId
       Reservation.Update.status Reservation.Update.reservedAt
       Reservation.Update.dueDate Reservation.Update.completedAt].
  rewrite (sent_spec Hfit). cbn [sent].
  eexists. split; [reflexivity|].
  unfold reservation_update_is_refused.
  cbn [Reservation.Partial.id Reservation.Partial.userId
       Reservation.Partial.bookId Reservation.Partial.dueDate int4_or_null
       andb negb orb].
  rewrite andb_false_r. reflexivity.
Qed.

(** C4. Updating a reservation never touches the book table, whatever the
    body and whatever the answer: no copy count is restored.  Nor does it
    touch the users, the fines and the payments.  With a body that marks
    a reservation completed (status "completed" and, possibly, a value
    under [completedAt]), the rows of the reservation table of another
    key stay as they were, and the rows of that key change in [status]
    and [completedAt] at most.  When the body holds a completion time,
    which arrives as a string, the update throws: the answer is 500 and
    the store is as it was.  When it holds none, or null, the rows of
    that key have the status "completed", and the answer is 200 when the
    key is an [integer]. *)
Theorem complete_reservation_frame
    (st : Store.t) (id : Z) (userId : string) :
  (forall body,
      Store.books (snd (put_reservations id body userId st))
      = Store.books st
      /\ Store.users (snd (put_reservations id body userId st))
         = Store.users st
      /\ Store.fines (snd (put_reservations id body userId st))
         = Store.fines st
      /\ Store.payments (snd (put_reservations id body userId st))
         = Store.payments st)
  /\ (forall completedAt,
        Forall2 (completed_only id)
                (Store.reservations st)
                (Store.reservations
                   (snd (put_reservations id (mark_completed completedAt)
                                          userId st))))
  /\ (forall text,
        put_reservations id (mark_completed (Some (JsonText text))) userId st
        = (mkResponse 500 (Message "Failed to update reservation"), st))
  /\ (in_integer id ->
      statusCode
        (fst (put_reservations id (mark_completed None) userId st)) = 200
      /\ statusCode
           (fst (put_reservations id (mark_completed (Some JsonNull)) userId
                                  st))
         = 200)
  /\ Forall2 (marked_completed id)
             (Store.reservations st)
             (Store.reservations
                (snd (put_reservations id (mark_completed None) userId st)))
  /\ Forall2 (marked_completed id)
             (Store.reservations st)
             (Store.reservations
                (snd (put_reservations id (mark_completed (Some JsonNull))
                                       userId st))).
Proof.
  assert (Hrows : forall values,
    Reservation.Partial.id values = None ->
    Reservation.Partial.userId values = None ->
    Reservation.Partial.bookId values = None ->
    Reservation.Partial.status values = Some "completed" ->
    Reservation.Partial.reservedAt values = None ->
    Reservation.Partial.dueDate values = None ->
    Forall2 (marked_completed id) (Store.reservations st)
      (update_where (fun r => Reservation.id r =? id)
                    (Reservation.set values) (Store.reservations st))).
  { intros values Hid Huser Hbook Hstatus Hreserved Hdue.
    apply update_where_Forall2.
    - intros r Hr. apply Z.eqb_eq in Hr.
      unfold marked_completed, completed_only, Reservation.set.
      rewrite Hid, Huser, Hbook, Hstatus, Hreserved, Hdue. simpl.
      repeat split. intros Hneq. contradiction.
    - intros r Hr. apply Z.eqb_neq in Hr.
      unfold marked_completed, completed_only. repeat split.
      intros Heq. contradiction. }
  assert (Hdone : forall completedAt,
    (forall text, completedAt <> Some (JsonText text)) ->
    statusCode (fst (put_reservations id (mark_completed completedAt)
                                      userId st)) = 200
    /\ Forall2 (marked_completed id) (Store.reservations st)
         (Store.reservations
            (snd (put_reservations id (mark_completed completedAt) userId
                                   st)))).
  { intros completedAt Hfit.
    destruct (mark_completed_accepted id userId st Hfit)
      as [values [Hvalues ->]].
    destruct (mark_completed_values _ Hvalues)
      as [Hid [Huser [Hbook [Hstatus [Hreserved Hdue]]]]].
    split; [reflexivity|]. cbn [snd Store.reservations
      Store.with_reservations]. now apply Hrows. }
  split; [|split; [|split]].
  - intros body.
    destruct (put_reservations_cases id body userId st)
      as [-> | [values [_ ->]]]; repeat split.
  - intros completedAt.
    destruct (put_reservations_cases id (mark_completed completedAt) userId
                                     st) as [-> | [values [Hvalues ->]]].
    + cbn [snd]. apply Forall2_same. intros r.
      unfold completed_only. repeat split.
    + destruct (mark_completed_values _ Hvalues)
        as [Hid [Huser [Hbook [Hstatus [Hreserved Hdue]]]]].
      cbn [snd Store.reservations Store.with_reservations].
      eapply Forall2_impl; [|now apply Hrows].
      intros r r' H. apply H.
  - intros text. reflexivity.
  - destruct (Hdone None) as [Hcode Hn]; [discriminate|].
    destruct (Hdone (Some JsonNull)) as [Hcode' Hn'];
      [intros text; discriminate|].
    auto.
Qed.

Lemma complete_reservation_frame_witness :
  in_integer 7
  /\ put_reservations 7 (mark_completed None) "u1" on_loan
     = (mkResponse 200
          (OneReservation
             (Some (Reservation.mk 7 "u2" 1 "completed" (Some 1000)
                                   1209601000 None))),
        Store.with_reservations
          [Reservation.mk 7 "u2" 1 "completed" (Some 1000) 1209601000 None]
          on_loan)
  /\ statusCode (fst (put_reservations 7 (mark_completed None) "u1" on_loan))
     = 200.
Proof.
  assert (Hid : in_integer 7) by (unfold in_integer; lia).
  split; [exact Hid|]. split; [reflexivity|].
  exact (proj1 (proj1 (proj2 (proj2 (proj2
    (@complete_reservation_frame on_loan 7 "u1")))) Hid)).
Defined.

Example client_return_is_refused :
  put_reservations 7
    (mark_completed (Some (JsonText "2025-06-01T10:00:00.000Z"))) "u2"
    on_loan
  = (mkResponse 500 (Message "Failed to update reservation"), on_loan)
  /\ put_reservations 7 (mark_completed None) "u2" on_loan
     = (mkResponse 200
          (OneReservation
             (Some (Reservation.mk 7 "u2" 1 "completed" (Some 1000)
                                   1209601000 None))),
        Store.with_reservations
          [Reservation.mk 7 "u2" 1 "completed" (Some 1000) 1209601000 None]
          on_loan).
Proof. split; reflexivity. Qed.

Lemma row_takes_accepted (st : Store.t) (id : Z)
    (body : Reservation.Update.t) (userId : string) :
  row_takes st id body ->
  exists values,
    Reservation.values body = Some values
    /\ (forall r r', r' = Reservation.set values r -> overwritten body r r')
    /\ put_reservations id body userId st
       = (mkResponse 200
            (OneReservation
               (first (returning (fun r => Reservation.id r =? id)
                                 (Reservation.set values)
                                 (Store.reservations st)))),
          Store.with_reservations
            (update_where (fun r => Reservation.id r =? id)
                          (Reservation.set values)
                          (Store.reservations st)) st).
Proof.
  intros [_ [Hnames [[Hreserved [Hdue [Hcompleted [Hid Hbook]]]]
                     [Hnodue [Huser [Hbooks Hkey]]]]]].
  assert (Hno : Reservation.no_values body = false).
  { apply not_true_is_false. intros H. apply Hnames.
    now apply no_values_spec. }
  unfold put_reservations, attempt, updateReservation, Reservation.values.
  rewrite Hno, (sent_spec Hreserved), (sent_spec Hdue),
    (sent_spec Hcompleted).
  eexists. split; [reflexivity|]. split.
  { intros r r' ->. unfold overwritten, Reservation.set, assign.
    cbn [Reservation.Partial.id Reservation.Partial.userId
         Reservation.Partial.bookId Reservation.Partial.status
         Reservation.Partial.reservedAt Reservation.Partial.dueDate
         Reservation.Partial.completedAt Reservation.id Reservation.userId
         Reservation.bookId Reservation.status Reservation.reservedAt
         Reservation.dueDate Reservation.completedAt].
    rewrite Hnodue.
    destruct (Reservation.Update.id body), (Reservation.Update.userId body),
      (Reservation.Update.bookId body), (Reservation.Update.status body),
      (Reservation.Update.reservedAt body),
      (Reservation.Update.completedAt body); repeat split. }
  cbn [Reservation.Partial.id Reservation.Partial.bookId].
  rewrite (int4_or_null_spec Hid), (int4_or_null_spec Hbook).
  cbn [andb negb].
  assert (Hok : reservation_update_is_refused id
                  {| Reservation.Partial.id := Reservation.Update.id body;
                     Reservation.Partial.userId :=
                       Reservation.Update.userId body;
                     Reservation.Partial.bookId :=
                       Reservation.Update.bookId body;
                     Reservation.Partial.status :=
                       Reservation.Update.status body;
                     Reservation.Partial.reservedAt :=
                       match Reservation.Update.reservedAt body with
                       | Some _ => Some None
                       | None => None
                       end;
                     Reservation.Partial.dueDate :=
                       match Reservation.Update.dueDate body with
                       | Some _ => Some None
                       | None => None
                       end;
                     Reservation.Partial.completedAt :=
                       match Reservation.Update.completedAt body with
                       | Some _ => Some None
                       | None => None
                       end |} st = false).
  { unfold reservation_update_is_refused.
    cbn [Reservation.Partial.id Reservation.Partial.userId
         Reservation.Partial.bookId Reservation.Partial.dueDate].
    rewrite Hnodue. cbn [orb].
    apply orb_false_intro; [apply orb_false_intro|].
    - destruct (Reservation.Update.userId body) as [u|]; [|reflexivity].
      apply negb_false_iff. apply has_user_spec. now apply Huser.
    - destruct (Reservation.Update.bookId body) as [b|]; [|reflexivity].
      apply negb_false_iff. apply has_book_spec. now apply Hbooks.
    - destruct (Reservation.Update.id body) as [id'|]; [|reflexivity].
      destruct (Hkey id' eq_refl) as [-> | [Hfree Hfine]].
      + now rewrite Z.eqb_refl.
      + apply andb_false_intro2. apply orb_false_intro.
        * unfold has_reservation. apply existsb_none.
          intros r Hr. apply Z.eqb_neq. now apply Hfree.
        * unfold reservation_is_referenced. apply existsb_none.
          intros f Hf. specialize (Hfine f Hf).
          destruct (Fine.reservationId f) as [i|]; [|reflexivity].
          apply Z.eqb_neq. congruence. }
  rewrite Hok, andb_false_r. reflexivity.
Qed.

(** C10, as the code has it.  The update route consults neither the
    caller's identity nor a role: its answer and its effect are the same
    for every caller.  So, for any caller that passed the session check
    and any row [r] of the reservation table, whoever it belongs to: a
    body that names no column is answered 500 and nothing changes; a body
    that the row takes (it names a column, gives a [timestamp] column no
    value other than null, leaves the due date, and names a user, a book
    and a key that the constraints allow) is answered 200 with the first
    row of that key overwritten, and the table then holds every row of
    that key with the caller's fields written over it, every other row
    and every other table being as before. *)
Theorem put_reservations_unchecked
    (authMiddleware : Middleware) (session : Session.t) (t : Timestamp)
    (claims : Session.Claims) (st : Store.t) (body : Reservation.Update.t)
    (r : Reservation.t) :
  authMiddleware session t = inr claims ->
  In r (Store.reservations st) ->
  (forall userId,
      route authMiddleware session t
            (put_reservations (Reservation.id r) body) st
      = put_reservations (Reservation.id r) body userId st)
  /\ (body = names_no_column ->
      route authMiddleware session t
            (put_reservations (Reservation.id r) body) st
      = (mkResponse 500 (Message "Failed to update reservation"), st))
  /\ (row_takes st (Reservation.id r) body ->
      exists (r0 r0' : Reservation.t) (st' : Store.t),
        route authMiddleware session t
              (put_reservations (Reservation.id r) body) st
        = (mkResponse 200 (OneReservation (Some r0')), st')
        /\ In r0 (Store.reservations st)
        /\ Reservation.id r0 = Reservation.id r
        /\ overwritten body r0 r0'
        /\ Forall2 (updated_row (Reservation.id r) body)
                   (Store.reservations st) (Store.reservations st')
        /\ Store.users st' = Store.users st
        /\ Store.books st' = Store.books st
        /\ Store.fines st' = Store.fines st
        /\ Store.payments st' = Store.payments st).
Proof.
  intros Hauth Hin.
  rewrite (route_authenticated _ _ _ _ Hauth).
  split; [reflexivity|]. split.
  - intros ->. reflexivity.
  - intros Htakes.
    destruct (row_takes_accepted (Session.sub claims) Htakes)
      as [values [_ [Hover ->]]].
    destruct (In_first_filter (fun x => Reservation.id x =? Reservation.id r)
                (Store.reservations st) r Hin (Z.eqb_refl _))
      as [r0 [Hfirst [Hin0 Hid0]]].
    exists r0, (Reservation.set values r0). eexists.
    unfold returning. rewrite first_map, Hfirst. cbn [option_map].
    split; [reflexivity|].
    split; [exact Hin0|].
    split; [now apply Z.eqb_eq|].
    split; [now apply Hover|].
    split; [|repeat split].
    cbn [Store.reservations Store.with_reservations].
    apply update_where_Forall2.
    + intros x Hx. apply Z.eqb_eq in Hx. split.
      * intros _. now apply Hover.
      * intros Hneq. contradiction.
    + intros x Hx. apply Z.eqb_neq in Hx. split.
      * intros Heq. contradiction.
      * reflexivity.
Qed.

Lemma put_reservations_unchecked_witness :
  isAuthenticated member_session 2000500 = inr (Session.mkClaims "u1" 4000)
  /\ In (Reservation.mk 7 "u2" 1 "active" (Some 1000) 1209601000 None)
        (Store.reservations on_loan)
  /\ row_takes on_loan 7 takeover
  /\ route isAuthenticated member_session 2000500
           (put_reservations 7 takeover) on_loan
     = (mkResponse 200
          (OneReservation
             (Some (Reservation.mk 7 "u1" 1 "cancelled" None 1209601000
                                   None))),
        Store.with_reservations
          [Reservation.mk 7 "u1" 1 "cancelled" None 1209601000 None]
          on_loan).
Proof.
  assert (Htakes : row_takes on_loan 7 takeover).
  { unfold row_takes, values_fit, in_integer, takeover. cbn.
    split; [lia|].
    split; [discriminate|].
    split.
    { repeat split; try discriminate;
        match goal with
        | H : Some _ = Some _ |- _ => injection H as <-; lia
        end. }
    split; [reflexivity|].
    split.
    { intros userId Hu. injection Hu as <-. exists member.
      split; [now left|reflexivity]. }
    split.
    { intros bookId Hb. injection Hb as <-. exists dune.
      split; [now left|reflexivity]. }
    intros id' Hid. discriminate Hid. }
  split; [reflexivity|]. split; [now left|]. split; [exact Htakes|].
  destruct (proj2 (proj2
    (@put_reservations_unchecked isAuthenticated member_session 2000500
       (Session.mkClaims "u1" 4000) on_loan takeover
       (Reservation.mk 7 "u2" 1 "active" (Some 1000) 1209601000 None)
       eq_refl (or_introl eq_refl))) Htakes) as [r0 [r0' [st' [Hrun _]]]].
  reflexivity.
Defined.

(** C10, as specified, fails: an authenticated caller's update of
    an existing reservation is not applied and is answered 500 when its
    body names no column; so is the body that the client sends to return
    a book, whose completion time arrives as a string. *)
Lemma put_reservations_unchecked_counterexample :
  isAuthenticated member_session 2000500 = inr (Session.mkClaims "u1" 4000)
  /\ In (Reservation.mk 7 "u2" 1 "active" (Some 1000) 1209601000 None)
        (Store.reservations on_loan)
  /\ route isAuthenticated member_session 2000500
           (put_reservations 7 names_no_column) on_loan
     = (mkResponse 500 (Message "Failed to update reservation"), on_loan)
  /\ route isAuthenticated member_session 2000500
           (put_reservations 7
              (mark_completed (Some (JsonText "2025-06-01T10:00:00.000Z"))))
           on_loan
     = (mkResponse 500 (Message "Failed to update reservation"), on_loan).
Proof. repeat split. now left. Qed.

(** ** Copy counts *)

(** C8. No operation keeps [availableCopies] below [totalCopies]: from a
    store in which every book respects the bound, an administrator's
    create request and an administrator's update request both produce a
    stored book with more available copies than copies. *)
Theorem available_copies_unbounded :
  (exists (st st' : Store.t) (userId : string) (body : Book.Body.t)
          (dbNow : Timestamp) (b : Book.t),
      Forall within_total (Store.books st)
      /\ post_books body dbNow userId st
         = (mkResponse 201 (OneBook (Some b)), st')
      /\ In b (Store.books st')
      /\ Book.totalCopies b < Book.availableCopies b)
  /\ (exists (st st' : Store.t) (userId : string) (id : Z)
             (body : Book.Update.t) (now : Timestamp) (b : Book.t),
      Forall within_total (Store.books st)
      /\ put_books id body now userId st
         = (mkResponse 200 (OneBook (Some b)), st')
      /\ In b (Store.books st')
      /\ Book.totalCopies b < Book.availableCopies b).
Proof.
  assert (Hlib : Forall within_total (Store.books library)).
  { repeat constructor. unfold within_total. simpl. lia. }
  split.
  - exists library. eexists. exists "u2", overbooked, 5000. eexists.
    split; [exact Hlib|].
    split; [reflexivity|]. split; [simpl; auto|]. simpl. lia.
  - exists library. eexists. exists "u2", 1, overstock, 5000. eexists.
    split; [exact Hlib|].
    split; [reflexivity|]. split; [simpl; auto|]. simpl. lia.
Qed.

Lemma getBook_updateBookAvailability
    (id available : Z) (now : Timestamp) (st : Store.t) (b : Book.t) :
  fst (getBook id st) = Some b ->
  exists b',
    fst (getBook id (snd (updateBookAvailability id available now st)))
    = Some b'
    /\ Book.availableCopies b' = available
    /\ Book.totalCopies b' = Book.totalCopies b
    /\ Book.title b' = Book.title b.
Proof.
  unfold getBook, updateBookAvailability, query. simpl. intros H.
  rewrite filter_update_where by reflexivity.
  rewrite first_map, H. simpl. eexists. split; [reflexivity|].
  simpl. auto.
Qed.

Lemma getUser_has_user (userId : string) (st : Store.t) :
  fst (getUser userId st) <> None -> has_user userId st = true.
Proof.
  unfold getUser, query. cbn [fst]. intros Hrow.
  destruct (filter (fun u => (User.id u =? userId)%string) (Store.users st))
    as [|u l] eqn:Hfilter; [now elim Hrow|].
  assert (Hin : In u (filter (fun u => (User.id u =? userId)%string)
                             (Store.users st)))
    by (rewrite Hfilter; now left).
  apply filter_In in Hin. destruct Hin as [Hin Hid].
  apply has_user_spec. exists u. split; [exact Hin|].
  now apply String.eqb_eq.
Qed.

Lemma getBook_has_book (id : Z) (st : Store.t) (b : Book.t) :
  fst (getBook id st) = Some b -> has_book id st = true.
Proof.
  intros Hget. apply getBook_In in Hget. apply has_book_spec. now exists b.
Qed.

(** The request of a caller with a user row, for a book with a copy
    available, in one equation. *)
Lemma post_reservations_accepted
    (zone : TimeZone) (st : Store.t) (bookId : Z)
    (now dbNow updatedAt : Timestamp) (userId : string) (b : Book.t) :
  fst (getUser userId st) <> None ->
  fst (getBook bookId st) = Some b ->
  0 < Book.availableCopies b ->
  let r := Reservation.mk (Store.reservations_id_seq st) userId bookId
             "active" (Some dbNow) (addDays zone now 14) None in
  post_reservations zone bookId now dbNow updatedAt userId st
  = (mkResponse 201 (OneReservation (Some r)),
     snd (updateBookAvailability bookId (Book.availableCopies b - 1)
            updatedAt (Store.insert_reservation r st))).
Proof.
  intros Hrow Hget Hpos r.
  assert (Hleb : (Book.availableCopies b <=? 0) = false)
    by (apply Z.leb_gt; exact Hpos).
  pose proof (getUser_has_user _ _ Hrow) as Huser.
  pose proof (getBook_has_book _ _ Hget) as Hbook.
  unfold post_reservations, bind.
  destruct (getBook bookId st) as [book st1] eqn:Hbook1.
  assert (Hst : st1 = st) by (unfold getBook, query in Hbook1; congruence).
  subst st1. simpl in Hget. subst book.
  rewrite Hleb. unfold attempt, createReservation.
  cbn [Reservation.Insert.userId Reservation.Insert.bookId].
  rewrite Huser, Hbook. reflexivity.
Qed.

(** C2, as the code has it.  A reservation request of a caller who has a
    user row, for a book with [availableCopies = N > 0], when the key
    drawn from the sequence is an [integer] that no reservation holds, is
    answered 201; it appends exactly one row to the reservation table,
    under that key, for the caller and the book, with status "active",
    with [reservedAt] the database's own clock at the insertion, and with
    [dueDate] the handler's reading of the server clock moved on by 14
    days of the server's local calendar: the instant of the same local
    time 14 days later, which is 14 times 24 hours after the reading
    when the zone has the same offset at both ends.  Afterwards the book
    has [N - 1] available copies. *)
Theorem post_reservations_available
    (zone : TimeZone) (st : Store.t) (bookId : Z)
    (now dbNow updatedAt : Timestamp) (userId : string) (b : Book.t) :
  fst (getUser userId st) <> None ->
  in_integer (Store.reservations_id_seq st) ->
  (forall r, In r (Store.reservations st) ->
             Reservation.id r <> Store.reservations_id_seq st) ->
  fst (getBook bookId st) = Some b ->
  0 < Book.availableCopies b ->
  exists (r : Reservation.t) (st' : Store.t),
    post_reservations zone bookId now dbNow updatedAt userId st
    = (mkResponse 201 (OneReservation (Some r)), st')
    /\ Store.reservations st' = Store.reservations st ++ [r]
    /\ (forall r', In r' (Store.reservations st') ->
                   Reservation.id r' = Reservation.id r -> r' = r)
    /\ Reservation.id r = Store.reservations_id_seq st
    /\ Reservation.userId r = userId
    /\ Reservation.bookId r = bookId
    /\ Reservation.status r = "active"
    /\ Reservation.dueDate r = UTC zone (LocalTime zone now + 14 * day)
    /\ (offset_of_local zone (LocalTime zone now + 14 * day)
        = offset_at zone now ->
        Reservation.dueDate r = now + 14 * day)
    /\ Reservation.reservedAt r = Some dbNow
    /\ Reservation.completedAt r = None
    /\ exists b',
         fst (getBook bookId st') = Some b'
         /\ Book.availableCopies b' = Book.availableCopies b - 1
         /\ Book.totalCopies b' = Book.totalCopies b.
Proof.
  intros Hrow _ Hfresh Hget Hpos.
  rewrite (@post_reservations_accepted zone st bookId now dbNow updatedAt
             userId b Hrow Hget Hpos).
  set (r := Reservation.mk (Store.reservations_id_seq st) userId bookId
              "active" (Some dbNow) (addDays zone now 14) None).
  set (st2 := Store.insert_reservation r st).
  assert (Hget2 : fst (getBook bookId st2) = Some b)
    by (unfold getBook, query in *; simpl in *; congruence).
  destruct (getBook_updateBookAvailability bookId
              (Book.availableCopies b - 1) updatedAt st2 Hget2)
    as [b' [Hb' [Ha [Ht _]]]].
  exists r, (snd (updateBookAvailability bookId (Book.availableCopies b - 1)
                                         updatedAt st2)).
  split; [reflexivity|].
  split; [reflexivity|].
  split.
  { cbn [snd updateBookAvailability Store.reservations Store.with_books
         st2 Store.insert_reservation].
    intros r' Hin Hid. apply in_app_or in Hin.
    destruct Hin as [Hin | [<- | []]]; [|reflexivity].
    elim (Hfresh r' Hin). exact Hid. }
  split; [reflexivity|].
  split; [reflexivity|].
  split; [reflexivity|].
  split; [reflexivity|].
  split; [reflexivity|].
  split.
  { intros Hsame. cbn [r Reservation.dueDate].
    unfold addDays, UTC, LocalTime in *. rewrite Hsame. lia. }
  split; [reflexivity|].
  split; [reflexivity|].
  exists b'. auto.
Qed.

Lemma post_reservations_available_witness :
  fst (getUser "u1" library) <> None
  /\ in_integer (Store.reservations_id_seq library)
  /\ (forall r, In r (Store.reservations library) ->
                Reservation.id r <> Store.reservations_id_seq library)
  /\ fst (getBook 1 library) = Some dune
  /\ 0 < Book.availableCopies dune
  /\ exists (r : Reservation.t) (st' : Store.t),
       post_reservations utc 1 5000 5003 5004 "u1" library
       = (mkResponse 201 (OneReservation (Some r)), st')
       /\ Store.reservations st' = Store.reservations library ++ [r]
       /\ (forall r', In r' (Store.reservations st') ->
                      Reservation.id r' = Reservation.id r -> r' = r)
       /\ Reservation.id r = Store.reservations_id_seq library
       /\ Reservation.userId r = "u1"
       /\ Reservation.bookId r = 1
       /\ Reservation.status r = "active"
       /\ Reservation.dueDate r = UTC utc (LocalTime utc 5000 + 14 * day)
       /\ (offset_of_local utc (LocalTime utc 5000 + 14 * day)
           = offset_at utc 5000 ->
           Reservation.dueDate r = 5000 + 14 * day)
       /\ Reservation.reservedAt r = Some 5003
       /\ Reservation.completedAt r = None
       /\ exists b',
            fst (getBook 1 st') = Some b'
            /\ Book.availableCopies b' = Book.availableCopies dune - 1
            /\ Book.totalCopies b' = Book.totalCopies dune.
Proof.
  assert (Hrow : fst (getUser "u1" library) <> None) by discriminate.
  assert (Hseq : in_integer (Store.reservations_id_seq library))
    by (unfold in_integer; simpl; lia).
  assert (Hfresh : forall r, In r (Store.reservations library) ->
                     Reservation.id r <> Store.reservations_id_seq library)
    by (intros r []).
  assert (Hpos : 0 < Book.availableCopies dune) by (simpl; lia).
  split; [exact Hrow|]. split; [exact Hseq|]. split; [exact Hfresh|].
  split; [reflexivity|]. split; [exact Hpos|].
  exact (@post_reservations_available utc library 1 5000 5003 5004 "u1" dune
           Hrow Hseq Hfresh eq_refl Hpos).
Defined.

(** C2, as specified, fails.  The row's [reservedAt] is the
    database's clock, not the clock that the due date was computed from:
    with the two three milliseconds apart, the due date is not 14 days
    after [reservedAt].  And the 14 days are days of the server's local
    calendar: with both clocks at the same instant, in a zone that sets
    its clocks back within the period, the due date is 14 days and one
    hour after [reservedAt]. *)
Lemma post_reservations_due_date_counterexample :
  let r := Reservation.mk 1 "u1" 1 "active" (Some 5003) 1209605000 None in
  let r' := Reservation.mk 1 "u1" 1 "active" (Some 5000) 1213205000 None in
  fst (getBook 1 library) = Some dune
  /\ Book.availableCopies dune = 2
  /\ post_reservations utc 1 5000 5003 5004 "u1" library
     = (mkResponse 201 (OneReservation (Some r)),
        Store.mk [member; librarian]
          [Book.mk 1 "Dune" "Frank Herbert" None "Science Fiction" None None
                   (Some 1965) 3 1 (Some 800) (Some 5004)]
          [r] [] [] 2 2)
  /\ Reservation.reservedAt r = Some 5003
  /\ Reservation.dueDate r <> 5003 + 14 * day
  /\ fst (post_reservations autumn 1 5000 5000 5000 "u1" library)
     = mkResponse 201 (OneReservation (Some r'))
  /\ Reservation.reservedAt r' = Some 5000
  /\ Reservation.dueDate r' = 5000 + 14 * day + hour
  /\ Reservation.dueDate r' <> 5000 + 14 * day.
Proof.
  cbv zeta.
  split; [reflexivity|]. split; [reflexivity|].
  split; [vm_compute; reflexivity|]. split; [reflexivity|].
  split; [simpl; unfold day; lia|].
  split; [vm_compute; reflexivity|]. split; [reflexivity|].
  split; [reflexivity|]. simpl. unfold day. lia.
Qed.

(** A caller without a user row is answered 500: the reservation refers
    to a user that is not stored.  No row is written, and the key is
    drawn all the same. *)
Example reservation_without_user_row :
  post_reservations utc 1 5000 5003 5004 "nobody" library
  = (mkResponse 500 (Message "Failed to create reservation"),
     Store.mk [member; librarian] [dune] [] [] [] 2 2).
Proof. reflexivity. Qed.

(** ** Dashboard *)

Lemma sum_unpaid_total (userId : string) (rows : list Fine.t) :
  sum (map Fine.amount
         (filter (fun f => (Fine.userId f =? userId)%string
                           && (Fine.status f =? "unpaid")%string) rows))
  = unpaid_total userId rows.
Proof.
  induction rows as [|f rows IH]; simpl; [reflexivity|].
  destruct (string_dec (Fine.userId f) userId) as [Hu|Hu].
  - apply String.eqb_eq in Hu. rewrite Hu. simpl.
    destruct (string_dec (Fine.status f) "unpaid") as [Hs|Hs].
    + apply String.eqb_eq in Hs. rewrite Hs. simpl. now rewrite IH.
    + apply String.eqb_neq in Hs. rewrite Hs. exact IH.
  - apply String.eqb_neq in Hu. rewrite Hu. exact IH.
Qed.

(** C1, as the code has it.  The outstanding-fines figure of the dashboard
    statistics is the total of the amounts of the user's fine rows whose
    status is "unpaid"; it is the same whatever the user table holds, the
    stored balance included. *)
Theorem dashboard_fines_from_rows
    (st : Store.t) (userId : string) (dbNow : Timestamp) :
  Stats.outstandingFines (fst (getDashboardStats userId dbNow st))
  = unpaid_total userId (Store.fines st)
  /\ forall users',
       Stats.outstandingFines
         (fst (getDashboardStats userId dbNow (Store.with_users users' st)))
       = Stats.outstandingFines (fst (getDashboardStats userId dbNow st)).
Proof.
  split.
  - unfold getDashboardStats, getTotalFines, bind, query, ret. simpl.
    apply sum_unpaid_total.
  - intros users'. reflexivity.
Qed.

(** C1, as specified, fails both ways: a stored balance is not
    shown when there is no fine row, and an unpaid fine row is shown
    against a stored balance of zero. *)
Lemma dashboard_fines_counterexample :
  (fst (getUser "u1" library) = Some member
   /\ balance member = 500
   /\ Stats.outstandingFines (fst (getDashboardStats "u1" 5000 library)) = 0)
  /\ (fst (getUser "u2" fined) = Some librarian
      /\ balance librarian = 0
      /\ Stats.outstandingFines (fst (getDashboardStats "u2" 5000 fined))
         = 700)
  /\ Stats.outstandingFines (fst (getDashboardStats "u1" 5000 library))
     <> balance member.
Proof.
  repeat split; try reflexivity. vm_compute. discriminate.
Qed.

Lemma count_number_of (userId : string) (now : Timestamp)
    (rows : list Reservation.t) :
  count (filter
           (fun r => (Reservation.userId r =? userId)%string
                     && (Reservation.status r =? "active")%string
                     && between (Reservation.dueDate r) now (now + 3 * day))
           rows)
  = number_of (DueSoon_dec userId now) rows.
Proof.
  unfold count, between.
  induction rows as [|r rows IH]; [reflexivity|].
  cbn [filter number_of].
  destruct (DueSoon_dec userId now r) as [[Hu [Hs [Hlo Hhi]]]|Hno].
  - apply String.eqb_eq in Hu. apply String.eqb_eq in Hs.
    apply Z.leb_le in Hlo. apply Z.leb_le in Hhi.
    rewrite Hu, Hs, Hlo, Hhi.
    cbn [andb List.length]. rewrite Nat2Z.inj_succ, IH. lia.
  - replace ((Reservation.userId r =? userId)%string
             && (Reservation.status r =? "active")%string
             && ((now <=? Reservation.dueDate r)
                 && (Reservation.dueDate r <=? now + 3 * day)))
      with false; [rewrite IH; lia|].
    symmetry. apply not_true_is_false. intros Hall.
    apply andb_prop in Hall. destruct Hall as [Hall Hbetween].
    apply andb_prop in Hall. destruct Hall as [Hu Hs].
    apply andb_prop in Hbetween. destruct Hbetween as [Hlo Hhi].
    apply Hno. unfold DueSoon.
    apply String.eqb_eq in Hu. apply String.eqb_eq in Hs.
    apply Z.leb_le in Hlo. apply Z.leb_le in Hhi. auto.
Qed.

Lemma number_of_app (A : Type) (P : A -> Prop)
    (dec : forall x, {P x} + {~ P x}) (l1 l2 : list A) :
  number_of dec (l1 ++ l2) = number_of dec l1 + number_of dec l2.
Proof. induction l1 as [|x l1 IH]; simpl; [reflexivity|]. rewrite IH. lia. Qed.

(** C6. The due-soon figure of the dashboard statistics is the number of
    rows of the reservation table that are the user's, active and due
    between the database's current time and three days later.  Any one
    row adds one to the figure when it is such a row and nothing when it
    has another owner, another status or a due date outside the window. *)
Theorem dashboard_due_soon
    (st : Store.t) (userId : string) (dbNow : Timestamp) :
  Stats.dueSoon (fst (getDashboardStats userId dbNow st))
  = number_of (DueSoon_dec userId dbNow) (Store.reservations st)
  /\ forall before r after,
       Stats.dueSoon
         (fst (getDashboardStats userId dbNow
                 (Store.with_reservations (before ++ r :: after) st)))
       = Stats.dueSoon
           (fst (getDashboardStats userId dbNow
                   (Store.with_reservations (before ++ after) st)))
         + (if DueSoon_dec userId dbNow r then 1 else 0).
Proof.
  assert (Hcount : forall st0,
    Stats.dueSoon (fst (getDashboardStats userId dbNow st0))
    = number_of (DueSoon_dec userId dbNow) (Store.reservations st0)).
  { intros st0. unfold getDashboardStats, getTotalFines, bind, query, ret.
    simpl. apply count_number_of. }
  split; [apply Hcount|].
  intros before r after.
  rewrite !Hcount. simpl.
  rewrite !number_of_app. simpl. lia.
Qed.

Example due_soon_window :
  let row := fun id status due =>
    Reservation.mk id "u1" 1 status (Some 0) due None in
  Stats.dueSoon
    (fst (getDashboardStats "u1" 1000
            (Store.with_reservations
               [row 1 "active" 999; row 2 "active" 1000;
                row 3 "active" (1000 + 3 * day);
                row 4 "active" (1001 + 3 * day);
                row 5 "completed" 2000;
                Reservation.mk 6 "u2" 1 "active" (Some 0) 2000 None]
               library)))
  = 2.
Proof. reflexivity. Qed.

(** ** Payments *)

Lemma getUserPayments_In (userId : string) (st : Store.t)
    (cond : Payment.t -> bool) (p : Payment.t) :
  find cond (fst (getUserPayments userId st)) = Some p ->
  In p (Store.payments st) /\ Payment.userId p = userId /\ cond p = true.
Proof.
  unfold getUserPayments, query. simpl. intros H.
  apply find_some in H. destruct H as [Hin Hcond].
  apply (Permutation_in _ (Permutation_sym (orderBy_desc_Permutation _ _)))
    in Hin.
  apply filter_In in Hin. destruct Hin as [Hin Huser].
  apply String.eqb_eq in Huser. auto.
Qed.

Lemma getUser_updateUser (id : string) (updates : User.Partial.t)
    (now : Timestamp) (st : Store.t) (u : User.t) :
  User.Partial.id updates = None ->
  fst (getUser id st) = Some u ->
  exists u',
    fst (getUser id (snd (updateUser id updates now st))) = Some u'
    /\ User.outstandingFines u'
       = assign (User.Partial.outstandingFines updates)
                (User.outstandingFines u)
    /\ User.role u' = assign (User.Partial.role updates) (User.role u).
Proof.
  unfold getUser, updateUser, query. simpl. intros Hid H.
  rewrite filter_update_where
    by (intros x; simpl; rewrite Hid; reflexivity).
  rewrite first_map, H. simpl. eexists. split; [reflexivity|].
  simpl. auto.
Qed.

Lemma post_payment_confirm_found
    (st : Store.t) (paymentIntentId : BodyField) (now updatedAt : Timestamp)
    (userId : string) (p : Payment.t) (u : User.t) :
  find (names_intent paymentIntentId) (fst (getUserPayments userId st))
  = Some p ->
  fst (getUser userId st) = Some u ->
  exists (st1 : Store.t) (patch : User.Partial.t),
    post_payment_confirm true paymentIntentId now updatedAt userId st
    = (mkResponse 200 Success, snd (updateUser userId patch updatedAt st1))
    /\ User.Partial.id patch = None
    /\ User.Partial.outstandingFines patch
       = Some (Some (Z.max 0 (balance u - Payment.amount p)))
    /\ fst (getUser userId st1) = Some u
    /\ Store.payments st1
       = update_where (fun q => Payment.id q =? Payment.id p)
           (fun q => Payment.mk (Payment.id q) (Payment.userId q)
                       (Payment.fineId q) (Payment.amount q)
                       (Payment.stripePaymentIntentId q) "completed"
                       (Payment.createdAt q) (Some now))
           (Store.payments st)
    /\ forall patch' t, Store.payments (snd (updateUser userId patch' t st1))
                        = Store.payments st1.
Proof.
  intros Hfind Huser.
  unfold post_payment_confirm. change (negb true) with false. cbv iota.
  unfold getUserPayments at 1. rewrite bind_query.
  unfold getUserPayments, query in Hfind. simpl in Hfind.
  rewrite Hfind. unfold bind at 1.
  match goal with
  | |- context [updatePayment ?i ?patch st] =>
      set (st1 := snd (updatePayment i patch st));
      replace (updatePayment i patch st)
        with (fst (updatePayment i patch st), st1)
        by (unfold st1; destruct (updatePayment i patch st); reflexivity)
  end.
  assert (Huser1 : first (filter (fun x => (User.id x =? userId)%string)
                                 (Store.users st1)) = Some u)
    by exact Huser.
  unfold getUser at 1. rewrite bind_query, Huser1.
  unfold bind, ret.
  match goal with
  | |- context [updateUser userId ?patch updatedAt st1] =>
      exists st1, patch;
      destruct (updateUser userId patch updatedAt st1) eqn:Hupd
  end.
  simpl.
  split; [reflexivity|]. split; [reflexivity|]. split; [reflexivity|].
  split; [exact Huser|].
  split; reflexivity.
Qed.

Lemma update_where_hit (A : Type) (cond : A -> bool) (f : A -> A)
    (P : A -> Prop) (l : list A) (y : A) :
  (forall x, cond x = true -> P (f x)) ->
  (forall x, cond x = false -> In x l -> P x) ->
  In y (update_where cond f l) -> P y.
Proof.
  intros Hhit Hmiss Hin. unfold update_where in Hin.
  apply in_map_iff in Hin. destruct Hin as [x [Hy Hx]].
  destruct (cond x) eqn:Hc; subst y; auto.
Qed.

(** C5, as the code has it.  When the Stripe client is configured and the
    request names the intent of one of the caller's payments, the route
    answers 200, the payment row is stored with status "completed" and
    the time of completion, every row of that id is completed, and the
    caller's stored balance is lowered by the amount paid when the balance
    covers it and set to zero when it does not. *)
Theorem confirm_completes_payment
    (st : Store.t) (paymentIntentId : BodyField) (now updatedAt : Timestamp)
    (userId : string) (p : Payment.t) (u : User.t) :
  find (names_intent paymentIntentId) (fst (getUserPayments userId st))
  = Some p ->
  fst (getUser userId st) = Some u ->
  exists (st' : Store.t) (u' : User.t),
    post_payment_confirm true paymentIntentId now updatedAt userId st
    = (mkResponse 200 Success, st')
    /\ In p (Store.payments st)
    /\ In (Payment.mk (Payment.id p) (Payment.userId p) (Payment.fineId p)
                      (Payment.amount p) (Payment.stripePaymentIntentId p)
                      "completed" (Payment.createdAt p) (Some now))
          (Store.payments st')
    /\ (forall q, In q (Store.payments st') ->
                  Payment.id q = Payment.id p ->
                  Payment.status q = "completed")
    /\ fst (getUser userId st') = Some u'
    /\ (Payment.amount p <= balance u ->
        balance u' = balance u - Payment.amount p)
    /\ (balance u < Payment.amount p -> balance u' = 0).
Proof.
  intros Hfind Huser.
  destruct (@post_payment_confirm_found st paymentIntentId now updatedAt
              userId p u Hfind Huser)
    as [st1 [patch [Hrun [Hid [Hfines [Huser1 [Hpayments Hframe]]]]]]].
  destruct (@getUser_updateUser userId patch updatedAt st1 u Hid Huser1)
    as [u' [Hget [Hbalance _]]].
  destruct (@getUserPayments_In userId st _ p Hfind) as [Hin _].
  exists (snd (updateUser userId patch updatedAt st1)), u'.
  split; [exact Hrun|].
  split; [exact Hin|].
  rewrite Hframe, Hpayments.
  split.
  { apply (update_where_In (fun q => Payment.id q =? Payment.id p)
             (fun q => Payment.mk (Payment.id q) (Payment.userId q)
                         (Payment.fineId q) (Payment.amount q)
                         (Payment.stripePaymentIntentId q) "completed"
                         (Payment.createdAt q) (Some now))
             (Store.payments st) p Hin).
    apply Z.eqb_refl. }
  split.
  { intros q Hq. pattern q.
    eapply update_where_hit; [| |exact Hq]; cbv beta.
    - intros x _ _. reflexivity.
    - intros x Hx _ Hsame. apply Z.eqb_neq in Hx. contradiction. }
  split; [exact Hget|].
  assert (Hnew : balance u' = Z.max 0 (balance u - Payment.amount p))
    by (unfold balance at 1; rewrite Hbalance, Hfines; reflexivity).
  rewrite Hnew. lia.
Qed.

Lemma confirm_completes_payment_witness :
  find (names_intent (Text "pi_1")) (fst (getUserPayments "u1" owing))
  = Some invoice
  /\ fst (getUser "u1" owing) = Some member
  /\ exists (st' : Store.t) (u' : User.t),
       post_payment_confirm true (Text "pi_1") 6000 6001 "u1" owing
       = (mkResponse 200 Success, st')
       /\ In invoice (Store.payments owing)
       /\ In (Payment.mk 1 "u1" None 1000 (Some "pi_1") "completed"
                         (Some 3000) (Some 6000))
             (Store.payments st')
       /\ (forall q, In q (Store.payments st') ->
                     Payment.id q = Payment.id invoice ->
                     Payment.status q = "completed")
       /\ fst (getUser "u1" st') = Some u'
       /\ (Payment.amount invoice <= balance member ->
           balance u' = balance member - Payment.amount invoice)
       /\ (balance member < Payment.amount invoice -> balance u' = 0).
Proof.
  split; [reflexivity|].
  split; [reflexivity|].
  exact (@confirm_completes_payment owing (Text "pi_1") 6000 6001 "u1"
           invoice member eq_refl eq_refl).
Defined.

(** C5, as specified, fails: a payment of 10.00 against a stored
    balance of 5.00 leaves a balance of 0.00, which is not the balance
    less the amount paid. *)
Lemma confirm_decrement_counterexample :
  let st' := snd (post_payment_confirm true (Text "pi_1") 6000 6001 "u1"
                                       owing) in
  find (names_intent (Text "pi_1")) (fst (getUserPayments "u1" owing))
  = Some invoice
  /\ Payment.amount invoice = 1000
  /\ option_map balance (fst (getUser "u1" owing)) = Some 500
  /\ Store.payments st'
     = [Payment.mk 1 "u1" None 1000 (Some "pi_1") "completed" (Some 3000)
                   (Some 6000)]
  /\ option_map balance (fst (getUser "u1" st')) = Some 0
  /\ option_map balance (fst (getUser "u1" st')) <> Some (500 - 1000).
Proof.
  cbv zeta. repeat split; try reflexivity.
  vm_compute. discriminate.
Qed.

(** C9. When the Stripe client is configured and the request names the
    intent of one of the caller's payments, the balance stored on the
    caller's row becomes the greater of zero and the balance stored before
    less the amount of the payment, a balance of NULL counting as zero;
    it is never negative. *)
Theorem confirm_balance_clamped
    (st : Store.t) (paymentIntentId : BodyField) (now updatedAt : Timestamp)
    (userId : string) (p : Payment.t) (u : User.t) :
  find (names_intent paymentIntentId) (fst (getUserPayments userId st))
  = Some p ->
  fst (getUser userId st) = Some u ->
  exists (u' : User.t) (stored : Decimal),
    fst (getUser userId
           (snd (post_payment_confirm true paymentIntentId now updatedAt
                                      userId st)))
    = Some u'
    /\ User.outstandingFines u' = Some stored
    /\ stored
       = Z.max 0 (match User.outstandingFines u with
                  | Some previous => previous
                  | None => 0
                  end - Payment.amount p)
    /\ 0 <= stored.
Proof.
  intros Hfind Huser.
  destruct (@post_payment_confirm_found st paymentIntentId now updatedAt
              userId p u Hfind Huser)
    as [st1 [patch [Hrun [Hid [Hfines [Huser1 _]]]]]].
  destruct (@getUser_updateUser userId patch updatedAt st1 u Hid Huser1)
    as [u' [Hget [Hbalance _]]].
  exists u'. eexists. rewrite Hrun. simpl snd.
  split; [exact Hget|].
  rewrite Hfines in Hbalance. simpl in Hbalance.
  split; [exact Hbalance|].
  split; [reflexivity|]. lia.
Qed.

Lemma confirm_balance_clamped_witness :
  find (names_intent (Text "pi_6")) (fst (getUserPayments "u1" partly))
  = Some deposit
  /\ fst (getUser "u1" partly) = Some member
  /\ User.outstandingFines member = Some 500
  /\ Payment.amount deposit = 200
  /\ exists (u' : User.t) (stored : Decimal),
       fst (getUser "u1"
              (snd (post_payment_confirm true (Text "pi_6") 6000 6001 "u1"
                                         partly)))
       = Some u'
       /\ User.outstandingFines u' = Some stored
       /\ stored = Z.max 0 (500 - 200)
       /\ 0 <= stored.
Proof.
  split; [reflexivity|].
  split; [reflexivity|].
  split; [reflexivity|].
  split; [reflexivity|].
  exact (@confirm_balance_clamped partly (Text "pi_6") 6000 6001 "u1"
           deposit member eq_refl eq_refl).
Defined.

Example balance_after_payment :
  option_map User.outstandingFines
    (fst (getUser "u1"
            (snd (post_payment_confirm true (Text "pi_6") 6000 6001 "u1"
                                       partly))))
  = Some (Some 300)
  /\ option_map User.outstandingFines
       (fst (getUser "u1"
               (snd (post_payment_confirm true (Text "pi_9") 6000 6001 "u1"
                                          overpaid))))
     = Some (Some 0).
Proof. split; reflexivity. Qed.

Example confirm_without_stripe :
  post_payment_confirm false (Text "pi_1") 6000 6001 "u1" owing
  = (mkResponse 503
       (Message
          "Payment processing is not available in demo mode. Stripe configuration required."),
     owing).
Proof. reflexivity. Qed.

Example confirm_unknown_intent :
  post_payment_confirm true (Text "pi_7") 6000 6001 "u1" owing
  = (mkResponse 200 Success, owing).
Proof. reflexivity. Qed.

(** * Further properties *)

(** ** More on query fragments *)

Lemma map_update_where (A B : Type) (g : A -> B) (cond : A -> bool)
    (f : A -> A) (l : list A) :
  (forall x, g (f x) = g x) ->
  map g (update_where cond f l) = map g l.
Proof.
  intros Hg. unfold update_where. rewrite map_map.
  apply map_ext. intros x. destruct (cond x); auto.
Qed.

Lemma update_where_none (A : Type) (cond : A -> bool) (f : A -> A)
    (l : list A) :
  (forall x, In x l -> cond x = false) -> update_where cond f l = l.
Proof.
  intros Hnone. unfold update_where.
  induction l as [|x l IH]; simpl; [reflexivity|].
  rewrite (Hnone x (or_introl eq_refl)), IH; [reflexivity|].
  intros y Hy. apply Hnone. now right.
Qed.

Lemma filter_none (A : Type) (cond : A -> bool) (l : list A) :
  (forall x, In x l -> cond x = false) -> filter cond l = [].
Proof.
  intros Hnone. induction l as [|x l IH]; simpl; [reflexivity|].
  rewrite (Hnone x (or_introl eq_refl)). apply IH.
  intros y Hy. apply Hnone. now right.
Qed.

Lemma filter_all (A : Type) (cond : A -> bool) (l : list A) :
  (forall x, In x l -> cond x = true) -> filter cond l = l.
Proof.
  intros Hall. induction l as [|x l IH]; simpl; [reflexivity|].
  rewrite (Hall x (or_introl eq_refl)), IH; [reflexivity|].
  intros y Hy. apply Hall. now right.
Qed.

Lemma find_none_iff (A : Type) (cond : A -> bool) (l : list A) :
  (forall x, In x l -> cond x = false) -> find cond l = None.
Proof.
  intros Hnone. induction l as [|x l IH]; simpl; [reflexivity|].
  rewrite (Hnone x (or_introl eq_refl)). apply IH.
  intros y Hy. apply Hnone. now right.
Qed.

Lemma orderBy_desc_In (A : Type) (key : A -> option Timestamp)
    (l : list A) (x : A) :
  In x (orderBy_desc key l) <-> In x l.
Proof.
  split; apply Permutation_in;
    [apply Permutation_sym|]; apply orderBy_desc_Permutation.
Qed.

Lemma respond_run (handler : DB Response) (st : Store.t) :
  respond handler st = (Plain (fst (handler st)), snd (handler st)).
Proof. unfold respond, bind, ret. now destruct (handler st). Qed.

(** ** What a request can and cannot change *)

Lemma post_payment_confirm_frame
    (stripe : bool) (paymentIntentId : BodyField) (now updatedAt : Timestamp)
    (userId : string) (st : Store.t) :
  Store.books (snd (post_payment_confirm stripe paymentIntentId now updatedAt
                                         userId st)) = Store.books st
  /\ Store.reservations
       (snd (post_payment_confirm stripe paymentIntentId now updatedAt
                                  userId st)) = Store.reservations st
  /\ Store.fines (snd (post_payment_confirm stripe paymentIntentId now
                                            updatedAt userId st))
     = Store.fines st.
Proof.
  unfold post_payment_confirm, bind, ret, getUserPayments, getUser, query,
    updatePayment, updateUser.
  destruct stripe; simpl; [|repeat split].
  destruct (find _ _); simpl; [|repeat split].
  destruct (first _); simpl; repeat split.
Qed.

(** The cases of a reservation request: refused for want of a copy;
    refused by the database for want of a user row; accepted. *)
Lemma post_reservations_cases
    (zone : TimeZone) (bookId : Z) (now dbNow updatedAt : Timestamp)
    (userId : string) (st : Store.t) :
  post_reservations zone bookId now dbNow updatedAt userId st
  = (not_available, st)
  \/ post_reservations zone bookId now dbNow updatedAt userId st
     = (mkResponse 500 (Message "Failed to create reservation"),
        Store.nextval_reservations st)
  \/ exists (b : Book.t) (r : Reservation.t),
       fst (getBook bookId st) = Some b
       /\ 0 < Book.availableCopies b
       /\ post_reservations zone bookId now dbNow updatedAt userId st
          = (mkResponse 201 (OneReservation (Some r)),
             snd (updateBookAvailability bookId (Book.availableCopies b - 1)
                    updatedAt (Store.insert_reservation r st))).
Proof.
  unfold post_reservations, bind, getBook, query, attempt, createReservation.
  cbv beta iota. cbn [fst Reservation.Insert.userId Reservation.Insert.bookId].
  destruct (first (filter (fun b => Book.id b =? bookId) (Store.books st)))
    as [b|] eqn:Hb; [|now left].
  destruct (Book.availableCopies b <=? 0) eqn:Hleb; [now left|].
  right.
  destruct (has_user userId st && has_book bookId st); [right|now left].
  exists b. eexists. split; [reflexivity|]. split; [now apply Z.leb_gt|].
  reflexivity.
Qed.

Lemma post_reservations_frame
    (zone : TimeZone) (bookId : Z) (now dbNow updatedAt : Timestamp)
    (userId : string) (st : Store.t) :
  Store.users (snd (post_reservations zone bookId now dbNow updatedAt userId
                                      st))
  = Store.users st
  /\ Store.fines (snd (post_reservations zone bookId now dbNow updatedAt
                                         userId st)) = Store.fines st
  /\ Store.payments (snd (post_reservations zone bookId now dbNow updatedAt
                                            userId st)) = Store.payments st.
Proof.
  destruct (post_reservations_cases zone bookId now dbNow updatedAt userId st)
    as [-> | [-> | [b [r [_ [_ ->]]]]]]; repeat split.
Qed.

Lemma post_reservations_length
    (zone : TimeZone) (bookId : Z) (now dbNow updatedAt : Timestamp)
    (userId : string) (st : Store.t) :
  let served := post_reservations zone bookId now dbNow updatedAt userId st in
  List.length (Store.reservations (snd served))
  = List.length (Store.reservations st)
  \/ (statusCode (fst served) = 201
      /\ List.length (Store.reservations (snd served))
         = S (List.length (Store.reservations st))).
Proof.
  cbv zeta.
  destruct (post_reservations_cases zone bookId now dbNow updatedAt userId st)
    as [-> | [-> | [b [r [_ [_ ->]]]]]]; [now left|now left|right].
  split; [reflexivity|].
  cbn [snd updateBookAvailability Store.reservations Store.with_books
       Store.insert_reservation].
  rewrite length_app. simpl. lia.
Qed.

(** The cases of the update and of the deletion of a book. *)
Lemma updateBook_cases (id : Z) (body : Book.Update.t) (now : Timestamp)
    (st : Store.t) :
  updateBook id body now st = (Thrown, st)
  \/ exists values,
       updateBook id body now st
       = (Resolved (first (returning (fun b => Book.id b =? id)
                                     (Book.set values) (Store.books st))),
          Store.with_books
            (update_where (fun b => Book.id b =? id) (Book.set values)
                          (Store.books st)) st).
Proof.
  unfold updateBook.
  destruct (Book.values body now) as [values|]; [|now left].
  destruct (Book.typed values) as [values'|]; [|now left].
  destruct (_ && _); [now left|].
  right. now exists values'.
Qed.

Lemma deleteBook_cases (id : Z) (st : Store.t) :
  deleteBook id st = (Thrown, st)
  \/ deleteBook id st
     = (Resolved tt,
        Store.with_books
          (filter (fun b => negb (Book.id b =? id)) (Store.books st)) st).
Proof. unfold deleteBook. destruct (_ && _); [now left|now right]. Qed.

Lemma createBook_cases (bookData : Book.Insert.t) (dbNow : Timestamp)
    (st : Store.t) :
  createBook bookData dbNow st = (Thrown, Store.nextval_books st)
  \/ exists b, createBook bookData dbNow st
               = (Resolved b, Store.insert_book b st).
Proof.
  unfold createBook. destruct (isbn_is_held _ _ _); [now left|right].
  eexists. reflexivity.
Qed.

(** A route behind the role gate leaves the store as it was for a caller
    who is no administrator. *)
Lemma books_routes_gate (userId : string) (st : Store.t) :
  not_admin (fst (getUser userId st)) = true ->
  (forall body dbNow,
      post_books body dbNow userId st = (admin_required, st))
  /\ (forall id body now,
        put_books id body now userId st = (admin_required, st))
  /\ (forall id, delete_books id userId st = (admin_required, st)).
Proof.
  intros Hmember. unfold getUser, query in Hmember. cbn [fst] in Hmember.
  repeat split; intros;
    unfold post_books, put_books, delete_books, bind, getUser, query;
    rewrite Hmember; reflexivity.
Qed.

(** The three routes write the book table and its sequence only. *)
Lemma post_books_frame (body : Book.Body.t) (dbNow : Timestamp)
    (userId : string) (st : Store.t) :
  Store.users (snd (post_books body dbNow userId st)) = Store.users st
  /\ Store.reservations (snd (post_books body dbNow userId st))
     = Store.reservations st
  /\ Store.fines (snd (post_books body dbNow userId st)) = Store.fines st
  /\ Store.payments (snd (post_books body dbNow userId st))
     = Store.payments st.
Proof.
  unfold post_books, bind, getUser, query, attempt.
  destruct (not_admin _); [repeat split|].
  destruct (insertBookSchema_parse body) as [bookData|]; [|repeat split].
  destruct (createBook_cases bookData dbNow st) as [-> | [b ->]];
    repeat split.
Qed.

Lemma put_books_frame (id : Z) (body : Book.Update.t) (now : Timestamp)
    (userId : string) (st : Store.t) :
  Store.users (snd (put_books id body now userId st)) = Store.users st
  /\ Store.reservations (snd (put_books id body now userId st))
     = Store.reservations st
  /\ Store.fines (snd (put_books id body now userId st)) = Store.fines st
  /\ Store.payments (snd (put_books id body now userId st))
     = Store.payments st.
Proof.
  unfold put_books, bind, getUser, query, attempt.
  destruct (not_admin _); [repeat split|].
  destruct (updateBook_cases id body now st) as [-> | [values ->]];
    repeat split.
Qed.

Lemma delete_books_frame (id : Z) (userId : string) (st : Store.t) :
  Store.users (snd (delete_books id userId st)) = Store.users st
  /\ Store.reservations (snd (delete_books id userId st))
     = Store.reservations st
  /\ Store.fines (snd (delete_books id userId st)) = Store.fines st
  /\ Store.payments (snd (delete_books id userId st)) = Store.payments st.
Proof.
  unfold delete_books, bind, getUser, query, attempt.
  destruct (not_admin _); [repeat split|].
  destruct (deleteBook_cases id st) as [-> | ->]; repeat split.
Qed.

Lemma put_reservations_frame (id : Z) (body : Reservation.Update.t)
    (userId : string) (st : Store.t) :
  Store.users (snd (put_reservations id body userId st)) = Store.users st
  /\ Store.books (snd (put_reservations id body userId st)) = Store.books st
  /\ Store.fines (snd (put_reservations id body userId st)) = Store.fines st
  /\ Store.payments (snd (put_reservations id body userId st))
     = Store.payments st.
Proof.
  destruct (put_reservations_cases id body userId st)
    as [-> | [values [_ ->]]]; repeat split.
Qed.

Lemma put_reservations_length (id : Z) (body : Reservation.Update.t)
    (userId : string) (st : Store.t) :
  List.length (Store.reservations (snd (put_reservations id body userId st)))
  = List.length (Store.reservations st).
Proof.
  destruct (put_reservations_cases id body userId st)
    as [-> | [values [_ ->]]]; [reflexivity|].
  cbn [snd Store.reservations Store.with_reservations].
  unfold update_where. now rewrite length_map.
Qed.

(** The login writes the user table only. *)
Lemma post_login_frame (now storageNow dbNow : Timestamp) (st : Store.t) :
  Store.books (snd (post_login now storageNow dbNow st)) = Store.books st
  /\ Store.reservations (snd (post_login now storageNow dbNow st))
     = Store.reservations st
  /\ Store.fines (snd (post_login now storageNow dbNow st)) = Store.fines st
  /\ Store.payments (snd (post_login now storageNow dbNow st))
     = Store.payments st.
Proof.
  unfold post_login, upsertUser, bind, ret.
  destruct (first _); repeat split.
Qed.

Lemma login_run (now storageNow dbNow : Timestamp) (st : Store.t) :
  login now storageNow dbNow st
  = if email_is_held demoUser st then (login_failed, st)
    else (fst (fst (post_login now storageNow dbNow st)),
          snd (post_login now storageNow dbNow st)).
Proof.
  unfold login, bind, ret.
  destruct (email_is_held demoUser st); [reflexivity|].
  now destruct (post_login now storageNow dbNow st).
Qed.

(** The creation of a payment intent writes the payment table only. *)
Lemma post_create_payment_intent_frame
    (stripe : bool) (amount : Decimal) (created : option PaymentIntent)
    (id : Z) (dbNow : Timestamp) (userId : string) (st : Store.t) :
  Store.users (snd (post_create_payment_intent stripe amount created id
                                               dbNow userId st))
  = Store.users st
  /\ Store.books (snd (post_create_payment_intent stripe amount created id
                                                  dbNow userId st))
     = Store.books st
  /\ Store.reservations
       (snd (post_create_payment_intent stripe amount created id dbNow
                                        userId st))
     = Store.reservations st
  /\ Store.fines (snd (post_create_payment_intent stripe amount created id
                                                  dbNow userId st))
     = Store.fines st.
Proof.
  unfold post_create_payment_intent, attempt, createPayment, ret.
  destruct stripe; cbn [negb]; [|repeat split].
  destruct created as [paymentIntent|]; [|repeat split].
  destruct (decimal_10_2 amount); [|repeat split].
  cbn [InsertPayment.userId InsertPayment.fineId].
  destruct (_ && _); repeat split.
Qed.

(** The handlers of the GET routes leave the store as it was. *)
Ltac reads :=
  unfold get_auth_user, get_books, get_book, get_reservations,
    get_admin_users, get_admin_reservations, get_dashboard_stats,
    getDashboardStats, getTotalFines, searchBooks, getUserReservations,
    getAllUsers, getActiveReservations, getBook, getUser, bind, ret, query;
  cbn [fst snd];
  repeat match goal with
         | |- context [if ?c then _ else _] => destruct c
         | |- context [match ?x with Some _ => _ | None => _ end] =>
             destruct x
         end;
  reflexivity.

Lemma get_auth_user_read (userId : string) (st : Store.t) :
  snd (get_auth_user userId st) = st.
Proof. reads. Qed.

Lemma get_books_read (ilike : string -> string -> bool)
    (parseInt : string -> Num) (q : BooksQuery.t) (st : Store.t) :
  snd (get_books ilike parseInt q st) = st.
Proof. reads. Qed.

Lemma get_book_read (id : Z) (st : Store.t) : snd (get_book id st) = st.
Proof. reads. Qed.

Lemma get_reservations_read (userId : string) (st : Store.t) :
  snd (get_reservations userId st) = st.
Proof. reads. Qed.

Lemma get_admin_users_read (userId : string) (st : Store.t) :
  snd (get_admin_users userId st) = st.
Proof. reads. Qed.

Lemma get_admin_reservations_read (userId : string) (st : Store.t) :
  snd (get_admin_reservations userId st) = st.
Proof. reads. Qed.

Lemma get_dashboard_stats_read (dbNow : Timestamp) (userId : string)
    (st : Store.t) :
  snd (get_dashboard_stats dbNow userId st) = st.
Proof. reads. Qed.

(** One request, case by case: the route, then the session check of the
    routes behind it, then the routes that only read. *)
Ltac serve request :=
  destruct request; cbn [registerRoutes is_get]; unfold protect;
  try match goal with
      | |- context [match ?check with inl _ => _ | inr _ => _ end] =>
          destruct check as [denied|claims] eqn:Hcheck
      end;
  rewrite ?respond_run, ?login_run;
  try match goal with
      | |- context [email_is_held ?userData ?st] =>
          destruct (email_is_held userData st) eqn:Hheld
      end;
  cbn [fst snd ret];
  rewrite ?get_auth_user_read, ?get_books_read, ?get_book_read,
    ?get_reservations_read, ?get_admin_users_read,
    ?get_admin_reservations_read, ?get_dashboard_stats_read.

(** X1. A GET request never changes the store, whoever sends it and
    whatever it is answered. *)
Theorem get_requests_read_only
    (stripe : bool) (zone : TimeZone) (authMiddleware : Middleware)
    (ilike : string -> string -> bool) (parseInt : string -> Num)
    (session : Session.t) (clock : Clock) (request : Request)
    (st : Store.t) :
  is_get request = true ->
  snd (registerRoutes stripe zone authMiddleware ilike parseInt session clock
                      request st) = st.
Proof.
  intros Hget. serve request; try discriminate Hget; reflexivity.
Qed.

Lemma get_requests_read_only_witness :
  is_get GET_admin_users = true
  /\ snd (registerRoutes true utc isAuthenticated (fun _ _ => false)
            (fun _ => NaN) librarian_session (mkClock 2000500 0 0 0)
            GET_admin_users on_loan) = on_loan.
Proof.
  split; [reflexivity|].
  exact (@get_requests_read_only true utc isAuthenticated (fun _ _ => false)
           (fun _ => NaN) librarian_session (mkClock 2000500 0 0 0)
           GET_admin_users on_loan eq_refl).
Defined.

Lemma post_payment_confirm_accounts
    (stripe : bool) (paymentIntentId : BodyField) (now updatedAt : Timestamp)
    (userId : string) (st : Store.t) :
  map account_of
      (Store.users (snd (post_payment_confirm stripe paymentIntentId now
                                              updatedAt userId st)))
  = map account_of (Store.users st).
Proof.
  unfold post_payment_confirm, bind, ret, getUserPayments, getUser, query,
    updatePayment, updateUser.
  destruct stripe; simpl; [|reflexivity].
  destruct (find _ _); simpl; [|reflexivity].
  destruct (first _); simpl; [|reflexivity].
  apply map_update_where. intros x. reflexivity.
Qed.

(** The login keeps the key and the role of every user row, and adds at
    most the row of the demo user, with the role "user". *)
Lemma post_login_standing (now storageNow dbNow : Timestamp) (st : Store.t) :
  exists added,
    map standing_of (Store.users (snd (post_login now storageNow dbNow st)))
    = map standing_of (Store.users st) ++ added
    /\ (added = [] \/ added = [("demo-user-123", "user")]).
Proof.
  unfold post_login, upsertUser, bind, ret, returning.
  cbn [UpsertUser.id demoUser]. rewrite first_map.
  destruct (first (filter _ (Store.users st))) as [u0|];
    cbn [option_map fst snd Store.users Store.with_users].
  - exists []. rewrite app_nil_r. split; [|now left].
    unfold update_where. rewrite map_map. apply map_ext_in.
    intros u _. destruct (User.id u =? "demo-user-123")%string eqn:Hid;
      [|reflexivity].
    apply String.eqb_eq in Hid. unfold standing_of. simpl. now rewrite Hid.
  - exists [("demo-user-123", "user")]. rewrite map_app.
    split; [reflexivity|now right].
Qed.

Lemma accounts_standing (l l' : list User.t) :
  map account_of l' = map account_of l ->
  map standing_of l' = map standing_of l.
Proof.
  intros Haccounts.
  assert (Hfactor : forall k,
    map standing_of k
    = map (fun a => match a with
                    | (id, role, _, _, _, _, _, _, _) => (id, role)
                    end)
          (map account_of k))
    by (intros k; rewrite map_map; reflexivity).
  now rewrite !Hfactor, Haccounts.
Qed.

(** X2. No request gives or takes away the role of administrator, and
    none removes a user.  After any request the user table holds the keys
    and the roles that it held, row for row; the one row that a request
    can add is that of the demo user, with the role "user", on login.  A
    request other than a login changes no column of a user row other than
    the stored balance and [updatedAt]. *)
Theorem requests_keep_accounts
    (stripe : bool) (zone : TimeZone) (authMiddleware : Middleware)
    (ilike : string -> string -> bool) (parseInt : string -> Num)
    (session : Session.t) (clock : Clock) (request : Request)
    (st : Store.t) :
  let st' := snd (registerRoutes stripe zone authMiddleware ilike parseInt
                                 session clock request st) in
  (exists added,
      map standing_of (Store.users st')
      = map standing_of (Store.users st) ++ added
      /\ (added = []
          \/ (request = POST_login
              /\ added = [("demo-user-123", "user")])))
  /\ (request = POST_login
      \/ map account_of (Store.users st') = map account_of (Store.users st)).
Proof.
  cbv zeta.
  assert (Hsame : forall st' : Store.t,
    map account_of (Store.users st') = map account_of (Store.users st) ->
    (exists added,
        map standing_of (Store.users st')
        = map standing_of (Store.users st) ++ added
        /\ (added = []
            \/ (request = POST_login
                /\ added = [("demo-user-123", "user")])))
    /\ (request = POST_login
        \/ map account_of (Store.users st')
           = map account_of (Store.users st))).
  { intros st' Haccounts. split; [|now right].
    exists []. rewrite app_nil_r. split; [|now left].
    now apply accounts_standing. }
  serve request; try (apply Hsame; reflexivity).
  - split; [|now left].
    destruct (post_login_standing (handlerNow clock) (storageNow clock)
                (databaseNow clock) st) as [added [Hmap Hadded]].
    exists added. split; [exact Hmap|].
    destruct Hadded as [-> | ->]; [now left|right; now split].
  - apply Hsame. f_equal. apply post_books_frame.
  - apply Hsame. f_equal. apply put_books_frame.
  - apply Hsame. f_equal. apply delete_books_frame.
  - apply Hsame. f_equal. apply post_reservations_frame.
  - apply Hsame. f_equal. apply put_reservations_frame.
  - apply Hsame. f_equal. apply post_create_payment_intent_frame.
  - apply Hsame. apply post_payment_confirm_accounts.
Qed.

(** A login is refused when another user holds the demo address. *)
Example login_is_refused :
  let taken :=
    Store.with_users
      [User.mk "u9" (Some "demo@libraryflow.com") None None None "user"
               None None (Some 0) (Some 700) (Some 700)] library in
  registerRoutes true utc isAuthenticated (fun _ _ => false)
    (fun _ => NaN) (Session.mk None) (mkClock 0 9000000 9000001 9000002)
    POST_login taken
  = (Plain (mkResponse 500 (Message "Login failed")), taken).
Proof. reflexivity. Qed.

Example login_adds_the_demo_user :
  map standing_of
      (Store.users
         (snd (registerRoutes true utc isAuthenticated (fun _ _ => false)
                 (fun _ => NaN) (Session.mk None)
                 (mkClock 0 9000000 9000001 9000002) POST_login library)))
  = [("u1", "user"); ("u2", "admin"); ("demo-user-123", "user")].
Proof. reflexivity. Qed.

(** X3. No request writes the fine table.  Hence the outstanding-fines
    figure of the dashboard is the same, for every user, after any request
    as before it, a confirmed payment included. *)
Theorem requests_keep_fines
    (stripe : bool) (zone : TimeZone) (authMiddleware : Middleware)
    (ilike : string -> string -> bool) (parseInt : string -> Num)
    (session : Session.t) (clock : Clock) (request : Request)
    (st : Store.t) :
  let st' := snd (registerRoutes stripe zone authMiddleware ilike parseInt
                                 session clock request st) in
  Store.fines st' = Store.fines st
  /\ forall userId t,
       Stats.outstandingFines (fst (getDashboardStats userId t st'))
       = Stats.outstandingFines (fst (getDashboardStats userId t st)).
Proof.
  cbv zeta.
  assert (Hfines :
    Store.fines (snd (registerRoutes stripe zone authMiddleware ilike
                                     parseInt session clock request st))
    = Store.fines st).
  { serve request; try reflexivity.
    - apply post_login_frame.
    - apply post_books_frame.
    - apply put_books_frame.
    - apply delete_books_frame.
    - apply post_reservations_frame.
    - apply put_reservations_frame.
    - apply post_create_payment_intent_frame.
    - apply post_payment_confirm_frame. }
  split; [exact Hfines|].
  intros userId t.
  unfold getDashboardStats, getTotalFines, bind, ret, query. simpl.
  now rewrite Hfines.
Qed.

Example paying_leaves_dashboard_figure :
  let owing_fined :=
    with_fines [Fine.mk 1 "u1" None 1000 "Late return" "unpaid" (Some 1500)
                        None] owing in
  let st' := snd (registerRoutes true utc isAuthenticated (fun _ _ => false)
                    (fun _ => NaN) member_session (mkClock 2000500 6000 6001 0)
                    (POST_payment_confirm (Text "pi_1")) owing_fined) in
  option_map balance (fst (getUser "u1" st')) = Some 0
  /\ Stats.outstandingFines (fst (getDashboardStats "u1" 7000 st')) = 1000.
Proof. split; reflexivity. Qed.

Lemma post_reservations_catalogue
    (zone : TimeZone) (bookId : Z) (now dbNow updatedAt : Timestamp)
    (userId : string) (st : Store.t) :
  map catalogue_of
      (Store.books (snd (post_reservations zone bookId now dbNow updatedAt
                                           userId st)))
  = map catalogue_of (Store.books st).
Proof.
  destruct (post_reservations_cases zone bookId now dbNow updatedAt userId st)
    as [-> | [-> | [b [r [_ [_ ->]]]]]]; try reflexivity.
  cbn [snd updateBookAvailability Store.books Store.with_books
       Store.insert_reservation].
  apply map_update_where. intros x. reflexivity.
Qed.

(** X4. A caller who is not an administrator cannot edit the catalogue:
    whatever the request, the book table keeps its rows, in order, and
    every column of each but [availableCopies] and [updatedAt] (which a
    reservation writes).  The same holds when the session check fails. *)
Theorem members_keep_catalogue
    (stripe : bool) (zone : TimeZone) (authMiddleware : Middleware)
    (ilike : string -> string -> bool) (parseInt : string -> Num)
    (session : Session.t) (clock : Clock) (request : Request)
    (st : Store.t) :
  (forall claims,
      authMiddleware session (sessionNow clock) = inr claims ->
      not_admin (fst (getUser (Session.sub claims) st)) = true) ->
  map catalogue_of
      (Store.books (snd (registerRoutes stripe zone authMiddleware ilike
                                        parseInt session clock request st)))
  = map catalogue_of (Store.books st).
Proof.
  intros Hmember.
  serve request; try reflexivity;
    try (pose proof (books_routes_gate _ _ (Hmember claims eq_refl))
           as [Hpost [Hput Hdelete]];
         rewrite ?Hpost, ?Hput, ?Hdelete; reflexivity).
  - f_equal. apply post_login_frame.
  - apply post_reservations_catalogue.
  - f_equal. apply put_reservations_frame.
  - f_equal. apply post_create_payment_intent_frame.
  - f_equal. apply post_payment_confirm_frame.
Qed.

Lemma members_keep_catalogue_witness :
  (forall claims,
      isAuthenticated member_session 2000500 = inr claims ->
      not_admin (fst (getUser (Session.sub claims) library)) = true)
  /\ map catalogue_of
         (Store.books
            (snd (registerRoutes true utc isAuthenticated (fun _ _ => false)
                    (fun _ => NaN) member_session
                    (mkClock 2000500 5000 5004 5003)
                    (PUT_books_id 1 overstock) library)))
     = map catalogue_of (Store.books library).
Proof.
  assert (H : forall claims,
             isAuthenticated member_session 2000500 = inr claims ->
             not_admin (fst (getUser (Session.sub claims) library)) = true).
  { intros claims Hc. vm_compute in Hc. injection Hc as <-. reflexivity. }
  split; [exact H|].
  exact (@members_keep_catalogue true utc isAuthenticated (fun _ _ => false)
           (fun _ => NaN) member_session (mkClock 2000500 5000 5004 5003)
           (PUT_books_id 1 overstock) library H).
Defined.

(** X5. No request removes a reservation.  The reservation table keeps
    its length, except that a reservation request answered 201 makes it
    one longer. *)
Theorem requests_keep_reservations
    (stripe : bool) (zone : TimeZone) (authMiddleware : Middleware)
    (ilike : string -> string -> bool) (parseInt : string -> Num)
    (session : Session.t) (clock : Clock) (request : Request)
    (st : Store.t) :
  let served := registerRoutes stripe zone authMiddleware ilike parseInt
                               session clock request st in
  List.length (Store.reservations (snd served))
  = List.length (Store.reservations st)
  \/ ((exists bookId, request = POST_reservations bookId)
      /\ status_of (fst served) = 201
      /\ List.length (Store.reservations (snd served))
         = S (List.length (Store.reservations st))).
Proof.
  cbv zeta.
  serve request; try (left; reflexivity).
  - left. f_equal. apply post_login_frame.
  - left. f_equal. apply post_books_frame.
  - left. f_equal. apply put_books_frame.
  - left. f_equal. apply delete_books_frame.
  - destruct (post_reservations_length zone bookId (handlerNow clock)
                (databaseNow clock) (storageNow clock) (Session.sub claims)
                st) as [Hsame | [Hcode Hmore]]; [now left|right].
    split; [eexists; reflexivity|]. split; [exact Hcode|exact Hmore].
  - left. apply put_reservations_length.
  - left. f_equal. apply post_create_payment_intent_frame.
  - left. f_equal. apply post_payment_confirm_frame.
Qed.

(** ** Stock *)

Lemma key_unique (A : Type) (key : A -> Z) (l : list A) (x y : A) :
  NoDup (map key l) -> In x l -> In y l -> key x = key y -> x = y.
Proof.
  induction l as [|z l IH]; simpl; [tauto|].
  intros Hnodup Hx Hy Hkey. inversion Hnodup as [|k ks Hnotin Hrest]; subst.
  destruct Hx as [-> | Hx], Hy as [-> | Hy]; auto.
  - elim Hnotin. rewrite Hkey. now apply in_map.
  - elim Hnotin. rewrite <- Hkey. now apply in_map.
Qed.

Lemma update_where_cases (A : Type) (cond : A -> bool) (f : A -> A)
    (P : A -> Prop) (l : list A) (y : A) :
  (forall x, In x l -> cond x = true -> P (f x)) ->
  (forall x, In x l -> cond x = false -> P x) ->
  In y (update_where cond f l) -> P y.
Proof.
  intros Hhit Hmiss Hin. unfold update_where in Hin.
  apply in_map_iff in Hin. destruct Hin as [x [Hy Hx]].
  destruct (cond x) eqn:Hc; subst y; auto.
Qed.

Lemma post_reservations_in_stock
    (zone : TimeZone) (bookId : Z) (now dbNow updatedAt : Timestamp)
    (userId : string) (st : Store.t) :
  NoDup (map Book.id (Store.books st)) ->
  Forall in_stock (Store.books st) ->
  Forall in_stock
    (Store.books (snd (post_reservations zone bookId now dbNow updatedAt
                                         userId st))).
Proof.
  intros Hkey Hstock.
  destruct (post_reservations_cases zone bookId now dbNow updatedAt userId st)
    as [-> | [-> | [b [r [Hget [Hpos ->]]]]]]; try exact Hstock.
  apply getBook_In in Hget. destruct Hget as [Hb Hid].
  cbn [snd updateBookAvailability Store.books Store.with_books
       Store.insert_reservation].
  apply Forall_forall. intros y Hy. pattern y.
  eapply update_where_cases; [| |exact Hy]; cbv beta.
  - intros x Hin Hx. apply Z.eqb_eq in Hx.
    assert (x = b) by (apply (key_unique Book.id (Store.books st));
                       auto; congruence).
    subst x. rewrite Forall_forall in Hstock.
    specialize (Hstock b Hb). unfold in_stock in *. simpl. lia.
  - intros x Hin _. rewrite Forall_forall in Hstock. now apply Hstock.
Qed.

(** X6. Requests of callers who are not administrators keep every book in
    stock bounds: when the book identifiers are distinct and every book
    has [0 <= availableCopies <= totalCopies], the same holds after the
    request. *)
Theorem members_keep_stock_bounds
    (stripe : bool) (zone : TimeZone) (authMiddleware : Middleware)
    (ilike : string -> string -> bool) (parseInt : string -> Num)
    (session : Session.t) (clock : Clock) (request : Request)
    (st : Store.t) :
  (forall claims,
      authMiddleware session (sessionNow clock) = inr claims ->
      not_admin (fst (getUser (Session.sub claims) st)) = true) ->
  NoDup (map Book.id (Store.books st)) ->
  Forall in_stock (Store.books st) ->
  Forall in_stock
    (Store.books (snd (registerRoutes stripe zone authMiddleware ilike
                                      parseInt session clock request st))).
Proof.
  intros Hmember Hkey Hstock.
  serve request; try exact Hstock;
    try (pose proof (books_routes_gate _ _ (Hmember claims eq_refl))
           as [Hpost [Hput Hdelete]];
         rewrite ?Hpost, ?Hput, ?Hdelete; exact Hstock).
  - now rewrite (proj1 (post_login_frame _ _ _ st)).
  - now apply post_reservations_in_stock.
  - now rewrite (proj1 (proj2 (put_reservations_frame _ _ _ st))).
  - now rewrite (proj1 (proj2 (post_create_payment_intent_frame _ _ _ _ _ _
                                 st))).
  - now rewrite (proj1 (post_payment_confirm_frame _ _ _ _ _ st)).
Qed.

Lemma members_keep_stock_bounds_witness :
  (forall claims,
      isAuthenticated member_session 2000500 = inr claims ->
      not_admin (fst (getUser (Session.sub claims) library)) = true)
  /\ NoDup (map Book.id (Store.books library))
  /\ Forall in_stock (Store.books library)
  /\ Forall in_stock
       (Store.books
          (snd (registerRoutes true utc isAuthenticated (fun _ _ => false)
                  (fun _ => NaN) member_session
                  (mkClock 2000500 5000 5004 5003)
                  (POST_reservations 1) library))).
Proof.
  assert (H : forall claims,
             isAuthenticated member_session 2000500 = inr claims ->
             not_admin (fst (getUser (Session.sub claims) library)) = true).
  { intros claims Hc. vm_compute in Hc. injection Hc as <-. reflexivity. }
  assert (Hkey : NoDup (map Book.id (Store.books library))).
  { simpl. constructor; [simpl; tauto|constructor]. }
  assert (Hstock : Forall in_stock (Store.books library)).
  { repeat constructor; simpl; lia. }
  split; [exact H|]. split; [exact Hkey|]. split; [exact Hstock|].
  exact (@members_keep_stock_bounds true utc isAuthenticated
           (fun _ _ => false) (fun _ => NaN) member_session
           (mkClock 2000500 5000 5004 5003) (POST_reservations 1) library
           H Hkey Hstock).
Defined.







Example reservation_of_unknown_caller :
  fst (reserve_each utc 1
         [("u1", mkClock 0 5000 5004 5003);
          ("nobody", mkClock 0 6000 6004 6003);
          ("u2", mkClock 0 7000 7004 7003)] library)
  = [201; 500; 201].
Proof. reflexivity. Qed.

(** ** Books: create, look up, delete, update *)

Lemma with_books_same (st : Store.t) : Store.with_books (Store.books st) st = st.
Proof. now destruct st. Qed.

Lemma with_reservations_same (st : Store.t) :
  Store.with_reservations (Store.reservations st) st = st.
Proof. now destruct st. Qed.

Lemma filter_after_delete (A : Type) (keep wanted : A -> bool) (l : list A) :
  (forall x, wanted x = true -> keep x = true) ->
  filter wanted (filter keep l) = filter wanted l.
Proof.
  intros Himp. induction l as [|x l IH]; simpl; [reflexivity|].
  destruct (keep x) eqn:Hk; simpl.
  - now rewrite IH.
  - destruct (wanted x) eqn:Hw; [|exact IH].
    rewrite (Himp x Hw) in Hk. discriminate.
Qed.

Lemma insertBookSchema_parse_isbn (body : Book.Body.t)
    (bookData : Book.Insert.t) :
  insertBookSchema_parse body = Some bookData ->
  Book.Insert.isbn bookData = Book.Body.isbn body.
Proof.
  unfold insertBookSchema_parse.
  destruct (Book.Body.title body), (Book.Body.author body),
    (Book.Body.genre body); try discriminate.
  destruct (_ && _); [|discriminate].
  intros H. injection H as <-. reflexivity.
Qed.

Lemma isbn_is_new_free (st : Store.t) (body : Book.Body.t) :
  isbn_is_new st body ->
  isbn_is_held (Book.Body.isbn body) (fun _ => true) st = false.
Proof.
  unfold isbn_is_new, isbn_is_held. intros Hnew.
  destruct (Book.Body.isbn body) as [isbn|]; [|reflexivity].
  destruct (Hnew isbn eq_refl) as [_ Hfree].
  apply existsb_none. intros b Hb. specialize (Hfree b Hb). cbn [andb].
  destruct (Book.isbn b) as [held|]; [|reflexivity].
  apply String.eqb_neq. congruence.
Qed.

(** X8. A book created by an administrator can be looked up at once: when
    every stored identifier is below the sequence of the table and the
    ISBN, if given, is new, the create request is answered 201 with a book
    whose identifier is the sequence value, the lookup of that identifier
    answers 200 with the same book, every other lookup answers as before,
    and the identifiers stay below the advanced sequence. *)
Theorem created_book_is_found
    (st : Store.t) (body : Book.Body.t) (dbNow : Timestamp)
    (userId : string) (bookData : Book.Insert.t) :
  not_admin (fst (getUser userId st)) = false ->
  insertBookSchema_parse body = Some bookData ->
  isbn_is_new st body ->
  (forall b, In b (Store.books st) -> Book.id b < Store.books_id_seq st) ->
  exists (b : Book.t) (st' : Store.t),
    post_books body dbNow userId st = (mkResponse 201 (OneBook (Some b)), st')
    /\ Book.id b = Store.books_id_seq st
    /\ get_book (Book.id b) st' = (mkResponse 200 (OneBook (Some b)), st')
    /\ (forall id, id <> Book.id b ->
                   fst (get_book id st') = fst (get_book id st))
    /\ (forall x, In x (Store.books st') ->
                  Book.id x < Store.books_id_seq st').
Proof.
  intros Hadmin Hparse Hisbn Hbelow.
  pose proof (insertBookSchema_parse_isbn _ Hparse) as Hsame.
  pose proof (isbn_is_new_free Hisbn) as Hfree.
  unfold post_books, bind, ret. unfold getUser, query in *.
  cbn [fst snd] in *. rewrite Hadmin, Hparse.
  unfold attempt, createBook. rewrite Hsame, Hfree. cbn [fst snd].
  eexists. eexists. split; [reflexivity|]. cbn [Book.id].
  split; [reflexivity|].
  assert (Hfresh : filter (fun b => Book.id b =? Store.books_id_seq st)
                          (Store.books st) = []).
  { apply filter_none. intros x Hx. apply Z.eqb_neq.
    specialize (Hbelow x Hx). lia. }
  split.
  { unfold get_book, bind, ret, getBook, query. cbn [fst snd].
    unfold Store.insert_book. cbn [Store.books].
    rewrite filter_app, Hfresh. simpl. rewrite Z.eqb_refl. reflexivity. }
  split.
  { intros id Hid.
    unfold get_book, bind, ret, getBook, query. cbn [fst snd].
    unfold Store.insert_book. cbn [Store.books].
    rewrite filter_app. simpl.
    assert (Hneq : (Store.books_id_seq st =? id) = false)
      by (apply Z.eqb_neq; congruence).
    rewrite Hneq, app_nil_r.
    destruct (first (filter (fun b => Book.id b =? id) (Store.books st)));
      reflexivity. }
  intros x Hx. unfold Store.insert_book in *.
  cbn [Store.books Store.books_id_seq] in *.
  apply in_app_or in Hx. destruct Hx as [Hx | [<- | []]].
  - specialize (Hbelow x Hx). lia.
  - simpl. lia.
Qed.

Lemma created_book_is_found_witness :
  not_admin (fst (getUser "u2" library)) = false
  /\ insertBookSchema_parse overbooked
     = Some (Book.Insert.mk "Emma" "Jane Austen" None "Fiction" None None
                            None (Some 1) (Some 5))
  /\ isbn_is_new library overbooked
  /\ (forall b, In b (Store.books library) ->
                Book.id b < Store.books_id_seq library)
  /\ exists (b : Book.t) (st' : Store.t),
       post_books overbooked 5000 "u2" library
       = (mkResponse 201 (OneBook (Some b)), st')
       /\ Book.id b = Store.books_id_seq library
       /\ get_book (Book.id b) st' = (mkResponse 200 (OneBook (Some b)), st')
       /\ (forall id, id <> Book.id b ->
                      fst (get_book id st') = fst (get_book id library))
       /\ (forall x, In x (Store.books st') ->
                     Book.id x < Store.books_id_seq st').
Proof.
  assert (H : forall b, In b (Store.books library) ->
                        Book.id b < Store.books_id_seq library).
  { intros b [<- | []]. simpl. lia. }
  assert (Hisbn : isbn_is_new library overbooked)
    by (intros isbn Hsome; discriminate Hsome).
  split; [reflexivity|]. split; [reflexivity|]. split; [exact Hisbn|].
  split; [exact H|].
  exact (@created_book_is_found library overbooked 5000 "u2" _
           eq_refl eq_refl Hisbn H).
Defined.

(** X9. After an administrator deletes a book that no reservation refers
    to, the lookup of its identifier answers 404 and every other lookup
    answers as before.  The request is answered 204 whether or not the
    book existed, and deleting a book that does not exist leaves the
    store as it was. *)
Theorem deleted_book_is_gone (st : Store.t) (id : Z) (userId : string) :
  not_admin (fst (getUser userId st)) = false ->
  (forall r, In r (Store.reservations st) -> Reservation.bookId r <> id) ->
  exists st',
    delete_books id userId st = (mkResponse 204 Empty, st')
    /\ get_book id st' = (mkResponse 404 (Message "Book not found"), st')
    /\ (forall id', id' <> id ->
                    fst (get_book id' st') = fst (get_book id' st))
    /\ ((forall b, In b (Store.books st) -> Book.id b <> id) -> st' = st).
Proof.
  intros Hadmin Hfree.
  assert (Hnone : book_is_referenced id st = false).
  { unfold book_is_referenced. apply existsb_none.
    intros r Hr. apply Z.eqb_neq. now apply Hfree. }
  unfold delete_books, deleteBook, bind, ret, attempt.
  unfold getUser, query in *. cbn [fst snd] in *.
  rewrite Hadmin, Hnone, andb_false_r.
  eexists. split; [reflexivity|].
  split.
  { unfold get_book, bind, ret, getBook, query. cbn [fst snd Store.books].
    simpl. rewrite filter_none; [reflexivity|].
    intros x Hx. apply filter_In in Hx. destruct Hx as [_ Hx].
    now apply negb_true_iff in Hx. }
  split.
  { intros id' Hid.
    unfold get_book, bind, ret, getBook, query. cbn [fst snd]. simpl.
    rewrite filter_after_delete;
      [destruct (first (filter (fun b => Book.id b =? id') (Store.books st)));
       reflexivity|].
    intros x Hx. apply Z.eqb_eq in Hx. apply negb_true_iff.
    apply Z.eqb_neq. congruence. }
  intros Habsent. rewrite filter_all; [apply with_books_same|].
  intros x Hx. apply negb_true_iff. apply Z.eqb_neq. now apply Habsent.
Qed.

Lemma deleted_book_is_gone_witness :
  not_admin (fst (getUser "u2" library)) = false
  /\ (forall r, In r (Store.reservations library) ->
                Reservation.bookId r <> 1)
  /\ exists st',
       delete_books 1 "u2" library = (mkResponse 204 Empty, st')
       /\ get_book 1 st' = (mkResponse 404 (Message "Book not found"), st')
       /\ (forall id', id' <> 1 ->
                       fst (get_book id' st') = fst (get_book id' library))
       /\ ((forall b, In b (Store.books library) -> Book.id b <> 1) ->
           st' = library).
Proof.
  assert (H : forall r, In r (Store.reservations library) ->
                        Reservation.bookId r <> 1)
    by (intros r []).
  split; [reflexivity|]. split; [exact H|].
  exact (@deleted_book_is_gone library 1 "u2" eq_refl H).
Defined.

Lemma varchar_fits (n : nat) (s : string) :
  (String.length s <= n)%nat -> varchar n s = Some s.
Proof.
  intros Hfits. unfold varchar.
  now rewrite (proj2 (Nat.leb_le _ _) Hfits).
Qed.

(** The values of a book update that fit are sent and taken. *)
Lemma book_values_fit_typed (body : Book.Update.t) (now : Timestamp) :
  book_values_fit body ->
  exists values values',
    Book.values body now = Some values
    /\ Book.typed values = Some values'.
Proof.
  intros [Hcreated [Hid [Hyear [Htotal [Havailable Hisbn]]]]].
  unfold Book.values. rewrite (sent_spec Hcreated).
  eexists. eexists. split; [reflexivity|].
  unfold Book.typed.
  cbn [Book.Partial.id Book.Partial.isbn Book.Partial.publicationYear
       Book.Partial.totalCopies Book.Partial.availableCopies].
  assert (Hcut :
    match Book.Update.isbn body with
    | Some (Some isbn) =>
        option_map (fun s => Some (Some s)) (varchar 13 isbn)
    | other => Some other
    end = Some (Book.Update.isbn body)).
  { destruct (Book.Update.isbn body) as [[isbn|]|]; try reflexivity.
    now rewrite (@varchar_fits 13 isbn (Hisbn isbn eq_refl)). }
  rewrite Hcut.
  rewrite (int4_or_null_spec Hid), (int4_or_null_spec Htotal),
    (int4_or_null_spec Havailable).
  assert (Hy : match Book.Update.publicationYear body with
               | Some year => int4_or_null year
               | None => true
               end = true).
  { destruct (Book.Update.publicationYear body) as [[year|]|];
      try reflexivity.
    apply int4_spec. now apply Hyear. }
  rewrite Hy. reflexivity.
Qed.

Lemma updateBook_missing (id : Z) (body : Book.Update.t) (now : Timestamp)
    (st : Store.t) :
  (forall b, In b (Store.books st) -> Book.id b <> id) ->
  (updateBook id body now st = (Thrown, st)
   \/ updateBook id body now st = (Resolved None, st))
  /\ (book_values_fit body ->
      updateBook id body now st = (Resolved None, st)).
Proof.
  intros Habsent.
  assert (Hnone : forall x, In x (Store.books st) ->
                            (Book.id x =? id) = false)
    by (intros x Hx; apply Z.eqb_neq; now apply Habsent).
  assert (Hhas : has_book id st = false)
    by (unfold has_book; now apply existsb_none).
  assert (Hresolved : forall values,
    (Resolved (first (returning (fun b => Book.id b =? id)
                                (Book.set values) (Store.books st))),
     Store.with_books
       (update_where (fun b => Book.id b =? id) (Book.set values)
                     (Store.books st)) st)
    = (Resolved None, st)).
  { intros values. unfold returning.
    rewrite (filter_none _ _ Hnone), (update_where_none _ _ _ Hnone).
    now rewrite with_books_same. }
  split.
  - destruct (updateBook_cases id body now st) as [-> | [values ->]];
      [now left|right; apply Hresolved].
  - intros Hfit.
    destruct (@book_values_fit_typed body now Hfit)
      as [values [values' [Hvalues Htyped]]].
    unfold updateBook. rewrite Hvalues, Htyped, Hhas. apply Hresolved.
Qed.

(** The values of a reservation update that fit are sent and taken. *)
Lemma values_fit_sent (body : Reservation.Update.t) :
  body <> names_no_column ->
  values_fit body ->
  exists values,
    Reservation.values body = Some values
    /\ int4_or_null (Reservation.Partial.id values)
       && int4_or_null (Reservation.Partial.bookId values) = true.
Proof.
  intros Hnames [Hreserved [Hdue [Hcompleted [Hid Hbook]]]].
  assert (Hno : Reservation.no_values body = false).
  { apply not_true_is_false. intros H. apply Hnames.
    now apply no_values_spec. }
  unfold Reservation.values.
  rewrite Hno, (sent_spec Hreserved), (sent_spec Hdue),
    (sent_spec Hcompleted).
  eexists. split; [reflexivity|].
  cbn [Reservation.Partial.id Reservation.Partial.bookId].
  now rewrite (int4_or_null_spec Hid), (int4_or_null_spec Hbook).
Qed.

Lemma updateReservation_missing (id : Z) (body : Reservation.Update.t)
    (st : Store.t) :
  (forall r, In r (Store.reservations st) -> Reservation.id r <> id) ->
  (updateReservation id body st = (Thrown, st)
   \/ updateReservation id body st = (Resolved None, st))
  /\ (body <> names_no_column -> values_fit body ->
      updateReservation id body st = (Resolved None, st)).
Proof.
  intros Habsent.
  assert (Hnone : forall x, In x (Store.reservations st) ->
                            (Reservation.id x =? id) = false)
    by (intros x Hx; apply Z.eqb_neq; now apply Habsent).
  assert (Hhas : has_reservation id st = false)
    by (unfold has_reservation; now apply existsb_none).
  assert (Hresolved : forall values,
    (Resolved (first (returning (fun r => Reservation.id r =? id)
                                (Reservation.set values)
                                (Store.reservations st))),
     Store.with_reservations
       (update_where (fun r => Reservation.id r =? id)
                     (Reservation.set values) (Store.reservations st)) st)
    = (Resolved None, st)).
  { intros values. unfold returning.
    rewrite (filter_none _ _ Hnone), (update_where_none _ _ _ Hnone).
    now rewrite with_reservations_same. }
  split.
  - destruct (updateReservation_cases id body st) as [-> | [values [_ ->]]];
      [now left|right; apply Hresolved].
  - intros Hnames Hfit.
    destruct (@values_fit_sent body Hnames Hfit)
      as [values [Hvalues Hints]].
    unfold updateReservation. rewrite Hvalues, Hints, Hhas.
    apply Hresolved.
Qed.

(** X10. An update that names no stored row is never reported as such.
    For an identifier that no book has, an administrator's book update
    leaves the store as it was and is answered 200 with no book, or 500
    when the statement cannot be built or a value does not fit its
    column; when the identifier is an [integer] and the values fit, the
    answer is 200.  Likewise a reservation update for an identifier that
    no reservation has: the answer is 200 with no reservation when the
    identifier is an [integer], the body names a column and its values
    fit. *)
Theorem update_of_missing_row (st : Store.t) (id : Z) (userId : string) :
  (not_admin (fst (getUser userId st)) = false ->
   (forall b, In b (Store.books st) -> Book.id b <> id) ->
   forall body now,
     (put_books id body now userId st = (mkResponse 200 (OneBook None), st)
      \/ put_books id body now userId st
         = (mkResponse 500 (Message "Failed to update book"), st))
     /\ (in_integer id -> book_values_fit body ->
         put_books id body now userId st
         = (mkResponse 200 (OneBook None), st)))
  /\ ((forall r, In r (Store.reservations st) -> Reservation.id r <> id) ->
      forall body,
        (put_reservations id body userId st
         = (mkResponse 200 (OneReservation None), st)
         \/ put_reservations id body userId st
            = (mkResponse 500 (Message "Failed to update reservation"), st))
        /\ (in_integer id -> body <> names_no_column -> values_fit body ->
            put_reservations id body userId st
            = (mkResponse 200 (OneReservation None), st))).
Proof.
  split.
  - intros Hadmin Habsent body now.
    destruct (@updateBook_missing id body now st Habsent)
      as [Hcases Hfits].
    unfold put_books, bind, attempt.
    unfold getUser, query in *. cbn [fst snd] in *. rewrite Hadmin.
    split.
    + destruct Hcases as [-> | ->]; [now right|now left].
    + intros _ Hfit. now rewrite (Hfits Hfit).
  - intros Habsent body.
    destruct (@updateReservation_missing id body st Habsent)
      as [Hcases Hfits].
    unfold put_reservations, attempt.
    split.
    + destruct Hcases as [-> | ->]; [now right|now left].
    + intros _ Hnames Hfit. now rewrite (Hfits Hnames Hfit).
Qed.

Lemma update_of_missing_row_witness :
  not_admin (fst (getUser "u2" on_loan)) = false
  /\ (forall b, In b (Store.books on_loan) -> Book.id b <> 8)
  /\ (forall r, In r (Store.reservations on_loan) -> Reservation.id r <> 8)
  /\ in_integer 8
  /\ book_values_fit overstock
  /\ mark_completed None <> names_no_column
  /\ values_fit (mark_completed None)
  /\ put_books 8 overstock 5000 "u2" on_loan
     = (mkResponse 200 (OneBook None), on_loan)
  /\ put_reservations 8 (mark_completed None) "u2" on_loan
     = (mkResponse 200 (OneReservation None), on_loan).
Proof.
  assert (Hb : forall b, In b (Store.books on_loan) -> Book.id b <> 8).
  { intros b [<- | []]. discriminate. }
  assert (Hr : forall r, In r (Store.reservations on_loan) ->
                         Reservation.id r <> 8).
  { intros r [<- | []]. discriminate. }
  assert (Hfit : book_values_fit overstock).
  { unfold book_values_fit, in_integer, overstock. cbn.
    repeat split; try discriminate;
      match goal with
      | H : Some _ = Some _ |- _ => injection H as <-; lia
      end. }
  assert (Hbody : mark_completed None <> names_no_column) by discriminate.
  assert (Hvalues : values_fit (mark_completed None)).
  { unfold values_fit, mark_completed. cbn. repeat split; discriminate. }
  assert (Hid : in_integer 8) by (unfold in_integer; lia).
  split; [reflexivity|]. split; [exact Hb|]. split; [exact Hr|].
  split; [exact Hid|].
  split; [exact Hfit|]. split; [exact Hbody|]. split; [exact Hvalues|].
  split.
  - exact (proj2 (proj1 (@update_of_missing_row on_loan 8 "u2") eq_refl Hb
                    overstock 5000) Hid Hfit).
  - exact (proj2 (proj2 (@update_of_missing_row on_loan 8 "u2") Hr
                    (mark_completed None)) Hid Hbody Hvalues).
Defined.

Example update_of_missing_row_refused :
  put_books 8
    (Book.Update.mk None None None None None None None None
                    (Some 3000000000) None None None)
    5000 "u2" on_loan
  = (mkResponse 500 (Message "Failed to update book"), on_loan)
  /\ put_reservations 8 names_no_column "u2" on_loan
     = (mkResponse 500 (Message "Failed to update reservation"), on_loan).
Proof. split; reflexivity. Qed.

(** ** Demo login *)

Lemma filter_update_where_kept (A : Type) (cond : A -> bool) (f : A -> A)
    (l : list A) :
  (forall x, cond x = true -> cond (f x) = true) ->
  filter cond (update_where cond f l) = map f (filter cond l).
Proof.
  intros Hkept. unfold update_where.
  induction l as [|x l IH]; simpl; [reflexivity|].
  destruct (cond x) eqn:Hx.
  - rewrite (Hkept x Hx). simpl. now rewrite IH.
  - rewrite Hx. exact IH.
Qed.

Lemma filter_others_update_where (A : Type) (cond : A -> bool) (f : A -> A)
    (l : list A) :
  (forall x, cond x = true -> cond (f x) = true) ->
  filter (fun x => negb (cond x)) (update_where cond f l)
  = filter (fun x => negb (cond x)) l.
Proof.
  intros Hkept. unfold update_where.
  induction l as [|x l IH]; simpl; [reflexivity|].
  destruct (cond x) eqn:Hx.
  - rewrite (Hkept x Hx). simpl. exact IH.
  - rewrite Hx. simpl. now rewrite IH.
Qed.

(** X11. The demo login neither promotes nor resets its user, provided no
    other user holds the demo address.  When the demo user has a row, the
    login keeps the row's role, balance, Stripe
    references and creation time, and the table keeps its length; when it
    has none, a row is appended with role "user" and balance zero.
    Either way the rows of the other users, and every other table, are as
    before, and the demo user has a row afterwards. *)
Theorem login_keeps_standing
    (now storageNow dbNow : Timestamp) (st : Store.t) :
  (forall u, In u (Store.users st) ->
             User.email u = Some "demo@libraryflow.com" ->
             User.id u = "demo-user-123") ->
  let st' := snd (post_login now storageNow dbNow st) in
  (exists u,
      fst (getUser "demo-user-123" st') = Some u
      /\ match fst (getUser "demo-user-123" st) with
         | Some u0 =>
             User.role u = User.role u0
             /\ User.outstandingFines u = User.outstandingFines u0
             /\ User.stripeCustomerId u = User.stripeCustomerId u0
             /\ User.stripeSubscriptionId u = User.stripeSubscriptionId u0
             /\ User.createdAt u = User.createdAt u0
             /\ List.length (Store.users st') = List.length (Store.users st)
         | None =>
             User.role u = "user"
             /\ User.outstandingFines u = Some 0
             /\ Store.users st' = Store.users st ++ [u]
         end)
  /\ filter (fun u => negb (User.id u =? "demo-user-123")%string)
            (Store.users st')
     = filter (fun u => negb (User.id u =? "demo-user-123")%string)
              (Store.users st)
  /\ Store.books st' = Store.books st
  /\ Store.reservations st' = Store.reservations st
  /\ Store.fines st' = Store.fines st
  /\ Store.payments st' = Store.payments st.
Proof.
  intros _. cbv zeta.
  unfold post_login, upsertUser, bind, ret, returning, getUser, query.
  cbn [fst snd UpsertUser.id demoUser].
  rewrite first_map.
  set (conflict := fun u : User.t => (User.id u =? "demo-user-123")%string).
  set (f := User.set (upsert_set demoUser storageNow)).
  assert (Hkept : forall x, conflict x = true -> conflict (f x) = true)
    by reflexivity.
  destruct (first (filter conflict (Store.users st))) as [u0|] eqn:Hfirst;
    cbn [option_map fst snd Store.users Store.with_users Store.books
         Store.reservations Store.fines Store.payments].
  - split.
    + exists (f u0). rewrite (filter_update_where_kept _ _ _ Hkept).
      rewrite first_map, Hfirst. split; [reflexivity|].
      unfold update_where. rewrite length_map. repeat split.
    + split; [apply (filter_others_update_where _ _ _ Hkept)|].
      repeat split.
  - split.
    + eexists. rewrite filter_app. 
      assert (Hnone : filter conflict (Store.users st) = []).
      { destruct (filter conflict (Store.users st)); [reflexivity|].
        discriminate. }
      rewrite Hnone. split; [reflexivity|]. repeat split.
    + split; [|repeat split].
      rewrite filter_app. simpl. now rewrite app_nil_r.
Qed.

Lemma login_keeps_standing_witness :
  (forall u, In u (Store.users library) ->
             User.email u = Some "demo@libraryflow.com" ->
             User.id u = "demo-user-123")
  /\ Store.books (snd (post_login 9000000 9000001 9000002 library))
     = Store.books library.
Proof.
  assert (H : forall u, In u (Store.users library) ->
                        User.email u = Some "demo@libraryflow.com" ->
                        User.id u = "demo-user-123").
  { intros u [<- | [<- | []]] Hmail; discriminate Hmail. }
  split; [exact H|].
  exact (proj1 (proj2 (proj2 (@login_keeps_standing 9000000 9000001 9000002
                                library H)))).
Defined.

Example demo_login_twice :
  let first_login := post_login 9000000 9000001 9000002 library in
  let second_login := post_login 9500000 9500001 9500002 (snd first_login) in
  Store.users (snd first_login)
  = [member; librarian;
     User.mk "demo-user-123" (Some "demo@libraryflow.com") (Some "Demo")
       (Some "User")
       (Some "https://images.unsplash.com/photo-1472099645785-5658abf4ff4e?w=150&h=150&fit=crop&crop=face")
       "user" None None (Some 0) (Some 9000002) (Some 9000002)]
  /\ map account_of (Store.users (snd second_login))
     = map account_of (Store.users (snd first_login))
  /\ snd (fst second_login)
     = Session.mk (Some (Session.mkUser (Some (Session.mkClaims
                     "demo-user-123" (9500 + 604800))))).
Proof. repeat split. Qed.

(** X12. The session that the demo login issues at [now] names the demo
    user and lasts a week: it passes the session check at every instant
    from [now] to [now] plus seven days, is refused as expired from one
    second after that, and is refused as unauthorized once logged out. *)
Theorem login_session_lasts_a_week
    (now storageNow dbNow t : Timestamp) (st : Store.t) :
  let session := snd (fst (post_login now storageNow dbNow st)) in
  (now <= t <= now + week * 1000 ->
   isAuthenticated session t
   = inr (Session.mkClaims "demo-user-123" (now / 1000 + week)))
  /\ (now + (week + 1) * 1000 <= t ->
      isAuthenticated session t
      = inl (mkResponse 401 (Message "Session expired")))
  /\ isAuthenticated (snd get_logout) t
     = inl (mkResponse 401 (Message "Unauthorized")).
Proof.
  cbv zeta.
  assert (Hsession :
    snd (fst (post_login now storageNow dbNow st))
    = Session.mk (Some (Session.mkUser (Some (Session.mkClaims
                    "demo-user-123" (now / 1000 + week)))))).
  { unfold post_login, upsertUser, bind, ret, returning.
    rewrite first_map.
    destruct (first (filter _ (Store.users st))); reflexivity. }
  rewrite Hsession. unfold isAuthenticated. cbn [Session.user Session.claims
    Session.exp get_logout snd].
  pose proof (Z.div_mod t 1000 ltac:(lia)) as Ht.
  pose proof (Z.mod_pos_bound t 1000 ltac:(lia)) as Htr.
  pose proof (Z.div_mod now 1000 ltac:(lia)) as Hn.
  pose proof (Z.mod_pos_bound now 1000 ltac:(lia)) as Hnr.
  split; [|split; [|reflexivity]]; intros Hwindow.
  - assert (Hlt : (now / 1000 + week <? t / 1000) = false)
      by (apply Z.ltb_ge; unfold week in *; lia).
    now rewrite Hlt.
  - assert (Hlt : (now / 1000 + week <? t / 1000) = true)
      by (apply Z.ltb_lt; unfold week in *; lia).
    now rewrite Hlt.
Qed.

Lemma login_session_lasts_a_week_witness :
  9000000 <= 613800000 <= 9000000 + week * 1000
  /\ isAuthenticated
       (snd (fst (post_login 9000000 9000001 9000002 library))) 613800000
     = inr (Session.mkClaims "demo-user-123" (9000000 / 1000 + week)).
Proof.
  assert (H : 9000000 <= 613800000 <= 9000000 + week * 1000)
    by (unfold week; lia).
  split; [exact H|].
  exact (proj1 (@login_session_lasts_a_week 9000000 9000001 9000002
                  613800000 library) H).
Defined.

(** ** Payments, continued *)

Lemma insert_desc_map (A : Type) (key : A -> option Timestamp) (g : A -> A)
    (x : A) (l : list A) :
  (forall y, key (g y) = key y) ->
  insert_desc key (g x) (map g l) = map g (insert_desc key x l).
Proof.
  intros Hkey. induction l as [|y l IH]; simpl; [reflexivity|].
  rewrite !Hkey. destruct (desc_before (key x) (key y)); simpl;
    [reflexivity|now rewrite IH].
Qed.

Lemma orderBy_desc_map (A : Type) (key : A -> option Timestamp) (g : A -> A)
    (l : list A) :
  (forall y, key (g y) = key y) ->
  orderBy_desc key (map g l) = map g (orderBy_desc key l).
Proof.
  intros Hkey. induction l as [|x l IH]; simpl; [reflexivity|].
  rewrite IH. now apply insert_desc_map.
Qed.

Lemma filter_map_same (A : Type) (cond : A -> bool) (g : A -> A)
    (l : list A) :
  (forall y, cond (g y) = cond y) ->
  filter cond (map g l) = map g (filter cond l).
Proof.
  intros Hcond. induction l as [|x l IH]; simpl; [reflexivity|].
  rewrite Hcond. destruct (cond x); simpl; now rewrite IH.
Qed.

Lemma find_map_same (A : Type) (cond : A -> bool) (g : A -> A) (l : list A) :
  (forall y, cond (g y) = cond y) ->
  find cond (map g l) = option_map g (find cond l).
Proof.
  intros Hcond. induction l as [|x l IH]; simpl; [reflexivity|].
  rewrite Hcond. destruct (cond x); [reflexivity|exact IH].
Qed.

Lemma find_only (A : Type) (cond : A -> bool) (l : list A) (x : A) :
  In x l -> cond x = true ->
  (forall y, In y l -> cond y = true -> y = x) ->
  find cond l = Some x.
Proof.
  intros Hin Hx Honly. induction l as [|z l IH]; [destruct Hin|].
  simpl. destruct (cond z) eqn:Hz.
  - f_equal. apply Honly; [now left|exact Hz].
  - destruct Hin as [-> | Hin]; [congruence|].
    apply IH; [exact Hin|]. intros y Hy. apply Honly. now right.
Qed.

Lemma desc_before_total (a b : option Timestamp) :
  desc_before a b = false -> desc_before b a = true.
Proof.
  destruct a as [x|], b as [y|]; simpl; try congruence.
  intros H. apply Z.leb_gt in H. apply Z.leb_le. lia.
Qed.

Lemma desc_before_trans (a b c : option Timestamp) :
  desc_before a b = true -> desc_before b c = true ->
  desc_before a c = true.
Proof.
  destruct a as [x|], b as [y|], c as [z|]; simpl; try congruence.
  intros H1 H2. apply Z.leb_le in H1. apply Z.leb_le in H2.
  apply Z.leb_le. lia.
Qed.

Lemma desc_before_refl (a : option Timestamp) : desc_before a a = true.
Proof. destruct a; simpl; [apply Z.leb_refl|reflexivity]. Qed.

Lemma insert_desc_sorted (A : Type) (key : A -> option Timestamp)
    (x : A) (l : list A) :
  StronglySorted (fun a b => desc_before (key a) (key b) = true) l ->
  StronglySorted (fun a b => desc_before (key a) (key b) = true)
                 (insert_desc key x l).
Proof.
  intros Hsorted. induction Hsorted as [|y l Hl IH Hy]; simpl.
  - repeat constructor.
  - destruct (desc_before (key x) (key y)) eqn:Hxy.
    + constructor; [constructor; assumption|].
      constructor; [exact Hxy|].
      rewrite Forall_forall in *. intros z Hz.
      eapply desc_before_trans; [exact Hxy|now apply Hy].
    + constructor; [exact IH|].
      rewrite Forall_forall in *. intros z Hz.
      apply (Permutation_in _ (Permutation_sym
               (insert_desc_Permutation key x l))) in Hz.
      destruct Hz as [<- | Hz]; [now apply desc_before_total|now apply Hy].
Qed.

Lemma orderBy_desc_sorted (A : Type) (key : A -> option Timestamp)
    (l : list A) :
  StronglySorted (fun a b => desc_before (key a) (key b) = true)
                 (orderBy_desc key l).
Proof.
  induction l as [|x l IH]; simpl; [constructor|].
  now apply insert_desc_sorted.
Qed.

Lemma find_sorted_first (A : Type) (key : A -> option Timestamp)
    (cond : A -> bool) (l : list A) (p q : A) :
  StronglySorted (fun a b => desc_before (key a) (key b) = true) l ->
  find cond l = Some p -> In q l -> cond q = true ->
  desc_before (key p) (key q) = true.
Proof.
  intros Hsorted. induction Hsorted as [|x l Hl IH Hx]; [discriminate|].
  simpl. intros Hfind Hq Hcond.
  destruct (cond x) eqn:Hcx.
  - injection Hfind as <-. destruct Hq as [<- | Hq].
    + apply desc_before_refl.
    + rewrite Forall_forall in Hx. now apply Hx.
  - destruct Hq as [<- | Hq]; [congruence|]. now apply IH.
Qed.

(** X15. Among the caller's payments that name the intent, the
    confirmation takes a latest one: no such payment sorts before the one
    found under [ORDER BY createdAt DESC] (later creation first, a missing
    creation time before all). *)
Theorem confirmation_takes_latest
    (st : Store.t) (paymentIntentId : BodyField) (userId : string)
    (p q : Payment.t) :
  find (names_intent paymentIntentId) (fst (getUserPayments userId st))
  = Some p ->
  In q (Store.payments st) ->
  Payment.userId q = userId ->
  names_intent paymentIntentId q = true ->
  desc_before (Payment.createdAt p) (Payment.createdAt q) = true.
Proof.
  unfold getUserPayments, query. cbn [fst].
  intros Hfind Hq Huser Hnames.
  apply (find_sorted_first Payment.createdAt (names_intent paymentIntentId)
           (l := orderBy_desc Payment.createdAt
                   (filter (fun x => (Payment.userId x =? userId)%string)
                           (Store.payments st))));
    [apply orderBy_desc_sorted|exact Hfind| |exact Hnames].
  apply orderBy_desc_In. apply filter_In. split; [exact Hq|].
  now apply String.eqb_eq.
Qed.

Lemma confirmation_takes_latest_witness :
  find (names_intent (Text "pi_1")) (fst (getUserPayments "u1" twice_billed))
  = Some reminder
  /\ In invoice (Store.payments twice_billed)
  /\ Payment.userId invoice = "u1"
  /\ names_intent (Text "pi_1") invoice = true
  /\ desc_before (Payment.createdAt reminder) (Payment.createdAt invoice)
     = true.
Proof.
  split; [reflexivity|]. split; [now left|].
  split; [reflexivity|]. split; [reflexivity|].
  exact (@confirmation_takes_latest twice_billed (Text "pi_1") "u1" reminder
           invoice eq_refl (or_introl eq_refl) eq_refl eq_refl).
Defined.

Lemma getUserPayments_completed
    (userId : string) (id : Z) (now : Timestamp) (st st1 : Store.t) :
  Store.payments st1
  = update_where (fun q => Payment.id q =? id) (completed now)
                 (Store.payments st) ->
  fst (getUserPayments userId st1)
  = map (fun q => if Payment.id q =? id then completed now q else q)
        (fst (getUserPayments userId st)).
Proof.
  intros Hpayments. unfold getUserPayments, query. cbn [fst].
  rewrite Hpayments. unfold update_where.
  rewrite filter_map_same
    by (intros y; destruct (Payment.id y =? id); reflexivity).
  apply orderBy_desc_map.
  intros y. destruct (Payment.id y =? id); reflexivity.
Qed.

Lemma post_payment_confirm_result
    (st : Store.t) (paymentIntentId : BodyField) (now updatedAt : Timestamp)
    (userId : string) (p : Payment.t) (u : User.t) :
  find (names_intent paymentIntentId) (fst (getUserPayments userId st))
  = Some p ->
  fst (getUser userId st) = Some u ->
  exists u',
    fst (getUser userId
           (snd (post_payment_confirm true paymentIntentId now updatedAt
                                      userId st))) = Some u'
    /\ User.outstandingFines u'
       = Some (Z.max 0 (balance u - Payment.amount p))
    /\ Store.payments
         (snd (post_payment_confirm true paymentIntentId now updatedAt
                                    userId st))
       = update_where (fun q => Payment.id q =? Payment.id p)
                      (completed now) (Store.payments st).
Proof.
  intros Hfind Huser.
  destruct (@post_payment_confirm_found st paymentIntentId now updatedAt
              userId p u Hfind Huser)
    as [st1 [patch [Hrun [Hid [Hfines [Huser1 [Hpayments Hframe]]]]]]].
  destruct (@getUser_updateUser userId patch updatedAt st1 u Hid Huser1)
    as [u' [Hget [Hbalance _]]].
  exists u'. rewrite Hrun. cbn [snd].
  split; [exact Hget|].
  split; [now rewrite Hbalance, Hfines|].
  now rewrite Hframe, Hpayments.
Qed.

(** X13. A confirmation can be replayed.  After a confirmation has
    completed a payment, a second request naming the same intent finds
    the completed payment again and lowers the stored balance a second
    time, again not below zero. *)
Theorem confirmation_can_be_replayed
    (st : Store.t) (paymentIntentId : BodyField)
    (now updatedAt now' updatedAt' : Timestamp) (userId : string)
    (p : Payment.t) (u : User.t) :
  find (names_intent paymentIntentId) (fst (getUserPayments userId st))
  = Some p ->
  fst (getUser userId st) = Some u ->
  let st1 := snd (post_payment_confirm true paymentIntentId now updatedAt
                                       userId st) in
  let st2 := snd (post_payment_confirm true paymentIntentId now' updatedAt'
                                       userId st1) in
  find (names_intent paymentIntentId) (fst (getUserPayments userId st1))
  = Some (completed now p)
  /\ exists u2,
       fst (getUser userId st2) = Some u2
       /\ User.outstandingFines u2
          = Some (Z.max 0 (Z.max 0 (balance u - Payment.amount p)
                           - Payment.amount p)).
Proof.
  intros Hfind Huser st1 st2.
  destruct (@post_payment_confirm_result st paymentIntentId now updatedAt
              userId p u Hfind Huser) as [u1 [Hget1 [Hbalance1 Hpay1]]].
  fold st1 in Hget1, Hpay1.
  assert (Hfind1 :
    find (names_intent paymentIntentId) (fst (getUserPayments userId st1))
    = Some (completed now p)).
  { rewrite (@getUserPayments_completed userId (Payment.id p) now st st1
               Hpay1).
    rewrite find_map_same
      by (intros y; destruct (Payment.id y =? Payment.id p); reflexivity).
    rewrite Hfind. simpl. now rewrite Z.eqb_refl. }
  split; [exact Hfind1|].
  destruct (@post_payment_confirm_result st1 paymentIntentId now' updatedAt'
              userId (completed now p) u1 Hfind1 Hget1)
    as [u2 [Hget2 [Hbalance2 _]]].
  exists u2. split; [exact Hget2|].
  rewrite Hbalance2. unfold balance at 1. rewrite Hbalance1. reflexivity.
Qed.

Lemma confirmation_can_be_replayed_witness :
  find (names_intent (Text "pi_1"))
       (fst (getUserPayments "u1"
               (Store.with_payments
                  [Payment.mk 1 "u1" None 200 (Some "pi_1") "pending"
                              (Some 3000) None] library)))
  = Some (Payment.mk 1 "u1" None 200 (Some "pi_1") "pending" (Some 3000)
                     None)
  /\ fst (getUser "u1" library) = Some member
  /\ option_map User.outstandingFines
       (fst (getUser "u1"
          (snd (post_payment_confirm true (Text "pi_1") 7000 7001 "u1"
             (snd (post_payment_confirm true (Text "pi_1") 6000 6001 "u1"
                (Store.with_payments
                   [Payment.mk 1 "u1" None 200 (Some "pi_1") "pending"
                               (Some 3000) None] library)))))))
     = Some (Some 100).
Proof.
  split; [reflexivity|]. split; [reflexivity|].
  destruct (@confirmation_can_be_replayed
              (Store.with_payments
                 [Payment.mk 1 "u1" None 200 (Some "pi_1") "pending"
                             (Some 3000) None] library)
              (Text "pi_1") 6000 6001 7000 7001 "u1"
              (Payment.mk 1 "u1" None 200 (Some "pi_1") "pending" (Some 3000)
                          None)
              member eq_refl eq_refl) as [_ [u2 [Hget Hbalance]]].
  rewrite Hget. simpl. now rewrite Hbalance.
Defined.

Lemma getUserPayments_none
    (userId : string) (cond : Payment.t -> bool) (st : Store.t) :
  (forall p, In p (Store.payments st) -> Payment.userId p = userId ->
             cond p = false) ->
  find cond (fst (getUserPayments userId st)) = None.
Proof.
  intros Hnone. apply find_none_iff. intros x Hx.
  unfold getUserPayments, query in Hx. cbn [fst] in Hx.
  apply orderBy_desc_In in Hx. apply filter_In in Hx.
  destruct Hx as [Hin Huser]. apply String.eqb_eq in Huser. auto.
Qed.

(** X14. A confirmation acts on the caller alone.  When none of the
    caller's own payments names the intent, the store is left as it was,
    even if the intent is recorded on another user's payment, and the
    answer is still a success when the Stripe client is configured.
    Whatever the request, the rows of the other users are as before. *)
Theorem confirmation_is_the_callers
    (stripe : bool) (st : Store.t) (paymentIntentId : BodyField)
    (now updatedAt : Timestamp) (userId : string) :
  ((forall p, In p (Store.payments st) -> Payment.userId p = userId ->
              names_intent paymentIntentId p = false) ->
   snd (post_payment_confirm stripe paymentIntentId now updatedAt userId st)
   = st
   /\ (stripe = true ->
       fst (post_payment_confirm stripe paymentIntentId now updatedAt userId
                                 st) = mkResponse 200 Success))
  /\ filter (fun u => negb (User.id u =? userId)%string)
            (Store.users
               (snd (post_payment_confirm stripe paymentIntentId now
                                          updatedAt userId st)))
     = filter (fun u => negb (User.id u =? userId)%string) (Store.users st).
Proof.
  split.
  - intros Hnone.
    pose proof (@getUserPayments_none userId (names_intent paymentIntentId)
                  st Hnone) as Hfind.
    unfold post_payment_confirm. destruct stripe; cbn [negb].
    + unfold getUserPayments at 1 2. rewrite !bind_query.
      unfold getUserPayments, query in Hfind. cbn [fst] in Hfind.
      rewrite Hfind. split; reflexivity.
    + split; [reflexivity|discriminate].
  - unfold post_payment_confirm, bind, ret, getUserPayments, getUser, query,
      updatePayment, updateUser.
    destruct stripe; simpl; [|reflexivity].
    destruct (find _ _); simpl; [|reflexivity].
    destruct (first _); simpl; [|reflexivity].
    apply (filter_others_update_where
             (fun u => (User.id u =? userId)%string)).
    intros x Hx. exact Hx.
Qed.

Lemma confirmation_is_the_callers_witness :
  (forall p, In p (Store.payments owing) -> Payment.userId p = "u2" ->
             names_intent (Text "pi_1") p = false)
  /\ snd (post_payment_confirm true (Text "pi_1") 6000 6001 "u2" owing)
     = owing.
Proof.
  assert (H : forall p, In p (Store.payments owing) ->
                        Payment.userId p = "u2" ->
                        names_intent (Text "pi_1") p = false).
  { intros p [<- | []] Hu. discriminate Hu. }
  split; [exact H|].
  exact (proj1 (proj1 (@confirmation_is_the_callers true owing (Text "pi_1")
                         6000 6001 "u2") H)).
Defined.

Lemma createPayment_accepted
    (st : Store.t) (userId intent : string) (amount : Decimal) (id : Z)
    (dbNow : Timestamp) :
  fst (getUser userId st) <> None ->
  createPayment (pending_payment userId amount intent) id dbNow st
  = (Resolved (Payment.mk id userId None amount (Some intent) "pending"
                          (Some dbNow) None),
     Store.with_payments
       (Store.payments st
        ++ [Payment.mk id userId None amount (Some intent) "pending"
                       (Some dbNow) None]) st).
Proof.
  intros Hrow. unfold createPayment, pending_payment.
  cbn [InsertPayment.userId InsertPayment.fineId].
  now rewrite (@getUser_has_user userId st Hrow).
Qed.

Lemma createPayment_found
    (st : Store.t) (userId intent : string) (amount : Decimal) (id : Z)
    (dbNow : Timestamp) :
  fst (getUser userId st) <> None ->
  (forall q, In q (Store.payments st) -> Payment.userId q = userId ->
             Payment.stripePaymentIntentId q <> Some intent) ->
  find (names_intent (Text intent))
       (fst (getUserPayments userId
               (snd (createPayment (pending_payment userId amount intent)
                                   id dbNow st))))
  = Some (Payment.mk id userId None amount (Some intent) "pending"
                     (Some dbNow) None).
Proof.
  intros Hrow Hnew.
  rewrite (@createPayment_accepted st userId intent amount id dbNow Hrow).
  unfold getUserPayments, query.
  cbn [fst snd Store.payments Store.with_payments].
  apply find_only.
  - apply orderBy_desc_In. apply filter_In. split.
    + apply in_or_app. right. now left.
    + simpl. apply String.eqb_refl.
  - unfold names_intent. simpl. apply String.eqb_refl.
  - intros y Hy Hnames. apply orderBy_desc_In in Hy.
    apply filter_In in Hy. destruct Hy as [Hy Huser].
    apply String.eqb_eq in Huser.
    apply in_app_or in Hy. destruct Hy as [Hy | [<- | []]]; [|reflexivity].
    exfalso. apply (Hnew y Hy Huser).
    unfold names_intent, strict_eq in Hnames.
    destruct (Payment.stripePaymentIntentId y) as [s|]; [|discriminate].
    apply String.eqb_eq in Hnames. now subst s.
Qed.

(** X16. A recorded payment can be confirmed.  When a pending payment is
    recorded, under a new identifier, for a user under an intent that none
    of the user's payments names yet, the user's confirmation of that
    intent completes that payment and no other, stamps it with the time of
    completion, and lowers the user's stored balance by its amount, not
    below zero. *)
Theorem recorded_payment_is_confirmed
    (st : Store.t) (userId intent : string) (amount : Decimal) (id : Z)
    (dbNow now updatedAt : Timestamp) (u : User.t) :
  fst (getUser userId st) = Some u ->
  (forall q, In q (Store.payments st) -> Payment.id q <> id) ->
  (forall q, In q (Store.payments st) -> Payment.userId q = userId ->
             Payment.stripePaymentIntentId q <> Some intent) ->
  let st1 := snd (createPayment (pending_payment userId amount intent) id
                                dbNow st) in
  let st2 := snd (post_payment_confirm true (Text intent) now updatedAt
                                       userId st1) in
  In (Payment.mk id userId None amount (Some intent) "completed"
                 (Some dbNow) (Some now)) (Store.payments st2)
  /\ Store.payments st2
     = Store.payments st
       ++ [Payment.mk id userId None amount (Some intent) "completed"
                      (Some dbNow) (Some now)]
  /\ exists u2,
       fst (getUser userId st2) = Some u2
       /\ User.outstandingFines u2 = Some (Z.max 0 (balance u - amount)).
Proof.
  intros Huser Hfresh Hnew st1 st2.
  assert (Hrow : fst (getUser userId st) <> None)
    by (rewrite Huser; discriminate).
  pose proof (@createPayment_found st userId intent amount id dbNow Hrow
                Hnew) as Hfind.
  fold st1 in Hfind.
  assert (Hst1 : st1
                 = Store.with_payments
                     (Store.payments st
                      ++ [Payment.mk id userId None amount (Some intent)
                                     "pending" (Some dbNow) None]) st)
    by (unfold st1;
        now rewrite (@createPayment_accepted st userId intent amount id
                       dbNow Hrow)).
  assert (Huser1 : fst (getUser userId st1) = Some u)
    by (rewrite Hst1; exact Huser).
  destruct (@post_payment_confirm_result st1 (Text intent) now updatedAt
              userId _ u Hfind Huser1) as [u2 [Hget [Hbalance Hpay]]].
  fold st2 in Hget, Hpay. cbn [Payment.id Payment.amount] in *.
  split.
  { rewrite Hpay.
    apply (update_where_In (fun q => Payment.id q =? id) (completed now)
             (Store.payments st1)
             (Payment.mk id userId None amount (Some intent) "pending"
                         (Some dbNow) None)).
    - rewrite Hst1. cbn [Store.payments Store.with_payments].
      apply in_or_app. right. now left.
    - apply Z.eqb_refl. }
  split.
  { rewrite Hpay, Hst1.
    cbn [Store.payments Store.with_payments]. unfold update_where.
    rewrite map_app. f_equal.
    - apply (update_where_none (fun q => Payment.id q =? id)).
      intros q Hq. apply Z.eqb_neq. now apply Hfresh.
    - simpl. now rewrite Z.eqb_refl. }
  exists u2. auto.
Qed.

Lemma recorded_payment_is_confirmed_witness :
  fst (getUser "u1" owing) = Some member
  /\ (forall q, In q (Store.payments owing) -> Payment.id q <> 2)
  /\ (forall q, In q (Store.payments owing) -> Payment.userId q = "u1" ->
                Payment.stripePaymentIntentId q <> Some "pi_2")
  /\ In (Payment.mk 2 "u1" None 300 (Some "pi_2") "completed" (Some 5000)
                    (Some 6000))
        (Store.payments
           (snd (post_payment_confirm true (Text "pi_2") 6000 6001 "u1"
              (snd (createPayment (pending_payment "u1" 300 "pi_2") 2 5000
                                  owing))))).
Proof.
  assert (H : forall q, In q (Store.payments owing) ->
                        Payment.userId q = "u1" ->
                        Payment.stripePaymentIntentId q <> Some "pi_2").
  { intros q [<- | []] _. discriminate. }
  assert (Hid : forall q, In q (Store.payments owing) -> Payment.id q <> 2).
  { intros q [<- | []]. discriminate. }
  split; [reflexivity|]. split; [exact Hid|]. split; [exact H|].
  exact (proj1 (@recorded_payment_is_confirmed owing "u1" "pi_2" 300 2 5000
                  6000 6001 member eq_refl Hid H)).
Defined.

(** ** Dashboard, continued *)

Lemma filter_length_le (A : Type) (strict loose : A -> bool) (l : list A) :
  (forall x, strict x = true -> loose x = true) ->
  (List.length (filter strict l) <= List.length (filter loose l))%nat.
Proof.
  intros Himp. induction l as [|x l IH]; simpl; [lia|].
  destruct (strict x) eqn:Hs.
  - rewrite (Himp x Hs). simpl. lia.
  - destruct (loose x); simpl; lia.
Qed.

(** X17. In the dashboard statistics of any user the due-soon figure is
    never above the figure of active reservations, and neither is
    negative. *)
Theorem dashboard_due_soon_bounded
    (st : Store.t) (userId : string) (dbNow : Timestamp) :
  let stats := fst (getDashboardStats userId dbNow st) in
  0 <= Stats.dueSoon stats <= Stats.activeReservations stats.
Proof.
  cbv zeta.
  unfold getDashboardStats, getTotalFines, bind, ret, query, count.
  cbn [fst snd Stats.dueSoon Stats.activeReservations].
  split; [lia|]. apply inj_le. apply filter_length_le.
  intros x Hx. apply andb_prop in Hx. tauto.
Qed.




(** ** Listings *)

Lemma join_user_book_In (st : Store.t) (r : Reservation.t) (u : User.t)
    (b : Book.t) :
  In (r, u, b) (flat_map (join_user_book st) (Store.reservations st))
  <-> In r (Store.reservations st) /\ In u (Store.users st)
      /\ In b (Store.books st)
      /\ Reservation.userId r = User.id u
      /\ Reservation.bookId r = Book.id b.
Proof.
  rewrite in_flat_map. unfold join_user_book. split.
  - intros [r0 [Hr Hrow]]. apply in_flat_map in Hrow.
    destruct Hrow as [u0 [Hu Hrow]]. apply in_map_iff in Hrow.
    destruct Hrow as [b0 [Heq Hb]]. injection Heq as -> -> ->.
    apply filter_In in Hu. apply filter_In in Hb.
    destruct Hu as [Hu Huid], Hb as [Hb Hbid].
    apply String.eqb_eq in Huid. apply Z.eqb_eq in Hbid. auto.
  - intros [Hr [Hu [Hb [Huid Hbid]]]]. exists r. split; [exact Hr|].
    apply in_flat_map. exists u. split.
    + apply filter_In. split; [exact Hu|]. now apply String.eqb_eq.
    + apply in_map_iff. exists b. split; [reflexivity|].
      apply filter_In. split; [exact Hb|]. now apply Z.eqb_eq.
Qed.

(** X19. The overdue listing holds exactly the reservations that are
    active and due before the database's current time, each with the rows
    of its user and of its book.  No listed reservation is due soon at
    the same instant, for any user: a reservation due exactly now is due
    soon and not overdue. *)
Theorem overdue_listing
    (st : Store.t) (dbNow : Timestamp) (r : Reservation.t) (u : User.t)
    (b : Book.t) :
  (In (r, u, b) (fst (getOverdueReservations dbNow st))
   <-> In r (Store.reservations st) /\ In u (Store.users st)
       /\ In b (Store.books st)
       /\ Reservation.userId r = User.id u
       /\ Reservation.bookId r = Book.id b
       /\ Reservation.status r = "active"
       /\ Reservation.dueDate r < dbNow)
  /\ (In (r, u, b) (fst (getOverdueReservations dbNow st)) ->
      forall userId, ~ DueSoon userId dbNow r).
Proof.
  assert (Hiff :
    In (r, u, b) (fst (getOverdueReservations dbNow st))
    <-> In r (Store.reservations st) /\ In u (Store.users st)
        /\ In b (Store.books st)
        /\ Reservation.userId r = User.id u
        /\ Reservation.bookId r = Book.id b
        /\ Reservation.status r = "active"
        /\ Reservation.dueDate r < dbNow).
  { unfold getOverdueReservations, query. cbn [fst].
    rewrite orderBy_desc_In, filter_In, join_user_book_In. cbn [fst snd].
    rewrite andb_true_iff, String.eqb_eq, Z.ltb_lt. tauto. }
  split; [exact Hiff|].
  intros Hin userId [_ [_ [Hlo _]]].
  apply Hiff in Hin. lia.
Qed.

Lemma overdue_listing_witness :
  In (Reservation.mk 7 "u2" 1 "active" (Some 1000) 1209601000 None,
      librarian, dune)
     (fst (getOverdueReservations 1209601001 on_loan))
  /\ ~ DueSoon "u2" 1209601001
         (Reservation.mk 7 "u2" 1 "active" (Some 1000) 1209601000 None).
Proof.
  assert (H : In (Reservation.mk 7 "u2" 1 "active" (Some 1000) 1209601000
                                 None, librarian, dune)
                 (fst (getOverdueReservations 1209601001 on_loan)))
    by (now left).
  split; [exact H|].
  exact (proj2 (@overdue_listing on_loan 1209601001 _ librarian dune) H "u2").
Defined.

Lemma getUserReservations_In (st : Store.t) (userId : string)
    (r : Reservation.t) (b : Book.t) :
  In (r, b) (fst (getUserReservations userId st))
  <-> In r (Store.reservations st) /\ In b (Store.books st)
      /\ Reservation.bookId r = Book.id b
      /\ Reservation.userId r = userId.
Proof.
  unfold getUserReservations, query. cbn [fst].
  rewrite orderBy_desc_In, filter_In, in_flat_map. cbn [fst].
  rewrite String.eqb_eq. split.
  - intros [[r0 [Hr Hrow]] Huser]. apply in_map_iff in Hrow.
    destruct Hrow as [b0 [Heq Hb]]. injection Heq as -> ->.
    apply filter_In in Hb. destruct Hb as [Hb Hid].
    apply Z.eqb_eq in Hid. auto.
  - intros [Hr [Hb [Hid Huser]]]. split; [|exact Huser].
    exists r. split; [exact Hr|]. apply in_map_iff. exists b.
    split; [reflexivity|]. apply filter_In. split; [exact Hb|].
    now apply Z.eqb_eq.
Qed.

Lemma filter_key_one (l : list Book.t) (b : Book.t) :
  NoDup (map Book.id l) -> In b l ->
  filter (fun x => Book.id b =? Book.id x) l = [b].
Proof.
  induction l as [|x l IH]; simpl; [tauto|].
  intros Hnodup Hin. inversion Hnodup as [|k ks Hnotin Hrest]; subst.
  destruct Hin as [-> | Hin].
  - rewrite Z.eqb_refl. f_equal. apply filter_none.
    intros y Hy. apply Z.eqb_neq. intros Heq. apply Hnotin.
    rewrite Heq. now apply in_map.
  - assert (Hneq : (Book.id b =? Book.id x) = false).
    { apply Z.eqb_neq. intros Heq. apply Hnotin. rewrite <- Heq.
      now apply in_map. }
    rewrite Hneq. now apply IH.
Qed.

Lemma joined_once (books : list Book.t) (userId : string)
    (rows : list Reservation.t) :
  NoDup (map Book.id books) ->
  (forall r, In r rows ->
             exists b, In b books /\ Book.id b = Reservation.bookId r) ->
  map fst
      (filter (fun row : Reservation.t * Book.t =>
                 (Reservation.userId (fst row) =? userId)%string)
         (flat_map
            (fun r =>
               map (fun b => (r, b))
                   (filter (fun b => Reservation.bookId r =? Book.id b)
                           books))
            rows))
  = filter (fun r => (Reservation.userId r =? userId)%string) rows.
Proof.
  intros Hkey Hrecord. induction rows as [|r rows IH]; [reflexivity|].
  destruct (Hrecord r (or_introl eq_refl)) as [b [Hb Hid]].
  assert (IH' := IH (fun r' Hr' => Hrecord r' (or_intror Hr'))).
  cbn [flat_map]. rewrite <- Hid, (@filter_key_one books b Hkey Hb).
  cbn [map app]. cbn [filter fst].
  destruct (Reservation.userId r =? userId)%string; cbn [map fst];
    now rewrite IH'.
Qed.

(** X20. A member's listing has one row for each of the member's
    reservations and no other: when the book identifiers are distinct and
    every reservation refers to a stored book, the reservations listed
    are, up to order, the member's rows of the reservation table, each
    with the book it refers to, the latest reserved first. *)
Theorem member_listing_is_complete (st : Store.t) (userId : string) :
  NoDup (map Book.id (Store.books st)) ->
  books_on_record st ->
  let listing := fst (getUserReservations userId st) in
  Permutation (map fst listing)
              (filter (fun r => (Reservation.userId r =? userId)%string)
                      (Store.reservations st))
  /\ (forall r b, In (r, b) listing ->
                  In b (Store.books st)
                  /\ Book.id b = Reservation.bookId r)
  /\ StronglySorted
       (fun row row' =>
          desc_before (Reservation.reservedAt (fst row))
                      (Reservation.reservedAt (fst row')) = true)
       listing.
Proof.
  intros Hkey Hrecord listing. split; [|split].
  - unfold listing, getUserReservations, query. cbn [fst].
    rewrite <- (@joined_once (Store.books st) userId (Store.reservations st)
                  Hkey Hrecord).
    apply Permutation_map. apply Permutation_sym.
    apply orderBy_desc_Permutation.
  - intros r b Hin. apply getUserReservations_In in Hin.
    destruct Hin as [_ [Hb [Hid _]]]. auto.
  - unfold listing, getUserReservations, query. cbn [fst].
    apply (orderBy_desc_sorted
             (fun row : Reservation.t * Book.t =>
                Reservation.reservedAt (fst row))).
Qed.

Lemma member_listing_is_complete_witness :
  NoDup (map Book.id (Store.books on_loan))
  /\ books_on_record on_loan
  /\ Permutation
       (map fst (fst (getUserReservations "u2" on_loan)))
       (filter (fun r => (Reservation.userId r =? "u2")%string)
               (Store.reservations on_loan)).
Proof.
  assert (Hkey : NoDup (map Book.id (Store.books on_loan))).
  { simpl. constructor; [simpl; tauto|constructor]. }
  assert (Hrecord : books_on_record on_loan).
  { intros r [<- | []]. exists dune. split; [now left|reflexivity]. }
  split; [exact Hkey|]. split; [exact Hrecord|].
  exact (proj1 (@member_listing_is_complete on_loan "u2" Hkey Hrecord)).
Defined.

(** ** Fines *)

Lemma unpaid_total_app (userId : string) (l1 l2 : list Fine.t) :
  unpaid_total userId (l1 ++ l2)
  = unpaid_total userId l1 + unpaid_total userId l2.
Proof.
  induction l1 as [|f l1 IH]; simpl; [reflexivity|].
  destruct (string_dec (Fine.userId f) userId);
    [destruct (string_dec (Fine.status f) "unpaid")|]; rewrite IH; lia.
Qed.

Lemma getTotalFines_unpaid_total (userId : string) (st : Store.t) :
  fst (getTotalFines userId st) = unpaid_total userId (Store.fines st).
Proof. unfold getTotalFines, query. cbn [fst]. apply sum_unpaid_total. Qed.

(** X21. A fine counts until it is paid.  A fine created for a user with
    the default status, under a new identifier, raises the user's total of
    unpaid fines by its amount and leaves the total of every other user;
    marking that fine paid brings every total back to what it was before
    the fine. *)
Theorem fine_counts_until_paid
    (st : Store.t) (userId reason : string) (amount : Decimal) (id : Z)
    (dbNow paidAt : Timestamp) :
  fst (getUser userId st) <> None ->
  (forall f, In f (Store.fines st) -> Fine.id f <> id) ->
  let st1 := snd (createFine (new_fine userId amount reason) id dbNow st) in
  let st2 := snd (updateFine id (mark_paid paidAt) st1) in
  fst (getTotalFines userId st1) = fst (getTotalFines userId st) + amount
  /\ (forall other, other <> userId ->
        fst (getTotalFines other st1) = fst (getTotalFines other st))
  /\ (forall who, fst (getTotalFines who st2) = fst (getTotalFines who st))
  /\ fst (updateFine id (mark_paid paidAt) st1)
     = Some (Fine.mk id userId None amount reason "paid" (Some dbNow)
                     (Some paidAt)).
Proof.
  intros _ Hfresh st1 st2.
  assert (Hnone : forall x, In x (Store.fines st) -> (Fine.id x =? id) = false)
    by (intros x Hx; apply Z.eqb_neq; now apply Hfresh).
  rewrite !getTotalFines_unpaid_total.
  unfold st2, st1, updateFine, createFine, returning.
  cbn [fst snd Store.fines with_fines new_fine InsertFine.userId
       InsertFine.reservationId InsertFine.amount InsertFine.reason
       InsertFine.status InsertFine.paidAt assign].
  split; [|split; [|split]].
  - rewrite unpaid_total_app. simpl.
    destruct (string_dec userId userId); [lia|congruence].
  - intros other Hother. rewrite !getTotalFines_unpaid_total.
    cbn [Store.fines with_fines]. rewrite unpaid_total_app. simpl.
    destruct (string_dec userId other); [congruence|lia].
  - intros who. rewrite !getTotalFines_unpaid_total.
    cbn [Store.fines with_fines].
    unfold update_where. rewrite map_app.
    rewrite (update_where_none _ _ _ Hnone : map _ _ = _).
    rewrite unpaid_total_app. simpl. rewrite Z.eqb_refl. simpl.
    destruct (string_dec userId who); lia.
  - rewrite filter_app, (filter_none _ _ Hnone). simpl.
    rewrite Z.eqb_refl. reflexivity.
Qed.

Lemma fine_counts_until_paid_witness :
  fst (getUser "u2" fined) <> None
  /\ (forall f, In f (Store.fines fined) -> Fine.id f <> 3)
  /\ fst (getTotalFines "u2"
            (snd (createFine (new_fine "u2" 150 "Damaged cover") 3 5000
                             fined)))
     = fst (getTotalFines "u2" fined) + 150.
Proof.
  assert (Hrow : fst (getUser "u2" fined) <> None) by discriminate.
  assert (Hid : forall f, In f (Store.fines fined) -> Fine.id f <> 3).
  { intros f [<- | [<- | []]]; discriminate. }
  split; [exact Hrow|]. split; [exact Hid|].
  exact (proj1 (@fine_counts_until_paid fined "u2" "Damaged cover" 150 3
                  5000 6000 Hrow Hid)).
Defined.

(** ** Catalogue search *)

Lemma searchBooks_In (ilike : string -> string -> bool) (query : string)
    (filters : option Filters.t) (st : Store.t) (b : Book.t) :
  In b (fst (searchBooks ilike query filters st))
  <-> In b (Store.books st)
      /\ forallb (fun c => c b) (conditions ilike query filters) = true.
Proof.
  unfold searchBooks. cbn [fst]. rewrite orderBy_desc_In.
  destruct (conditions ilike query filters) as [|c cs].
  - simpl. tauto.
  - apply filter_In.
Qed.

(** X22. A search without a criterion returns the whole catalogue, latest
    first.  An absent or empty search text, genre or author, an
    availability other than "available" and "unavailable", and a year
    that is absent, empty, unparsable or zero are no criterion. *)
Theorem search_without_criterion
    (ilike : string -> string -> bool) (parseInt : string -> Num)
    (q : BooksQuery.t) (st : Store.t) :
  nonempty (BooksQuery.search q) = None ->
  nonempty (BooksQuery.genre q) = None ->
  nonempty (BooksQuery.author q) = None ->
  BooksQuery.availability q <> Some "available" ->
  BooksQuery.availability q <> Some "unavailable" ->
  nonzero (parse_year parseInt (BooksQuery.yearFrom q)) = None ->
  nonzero (parse_year parseInt (BooksQuery.yearTo q)) = None ->
  get_books ilike parseInt q st = (BookList 200 (fst (getAllBooks st)), st).
Proof.
  intros Hsearch Hgenre Hauthor Havailable Hunavailable Hfrom Hto.
  unfold get_books, bind, ret, searchBooks, conditions, chain, or_empty.
  cbn [Filters.genre Filters.author Filters.availability Filters.yearFrom
       Filters.yearTo].
  rewrite Hsearch, Hgenre, Hauthor, Hfrom, Hto. cbn [nonempty String.eqb].
  destruct (BooksQuery.availability q) as [availability|]; [|reflexivity].
  destruct (String.eqb_spec availability "available") as [->|_];
    [congruence|].
  destruct (String.eqb_spec availability "unavailable") as [->|_];
    [congruence|reflexivity].
Qed.

Lemma search_without_criterion_witness :
  let q := BooksQuery.mk (Some "") None None (Some "any") (Some "0")
                         (Some "soon") in
  let parseInt := fun s => if (s =? "0")%string then Int 0 else NaN in
  nonempty (BooksQuery.search q) = None
  /\ nonempty (BooksQuery.genre q) = None
  /\ nonempty (BooksQuery.author q) = None
  /\ BooksQuery.availability q <> Some "available"
  /\ BooksQuery.availability q <> Some "unavailable"
  /\ nonzero (parse_year parseInt (BooksQuery.yearFrom q)) = None
  /\ nonzero (parse_year parseInt (BooksQuery.yearTo q)) = None
  /\ get_books (fun _ _ => false) parseInt q library
     = (BookList 200 (fst (getAllBooks library)), library).
Proof.
  cbv zeta.
  assert (Ha : Some "any" <> Some "available") by discriminate.
  assert (Hu : Some "any" <> Some "unavailable") by discriminate.
  repeat (split; [first [reflexivity | exact Ha | exact Hu]|]).
  exact (@search_without_criterion (fun _ _ => false)
           (fun s => if (s =? "0")%string then Int 0 else NaN)
           (BooksQuery.mk (Some "") None None (Some "any") (Some "0")
                          (Some "soon"))
           library eq_refl eq_refl eq_refl Ha Hu eq_refl eq_refl).
Defined.

(** X23. Every book that a search returns is a stored book and meets each
    criterion given: the genre exactly, a count of available copies above
    zero for "available" and equal to zero for "unavailable", and a year
    of publication, which it must have, within the bounds given. *)
Theorem search_results_meet_criteria
    (ilike : string -> string -> bool) (query : string) (f : Filters.t)
    (st : Store.t) (b : Book.t) :
  In b (fst (searchBooks ilike query (Some f) st)) ->
  In b (Store.books st)
  /\ (forall genre, Filters.genre f = Some genre -> genre <> "" ->
                    Book.genre b = genre)
  /\ (Filters.availability f = Some "available" ->
      0 < Book.availableCopies b)
  /\ (Filters.availability f = Some "unavailable" ->
      Book.availableCopies b = 0)
  /\ (forall y, Filters.yearFrom f = Some (Int y) -> y <> 0 ->
                exists year, Book.publicationYear b = Some year /\ y <= year)
  /\ (forall y, Filters.yearTo f = Some (Int y) -> y <> 0 ->
                exists year, Book.publicationYear b = Some year /\ year <= y).
Proof.
  intros Hin. apply searchBooks_In in Hin. destruct Hin as [Hin Hall].
  split; [exact Hin|].
  unfold conditions, chain in Hall. rewrite !forallb_app in Hall.
  repeat (apply andb_prop in Hall; destruct Hall as [? Hall]).
  repeat split.
  - intros genre Hgenre Hne.
    rewrite Hgenre in *. cbn [nonempty] in *.
    destruct (String.eqb_spec genre "") as [|_]; [contradiction|].
    cbn [forallb] in *. rewrite andb_true_r in *. now apply String.eqb_eq.
  - intros Havail. rewrite Havail in *. cbn [String.eqb forallb] in *.
    simpl in *. rewrite andb_true_r in *. now apply Z.ltb_lt.
  - intros Havail. rewrite Havail in *. cbn [String.eqb forallb] in *.
    simpl in *. rewrite andb_true_r in *. now apply Z.eqb_eq.
  - intros y Hy Hne. rewrite Hy in *. cbn [nonzero] in *.
    destruct (Z.eqb_spec y 0) as [|_]; [contradiction|].
    cbn [forallb] in *. rewrite andb_true_r in *.
    destruct (Book.publicationYear b) as [year|]; [|discriminate].
    exists year. split; [reflexivity|]. now apply Z.leb_le.
  - intros y Hy Hne. rewrite Hy in *. cbn [nonzero] in *.
    destruct (Z.eqb_spec y 0) as [|_]; [contradiction|].
    cbn [forallb] in *. rewrite andb_true_r in *.
    destruct (Book.publicationYear b) as [year|]; [|discriminate].
    exists year. split; [reflexivity|]. now apply Z.leb_le.
Qed.

Lemma search_results_meet_criteria_witness :
  let f := Filters.mk (Some "Fiction") None (Some "unavailable")
                      (Some (Int 1800)) (Some (Int 1900)) in
  In emma (fst (searchBooks (fun _ _ => false) "" (Some f) shelves))
  /\ Book.genre emma = "Fiction"
  /\ Book.availableCopies emma = 0.
Proof.
  cbv zeta.
  assert (H : In emma
                (fst (searchBooks (fun _ _ => false) ""
                        (Some (Filters.mk (Some "Fiction") None
                                 (Some "unavailable") (Some (Int 1800))
                                 (Some (Int 1900))))
                        shelves)))
    by (now left).
  pose proof (@search_results_meet_criteria (fun _ _ => false) "" _ shelves
                emma H) as [_ [Hgenre [_ [Hzero _]]]].
  split; [exact H|].
  split; [apply (Hgenre "Fiction" eq_refl); discriminate|].
  exact (Hzero eq_refl).
Defined.

(** X24. The availability filter sorts the catalogue by the sign of the
    count.  With no other criterion, "available" returns exactly the
    stored books with a count of available copies above zero and
    "unavailable" exactly those with a count of zero; a stored book is
    returned by one of the two exactly when its count is not negative, so
    a book with a negative count is found under neither. *)
Theorem availability_filter
    (ilike : string -> string -> bool) (st : Store.t) (b : Book.t) :
  let found := fun availability =>
    In b (fst (searchBooks ilike "" (only_availability availability) st)) in
  (found "available" <-> In b (Store.books st) /\ 0 < Book.availableCopies b)
  /\ (found "unavailable"
      <-> In b (Store.books st) /\ Book.availableCopies b = 0)
  /\ (In b (Store.books st) ->
      (found "available" \/ found "unavailable"
       <-> 0 <= Book.availableCopies b)).
Proof.
  cbv zeta.
  assert (Ha : In b (fst (searchBooks ilike "" (only_availability "available")
                                      st))
               <-> In b (Store.books st) /\ 0 < Book.availableCopies b).
  { rewrite searchBooks_In. simpl.
    rewrite andb_true_r, Z.ltb_lt. tauto. }
  assert (Hu : In b (fst (searchBooks ilike ""
                            (only_availability "unavailable") st))
               <-> In b (Store.books st) /\ Book.availableCopies b = 0).
  { rewrite searchBooks_In. simpl.
    rewrite andb_true_r, Z.eqb_eq. tauto. }
  split; [exact Ha|]. split; [exact Hu|].
  intros Hin. rewrite Ha, Hu. split.
  - intros [[_ H] | [_ H]]; lia.
  - intros H. destruct (Z.eq_dec (Book.availableCopies b) 0); [right|left];
      split; auto; lia.
Qed.

Lemma availability_filter_witness :
  In ulysses (Store.books shelves)
  /\ Book.availableCopies ulysses = -1
  /\ ~ (In ulysses
          (fst (searchBooks (fun _ _ => false) ""
                            (only_availability "available") shelves))
        \/ In ulysses
             (fst (searchBooks (fun _ _ => false) ""
                               (only_availability "unavailable") shelves))).
Proof.
  assert (H : In ulysses (Store.books shelves)) by (right; right; now left).
  split; [exact H|]. split; [reflexivity|].
  intros Hfound.
  apply (proj2 (proj2 (@availability_filter (fun _ _ => false) shelves
                         ulysses)) H) in Hfound.
  simpl in Hfound. lia.
Defined.

(** ** Users *)

(** X25. Stripe references are recorded on the user row and found again.
    For a user with a row, the update returns the row that a later lookup
    finds; its customer reference is the one given; its subscription
    reference is the one given when one is given and is not the empty
    string, and is kept otherwise; role and balance are kept. *)
Theorem stripe_info_is_recorded
    (st : Store.t) (id customerId : string) (subscriptionId : option string)
    (now : Timestamp) (u : User.t) :
  fst (getUser id st) = Some u ->
  exists u',
    fst (updateUserStripeInfo id customerId subscriptionId now st) = Some u'
    /\ fst (getUser id
              (snd (updateUserStripeInfo id customerId subscriptionId now
                                         st))) = Some u'
    /\ User.stripeCustomerId u' = Some customerId
    /\ User.stripeSubscriptionId u'
       = match subscriptionId with
         | Some s => if (s =? "")%string then User.stripeSubscriptionId u
                     else Some s
         | None => User.stripeSubscriptionId u
         end
    /\ User.role u' = User.role u
    /\ User.outstandingFines u' = User.outstandingFines u.
Proof.
  unfold getUser, updateUserStripeInfo, query, returning. cbn [fst snd].
  intros Hget. cbn [Store.users Store.with_users].
  rewrite filter_update_where by reflexivity.
  rewrite !first_map, Hget. cbn [option_map].
  eexists. split; [reflexivity|]. split; [reflexivity|].
  unfold given.
  destruct subscriptionId as [s|]; [destruct (s =? "")%string|];
    repeat split.
Qed.

Lemma stripe_info_is_recorded_witness :
  fst (getUser "u1" library) = Some member
  /\ exists u',
       fst (updateUserStripeInfo "u1" "cus_1" (Some "") 5000 library)
       = Some u'
       /\ fst (getUser "u1"
                 (snd (updateUserStripeInfo "u1" "cus_1" (Some "") 5000
                                            library))) = Some u'
       /\ User.stripeCustomerId u' = Some "cus_1"
       /\ User.stripeSubscriptionId u' = User.stripeSubscriptionId member
       /\ User.role u' = User.role member
       /\ User.outstandingFines u' = User.outstandingFines member.
Proof.
  split; [reflexivity|].
  exact (@stripe_info_is_recorded library "u1" "cus_1" (Some "") 5000 member
           eq_refl).
Defined.

(** X26. A deleted user is locked out of the administrator routes at
    once, session or not.  After the deletion of a user that no
    reservation, fine or payment refers to, the lookup of the user finds
    nothing, the other users are found as before, and for a session that
    still passes the check the user route answers 200 with no user and the
    administrator listing answers 403. *)
Theorem deleted_user_is_locked_out
    (authMiddleware : Middleware) (session : Session.t) (t : Timestamp)
    (claims : Session.Claims) (st : Store.t) :
  authMiddleware session t = inr claims ->
  (forall r, In r (Store.reservations st) ->
             Reservation.userId r <> Session.sub claims) ->
  (forall f, In f (Store.fines st) -> Fine.userId f <> Session.sub claims) ->
  (forall p, In p (Store.payments st) ->
             Payment.userId p <> Session.sub claims) ->
  let st' := snd (deleteUser (Session.sub claims) st) in
  fst (getUser (Session.sub claims) st') = None
  /\ (forall other, other <> Session.sub claims ->
                    fst (getUser other st') = fst (getUser other st))
  /\ protect authMiddleware session t get_auth_user st'
     = (OneUser 200 None, st')
  /\ route authMiddleware session t get_admin_users st'
     = (mkResponse 403 (Message "Admin access required"), st').
Proof.
  intros Hauth _ _ _ st'.
  assert (Hgone : fst (getUser (Session.sub claims) st') = None).
  { unfold st', getUser, deleteUser, query, exec.
    cbn [fst snd Store.users Store.with_users].
    rewrite filter_none; [reflexivity|].
    intros x Hx. apply filter_In in Hx. destruct Hx as [_ Hx].
    now apply negb_true_iff in Hx. }
  split; [exact Hgone|]. split.
  { intros other Hother.
    unfold st', getUser, deleteUser, query, exec.
    cbn [fst snd Store.users Store.with_users].
    rewrite filter_after_delete; [reflexivity|].
    intros x Hx. apply String.eqb_eq in Hx. apply negb_true_iff.
    apply String.eqb_neq. congruence. }
  unfold protect, route. rewrite Hauth.
  unfold get_auth_user, get_admin_users, bind, ret.
  unfold getUser, query in *. cbn [fst snd] in *.
  rewrite Hgone. split; reflexivity.
Qed.

Lemma deleted_user_is_locked_out_witness :
  isAuthenticated librarian_session 2000500
  = inr (Session.mkClaims "u2" 4000)
  /\ route isAuthenticated librarian_session 2000500 get_admin_users
           (snd (deleteUser "u2" library))
     = (mkResponse 403 (Message "Admin access required"),
        snd (deleteUser "u2" library)).
Proof.
  split; [reflexivity|].
  refine (proj2 (proj2 (proj2
    (@deleted_user_is_locked_out isAuthenticated librarian_session 2000500
       (Session.mkClaims "u2" 4000) library eq_refl _ _ _)))).
  - intros r [].
  - intros f [].
  - intros p [].
Defined.

Lemma getActiveReservations_In (st : Store.t) (r : Reservation.t)
    (u : User.t) (b : Book.t) :
  In (r, u, b) (fst (getActiveReservations st))
  <-> (In r (Store.reservations st) /\ In u (Store.users st)
       /\ In b (Store.books st)
       /\ Reservation.userId r = User.id u
       /\ Reservation.bookId r = Book.id b)
      /\ Reservation.status r = "active".
Proof.
  unfold getActiveReservations, query. cbn [fst].
  rewrite orderBy_desc_In, filter_In, join_user_book_In. cbn [fst].
  now rewrite String.eqb_eq.
Qed.

Lemma listing_after_completion
    (st : Store.t) (id : Z) (values : Reservation.Partial.t)
    (r : Reservation.t) (u : User.t) (b : Book.t) :
  Reservation.Partial.status values = Some "completed" ->
  In (r, u, b)
     (fst (getActiveReservations
             (Store.with_reservations
                (update_where (fun x => Reservation.id x =? id)
                              (Reservation.set values)
                              (Store.reservations st)) st)))
  <-> In (r, u, b) (fst (getActiveReservations st))
      /\ Reservation.id r <> id.
Proof.
  intros Hstatus. rewrite !getActiveReservations_In.
  cbn [Store.reservations Store.users Store.books Store.with_reservations].
  unfold update_where. rewrite in_map_iff. split.
  - intros [[[r0 [Hr0 Hin]] Hrest] Hactive].
    destruct (Z.eqb_spec (Reservation.id r0) id) as [Heq|Hneq].
    + subst r. unfold Reservation.set in Hactive.
      cbn [Reservation.status] in Hactive. rewrite Hstatus in Hactive.
      discriminate Hactive.
    + subst r. tauto.
  - intros [[[Hin Hrest] Hactive] Hneq].
    split; [|exact Hactive]. split; [|exact Hrest].
    exists r. split; [|exact Hin].
    destruct (Z.eqb_spec (Reservation.id r) id); [contradiction|reflexivity].
Qed.

(** X27. A reservation marked completed leaves the list of active
    reservations.  After the update that gives the reservation of an
    identifier the status "completed", with no completion time or with
    null, the administrator's listing holds exactly the rows it held
    before whose reservation has another identifier.  The body that holds
    a completion time, which arrives as a string, leaves the listing as
    it was. *)
Theorem completed_reservation_leaves_listing
    (st : Store.t) (id : Z) (userId : string)
    (r : Reservation.t) (u : User.t) (b : Book.t) :
  (In (r, u, b)
      (fst (getActiveReservations
              (snd (put_reservations id (mark_completed None) userId st))))
   <-> In (r, u, b) (fst (getActiveReservations st))
       /\ Reservation.id r <> id)
  /\ (In (r, u, b)
         (fst (getActiveReservations
                 (snd (put_reservations id (mark_completed (Some JsonNull))
                                        userId st))))
      <-> In (r, u, b) (fst (getActiveReservations st))
          /\ Reservation.id r <> id)
  /\ forall text,
       fst (getActiveReservations
              (snd (put_reservations id
                      (mark_completed (Some (JsonText text))) userId st)))
       = fst (getActiveReservations st).
Proof.
  assert (Hdone : forall completedAt,
    (forall text, completedAt <> Some (JsonText text)) ->
    In (r, u, b)
       (fst (getActiveReservations
               (snd (put_reservations id (mark_completed completedAt)
                                      userId st))))
    <-> In (r, u, b) (fst (getActiveReservations st))
        /\ Reservation.id r <> id).
  { intros completedAt Hfit.
    destruct (@mark_completed_accepted id completedAt userId st Hfit)
      as [values [Hvalues ->]].
    destruct (@mark_completed_values completedAt values Hvalues)
      as [_ [_ [_ [Hstatus _]]]].
    cbn [snd]. now apply listing_after_completion. }
  split; [apply Hdone; discriminate|].
  split; [apply Hdone; intros text; discriminate|].
  intros text. reflexivity.
Qed.

Example returned_book_leaves_listing :
  fst (getActiveReservations on_loan)
  = [(Reservation.mk 7 "u2" 1 "active" (Some 1000) 1209601000 None,
      librarian, dune)]
  /\ fst (getActiveReservations
            (snd (put_reservations 7 (mark_completed None) "u1" on_loan)))
     = []
  /\ fst (getActiveReservations
            (snd (put_reservations 7
                    (mark_completed
                       (Some (JsonText "2025-06-01T10:00:00.000Z")))
                    "u1" on_loan)))
     = fst (getActiveReservations on_loan).
Proof. repeat split. Qed.

(** X28. Without a session only the catalogue can be read, apart from
    logging in and out.  When the session check refuses a request, every
    route behind it answers with the refusal of the check and leaves the
    store as it was; the two catalogue reads are served and leave the
    store as it was; the logout is answered 200 and leaves the store as
    it was; the login is answered 200, unless a user other than the demo
    user holds the demo address: it is then answered 500 and leaves the
    store as it was. *)
Theorem refused_requests_do_nothing
    (stripe : bool) (zone : TimeZone) (authMiddleware : Middleware)
    (ilike : string -> string -> bool) (parseInt : string -> Num)
    (session : Session.t) (clock : Clock) (request : Request)
    (st : Store.t) (denied : Response) :
  authMiddleware session (sessionNow clock) = inl denied ->
  let served := registerRoutes stripe zone authMiddleware ilike parseInt
                               session clock request st in
  match request with
  | GET_books _ | GET_books_id _ => snd served = st
  | POST_login =>
      if email_is_held demoUser st then served = (login_failed, st)
      else fst served = Notice 200 "Logged in as demo user"
  | GET_logout => served = (Notice 200 "Logged out", st)
  | _ => served = (Plain denied, st)
  end.
Proof.
  intros Hdenied. cbv zeta.
  destruct request; cbn [registerRoutes]; unfold protect;
    rewrite ?Hdenied; try reflexivity.
  - rewrite login_run.
    destruct (email_is_held demoUser st); [reflexivity|].
    cbn [fst]. unfold post_login, bind, ret.
    now destruct (upsertUser _ _ _ _).
  - rewrite respond_run. cbn [snd]. apply get_book_read.
Qed.

Lemma refused_requests_do_nothing_witness :
  isAuthenticated (Session.mk None) 2000500
  = inl (mkResponse 401 (Message "Unauthorized"))
  /\ registerRoutes true utc isAuthenticated (fun _ _ => false)
       (fun _ => NaN) (Session.mk None) (mkClock 2000500 5000 5004 5003)
       (POST_reservations 1) library
     = (Plain (mkResponse 401 (Message "Unauthorized")), library).
Proof.
  split; [reflexivity|].
  exact (@refused_requests_do_nothing true utc isAuthenticated
           (fun _ _ => false) (fun _ => NaN) (Session.mk None)
           (mkClock 2000500 5000 5004 5003) (POST_reservations 1) library
           (mkResponse 401 (Message "Unauthorized")) eq_refl).
Defined.

(** ** Sidebar *)

(** X29. The sidebar shows the administration entries to administrators
    only, and the five common entries to users and administrators; a
    missing or empty role counts as "user", and any other role sees no
    entry at all. *)
Theorem sidebar_entries_by_role (role : option string) :
  (shown role adminItems
   = if (role_or_user role =? "admin")%string then adminItems else [])
  /\ (shown role menuItems
      = if (role_or_user role =? "user")%string
           || (role_or_user role =? "admin")%string
        then menuItems else [])
  /\ (nonempty role = None -> shown role menuItems = menuItems
                              /\ shown role adminItems = []).
Proof.
  assert (Hadmin :
    shown role adminItems
    = if (role_or_user role =? "admin")%string then adminItems else []).
  { unfold shown, adminItems, includes. cbn [filter roles existsb].
    rewrite (String.eqb_sym "admin"). rewrite orb_false_r.
    destruct (role_or_user role =? "admin")%string; reflexivity. }
  assert (Hmenu :
    shown role menuItems
    = if (role_or_user role =? "user")%string
         || (role_or_user role =? "admin")%string
      then menuItems else []).
  { unfold shown, menuItems, includes. cbn [filter roles existsb].
    rewrite (String.eqb_sym "admin"), (String.eqb_sym "user").
    rewrite orb_false_r.
    destruct ((role_or_user role =? "user")%string
              || (role_or_user role =? "admin")%string); reflexivity. }
  split; [exact Hadmin|]. split; [exact Hmenu|].
  intros Hnone. rewrite Hmenu, Hadmin. unfold role_or_user.
  rewrite Hnone. split; reflexivity.
Qed.

Lemma sidebar_entries_by_role_witness :
  nonempty (Some "") = None
  /\ shown (Some "") menuItems = menuItems
  /\ shown (Some "") adminItems = [].
Proof.
  split; [reflexivity|].
  exact (proj2 (proj2 (sidebar_entries_by_role (Some ""))) eq_refl).
Defined.

Lemma prefix_comparable (a b s : string) :
  String.prefix a s = true -> String.prefix b s = true ->
  String.prefix a b = true \/ String.prefix b a = true.
Proof.
  revert a b. induction s as [|c s IH]; intros a b Ha Hb.
  - destruct a; [|discriminate]. left. now destruct b.
  - destruct a as [|ca a]; [left; now destruct b|].
    destruct b as [|cb b]; [right; reflexivity|].
    simpl in *.
    destruct (Ascii.ascii_dec ca c) as [->|]; [|discriminate].
    destruct (Ascii.ascii_dec cb c) as [->|]; [|discriminate].
    destruct (Ascii.ascii_dec c c); [|congruence].
    now apply IH.
Qed.

(** X30. The sidebar highlights at most one entry: whatever the location,
    two entries that are both active are the same entry. *)
Theorem sidebar_one_active_entry (location : string) (item item' : MenuItem) :
  In item (menuItems ++ adminItems) ->
  In item' (menuItems ++ adminItems) ->
  isActive location (path item) = true ->
  isActive location (path item') = true ->
  item = item'.
Proof.
  intros Hin Hin' Hactive Hactive'.
  assert (Hcases : forall p,
    isActive location p = true ->
    (p = "/" /\ location = "/")
    \/ (p <> "/" /\ String.prefix p location = true)).
  { intros p Hp. unfold isActive in Hp.
    destruct (p =? "/")%string eqn:Hroot; cbn [andb negb] in Hp.
    - apply String.eqb_eq in Hroot.
      destruct (String.eqb_spec location "/"); [left; auto|discriminate].
    - apply String.eqb_neq in Hroot.
      destruct (String.prefix p location); [right; auto|discriminate]. }
  apply Hcases in Hactive. apply Hcases in Hactive'.
  simpl in Hin, Hin'.
  repeat (destruct Hin as [<- | Hin]; [|]); try contradiction;
    repeat (destruct Hin' as [<- | Hin']; [|]); try contradiction;
    try reflexivity; exfalso; cbn [path] in *;
    destruct Hactive as [[Hp Hl] | [Hp Hpre]];
    destruct Hactive' as [[Hp' Hl'] | [Hp' Hpre']];
    try discriminate; try congruence;
    try (subst location; discriminate);
    destruct (prefix_comparable _ _ _ Hpre Hpre'); discriminate.
Qed.

Lemma sidebar_one_active_entry_witness :
  In (mkItem "Inventory" "/admin/inventory" ["admin"])
     (menuItems ++ adminItems)
  /\ isActive "/admin/inventory/7"
              (path (mkItem "Inventory" "/admin/inventory" ["admin"]))
     = true
  /\ forall item,
       In item (menuItems ++ adminItems) ->
       isActive "/admin/inventory/7" (path item) = true ->
       mkItem "Inventory" "/admin/inventory" ["admin"] = item.
Proof.
  assert (H : In (mkItem "Inventory" "/admin/inventory" ["admin"])
                 (menuItems ++ adminItems)).
  { simpl. tauto. }
  split; [exact H|]. split; [reflexivity|].
  intros item Hin Hactive.
  exact (@sidebar_one_active_entry "/admin/inventory/7" _ item H Hin
           eq_refl Hactive).
Defined.
